(** * Availability engine of gcal-availability (src/App.tsx)

    A shallow embedding of the computation performed by
    [processCalendarData] and its helpers, and the properties of it that
    the specification states; then the rest of the page that reads or
    feeds that computation, and the token store of the Google Calendar
    service.

    Conventions of the embedding.
    - JavaScript numbers that can be fractional (minutes after buffer
      scaling, hours) are rationals [Q], and every operation of the code
      on them is one operation on [Q].  Rational arithmetic is exact
      where that of JavaScript rounds, so the statements use no identity
      of [Q] that doubles do not have: equalities are stated with [==]
      between terms that follow the operations of the code, or with [=]
      where both sides are built by the same operations in the same
      order.  Clock minutes and instants are integers [Z].  The buffer
      factor is assumed non-zero wherever a quotient by it is evaluated
      ([a / 0] is [0] in [Q], not [NaN]).
    - A [Date] is its [getTime()] value: milliseconds since the epoch.
    - A civil date string [YYYY-MM-DD] is the number of days since
      1970-01-01 (the two are in bijection); an [HH:MM] string is a
      [ClockTime].
    - Strings are sequences of 8-bit code units (the Latin-1 range).
    - Objects used as [Record<string, T>] whose [Object.values] is never
      taken are [gmap]s; those that are enumerated are insertion-ordered
      association lists ([JsObject]).  A lookup with the name of a member
      of [Object.prototype] finds the inherited member in JavaScript:
      the summary loop follows that ([addToProjectSummaries]); the
      statements about colours and about the fungible entries suppose
      project names, calendar names and calendar ids that are no such
      names.
    - What the browser supplies (its own time zone, the zone database,
      the fetched events, the collation) is collected in [Host]. *)

From Stdlib Require Import ZArith QArith Qminmax Lia Lqa.
From Stdlib Require Import String Ascii List Sorted.
From Stdlib Require DecimalString DecimalPos.
From stdpp Require Import base option list gmap strings.
Import ListNotations.

Local Open Scope Z_scope.

(** ** JavaScript string primitives *)

Module Js.

(** White space removed by [String.prototype.trim], in the Latin-1
    range: TAB, LF, VT, FF, CR, SPACE, NBSP. *)
Definition isWhiteSpace (c : ascii) : bool :=
  let n := N_of_ascii c in
  (N.eqb n 9 || N.eqb n 10 || N.eqb n 11 || N.eqb n 12 || N.eqb n 13
   || N.eqb n 32 || N.eqb n 160)%bool.

Fixpoint trimStart (s : string) : string :=
  match s with
  | EmptyString => EmptyString
  | String c r => if isWhiteSpace c then trimStart r else s
  end.

Fixpoint trimEnd (s : string) : string :=
  match s with
  | EmptyString => EmptyString
  | String c r =>
      match trimEnd r with
      | EmptyString => if isWhiteSpace c then EmptyString else String c EmptyString
      | r' => String c r'
      end
  end.

(** [s.trim()] *)
Definition trim (s : string) : string := trimEnd (trimStart s).

(** [s.split(sep)] for a one-character separator: all the pieces. *)
Fixpoint split (sep : ascii) (s : string) : list string :=
  match s with
  | EmptyString => [EmptyString]
  | String c r =>
      if Ascii.eqb c sep then EmptyString :: split sep r
      else match split sep r with
           | h :: t => String c h :: t
           | [] => [String c EmptyString]
           end
  end.

(** [s.split(sep, limit)]: the first [limit] pieces, the rest dropped. *)
Definition splitLimit (sep : ascii) (limit : nat) (s : string) : list string :=
  firstn limit (split sep s).

(** [s.includes(needle)] *)
Fixpoint includes (s needle : string) : bool :=
  (String.prefix needle s ||
   match s with
   | EmptyString => false
   | String _ r => includes r needle
   end)%bool.

(** [s.includes(':')] *)
Fixpoint includesChar (s : string) (c : ascii) : bool :=
  match s with
  | EmptyString => false
  | String a r => (Ascii.eqb a c || includesChar r c)%bool
  end.

Definition lowerChar (c : ascii) : ascii :=
  let n := N_of_ascii c in
  if ((N.leb 65 n && N.leb n 90)
      || (N.leb 192 n && N.leb n 222 && negb (N.eqb n 215)))%bool
  then ascii_of_N (n + 32) else c.

(** [s.toLowerCase()] *)
Fixpoint toLowerCase (s : string) : string :=
  match s with
  | EmptyString => EmptyString
  | String c r => String (lowerChar c) (toLowerCase r)
  end.

(** [Math.max(a, b)] *)
Definition Math_max (a b : Q) : Q := if Qle_bool a b then b else a.

(** [x || d] on a possibly missing string: the empty string is falsy. *)
Definition orElse (x : option string) (d : string) : string :=
  match x with
  | Some EmptyString | None => d
  | Some s => s
  end.

(** Truthiness of a possibly missing string. *)
Definition truthy (x : option string) : bool :=
  match x with
  | Some EmptyString | None => false
  | Some _ => true
  end.

End Js.

(** A stable sort by a three-way comparator, as [Array.prototype.sort]
    is: [cmp a b = Gt] means that [a] goes after [b]. *)
Section Sort.
Context {A : Type} (cmp : A -> A -> comparison).

Fixpoint insertSorted (x : A) (l : list A) : list A :=
  match l with
  | [] => [x]
  | y :: r =>
      match cmp x y with
      | Gt => y :: insertSorted x r
      | _ => x :: l
      end
  end.

Definition sortBy (l : list A) : list A := fold_right insertSorted [] l.

End Sort.

(** ** Enumerable objects

    [Record<string, T>] objects whose [Object.values] / [Object.entries]
    are read: properties in insertion order, enumerated with the keys
    that are array indices first, in ascending order, and then the other
    keys in insertion order. *)

Module JsObject.

Definition digit (c : ascii) : option N :=
  let n := N_of_ascii c in
  if (N.leb 48 n && N.leb n 57)%bool then Some (n - 48)%N else None.

Fixpoint digits (s : string) (acc : N) : option N :=
  match s with
  | EmptyString => Some acc
  | String c r =>
      match digit c with
      | Some d => digits r (acc * 10 + d)%N
      | None => None
      end
  end.

(** The array index a key denotes, if it is the canonical decimal
    spelling of an integer below [2^32 - 1]. *)
Definition arrayIndex (k : string) : option N :=
  match k with
  | EmptyString => None
  | String c r =>
      if Ascii.eqb c "0"
      then match r with EmptyString => Some 0%N | _ => None end
      else match digits k 0 with
           | Some n => if N.ltb n 4294967295 then Some n else None
           | None => None
           end
  end.

Definition isIndex (k : string) : bool :=
  match arrayIndex k with Some _ => true | None => false end.

Section Obj.
Context {T : Type}.

(** [o[k]] *)
Fixpoint get (o : list (string * T)) (k : string) : option T :=
  match o with
  | [] => None
  | (k', v) :: r => if String.eqb k' k then Some v else get r k
  end.

(** [o[k] = v]: overwrite in place, or append a new property. *)
Fixpoint set (o : list (string * T)) (k : string) (v : T) : list (string * T) :=
  match o with
  | [] => [(k, v)]
  | (k', v') :: r =>
      if String.eqb k' k then (k', v) :: r else (k', v') :: set r k v
  end.

Definition compareIndex (a b : string * T) : comparison :=
  N.compare (default 0%N (arrayIndex (fst a))) (default 0%N (arrayIndex (fst b))).

(** [Object.entries(o)] *)
Definition entries (o : list (string * T)) : list (string * T) :=
  sortBy compareIndex (filter (fun kv => isIndex (fst kv) = true) o)
  ++ filter (fun kv => isIndex (fst kv) = false) o.

(** [Object.values(o)] *)
Definition values (o : list (string * T)) : list T := map snd (entries o).

End Obj.

End JsObject.

(** ** Time *)

(** An [HH:MM] string. *)
Record ClockTime := { clock_hours : Z; clock_minutes : Z }.

(** A time zone: the offset from UTC, in minutes, in force at an instant. *)
Definition TimeZone := Z -> Z.

(** Minutes of local time elapsed since the local epoch. *)
Definition localMinutes (tz : TimeZone) (t : Z) : Z := t / 60000 + tz t.

(** [formatDateToYMD(date, timezone)]: the civil date of an instant in a
    zone, as a day number. *)
Definition formatDateToYMD (date : Z) (tz : TimeZone) : Z :=
  localMinutes tz date / 1440.

(** [d.toLocaleString('en-US', {timeZone, hour12: false, hour: '2-digit',
    minute: '2-digit'})]: the wall clock of an instant in a zone, with
    the hours counted from 00 to 23. *)
Definition toLocaleTime (d : Z) (tz : TimeZone) : ClockTime :=
  let m := localMinutes tz d mod 1440 in
  {| clock_hours := m / 60; clock_minutes := m mod 60 |}.

(** [d.toLocaleDateString('en-CA', {timeZone})] *)
Definition toLocaleDateString (d : Z) (tz : TimeZone) : Z :=
  localMinutes tz d / 1440.

(** [parseTimeToMinutes] *)
Definition parseTimeToMinutes (timeStr : ClockTime) : Z :=
  clock_hours timeStr * 60 + clock_minutes timeStr.

(** [calculateWorkHoursOverlap]; the [Date] objects it builds and never
    reads are left out. *)
Definition calculateWorkHoursOverlap
    (eventStart eventEnd : Z) (workStartTime workEndTime : ClockTime)
    (timezone : TimeZone) : Z :=
  let eventDateStr := formatDateToYMD eventStart timezone in
  let eventStartTime := toLocaleTime eventStart timezone in
  let eventEndTime := toLocaleTime eventEnd timezone in
  let eventStartMinutes := parseTimeToMinutes eventStartTime in
  let eventEndMinutes := parseTimeToMinutes eventEndTime in
  let workStartMinutes := parseTimeToMinutes workStartTime in
  let workEndMinutes := parseTimeToMinutes workEndTime in
  let eventDateInTZ := toLocaleDateString eventStart timezone in
  if negb (eventDateInTZ =? eventDateStr) then 0
  else
    let overlapStart := Z.max eventStartMinutes workStartMinutes in
    let overlapEnd := Z.min eventEndMinutes workEndMinutes in
    if overlapStart >=? overlapEnd then 0
    else overlapEnd - overlapStart.

(** ** Data model (src/types.ts) *)

Inductive CalendarCategory := Inactive | Fungible | Task.

Inductive ImpactType := reduces_available | task_tracked | ignored.

Record GoogleCalendar := {
  id : string;
  cal_summary : string }.

(** [start_dateTime] is [event.start?.dateTime], [end_dateTime] is
    [event.end?.dateTime]; a present value is the instant it denotes. *)
Record GoogleCalendarEvent := {
  summary : option string;
  start_dateTime : option Z;
  end_dateTime : option Z }.

(** An event tagged with [__calendarId] and [__calendarCategory]. *)
Record RelevantEvent := {
  event : GoogleCalendarEvent;
  calendarId : string;
  calendarCategory : CalendarCategory }.

Record TimeConfig := {
  startDate : Z;
  endDate : Z;
  weekdayStartTime : ClockTime;
  weekdayEndTime : ClockTime;
  weekendStartTime : ClockTime;
  weekendEndTime : ClockTime;
  timezone : string;
  timeBufferFactor : Q }.

Record DailyAvailability := {
  date : Z;
  availableHours : Q;
  totalHours : Q }.

Record ProjectTask := {
  project : string;
  task : string;
  hours : Q;
  color : string }.

Record ProjectSummary := {
  ps_project : string;
  ps_totalHours : Q;
  ps_color : string }.

Record FungibleTimeSummary := {
  fs_calendarSummary : string;
  fs_totalHours : Q;
  fs_color : string;
  fs_project : string }.

Record DailyEventDetail := {
  de_summary : string;
  calendarName : string;
  category : CalendarCategory;
  startTime : ClockTime;
  endTime : ClockTime;
  duration : Q;
  impactType : ImpactType }.

Record DailyDetails := {
  dd_date : Z;
  events : list DailyEventDetail }.

Record ProcessedData := {
  dailyAvailability : list DailyAvailability;
  projectTasks : list ProjectTask;
  projectSummaries : list ProjectSummary;
  fungibleTimeSummary : list FungibleTimeSummary;
  dailyDetails : list DailyDetails }.

(** ** Constants (constants.tsx) *)

Definition PROJECT_COLORS : list string :=
  ["#FF6384"; "#36A2EB"; "#FFCE56"; "#4BC0C0"; "#9966FF"; "#FF9F40";
   "#E74C3C"; "#8E44AD"; "#2ECC71"; "#F1C40F"; "#3498DB"; "#1ABC9C"]%string.

Definition TASK_CALENDAR_BLOCK_KEYWORDS : list string :=
  ["block"; "new event"]%string.

(** ** Inherited properties

    The names that every plain object answers to through
    [Object.prototype]: for these [o[name]] is an inherited function or
    object, which is truthy, even when [o] was created as [{}] and never
    assigned to. *)
Definition objectPrototypeMembers : list string :=
  ["constructor"; "hasOwnProperty"; "isPrototypeOf"; "propertyIsEnumerable";
   "toLocaleString"; "toString"; "valueOf"; "__proto__";
   "__defineGetter__"; "__defineSetter__"; "__lookupGetter__";
   "__lookupSetter__"]%string.

Definition isPrototypeMember (name : string) : bool :=
  existsb (String.eqb name) objectPrototypeMembers.

(** ** What the browser supplies *)

(** The outcome of [await listEvents(cal.id, timeMin, timeMax)]. *)
Inductive Fetch :=
| Fetched (items : list GoogleCalendarEvent)
| Rejected (message : option string).

Record Host := {
  (** the zone [new Date(...)], [getDay] and [setDate] work in *)
  browserZone : TimeZone;
  (** [new Date(ymd + 'T12:00:00').getTime()] for the civil date [ymd] *)
  localNoon : Z -> Z;
  (** the zone database behind [{timeZone: name}] *)
  zoneinfo : string -> TimeZone;
  (** the events a calendar returns for the configured range *)
  listEvents : string -> Fetch;
  (** [a.localeCompare(b)], by sign *)
  localeCompare : string -> string -> comparison }.

(** ** Internal state of one run *)

Record DailyCapacity := {
  availableMinutes : Q;
  totalMinutes : Q;
  fungibleMinutes : Q;
  taskMinutes : Q }.

Record FungibleTime := {
  calendarSummary : string;
  ft_totalHours : Q;
  ft_color : string }.

Record ProjectTotal := {
  pt_totalHours : Q;
  pt_color : string }.

(** The maps and the counter that the event loop of
    [processCalendarData] closes over. *)
Record Acc := {
  dailyAvailabilityMap : gmap Z DailyCapacity;
  projectTaskMap : list (string * ProjectTask);
  fungibleTimeMap : list (string * FungibleTime);
  dailyDetailsMap : gmap Z (list DailyEventDetail);
  projectColorMap : gmap string string;
  nextColorIndex : nat }.

Definition set_dailyAvailabilityMap (m : gmap Z DailyCapacity) (a : Acc) : Acc :=
  {| dailyAvailabilityMap := m;
     projectTaskMap := projectTaskMap a;
     fungibleTimeMap := fungibleTimeMap a;
     dailyDetailsMap := dailyDetailsMap a;
     projectColorMap := projectColorMap a;
     nextColorIndex := nextColorIndex a |}.

Definition set_projectTaskMap (m : list (string * ProjectTask)) (a : Acc) : Acc :=
  {| dailyAvailabilityMap := dailyAvailabilityMap a;
     projectTaskMap := m;
     fungibleTimeMap := fungibleTimeMap a;
     dailyDetailsMap := dailyDetailsMap a;
     projectColorMap := projectColorMap a;
     nextColorIndex := nextColorIndex a |}.

Definition set_fungibleTimeMap (m : list (string * FungibleTime)) (a : Acc) : Acc :=
  {| dailyAvailabilityMap := dailyAvailabilityMap a;
     projectTaskMap := projectTaskMap a;
     fungibleTimeMap := m;
     dailyDetailsMap := dailyDetailsMap a;
     projectColorMap := projectColorMap a;
     nextColorIndex := nextColorIndex a |}.

Definition set_dailyDetailsMap (m : gmap Z (list DailyEventDetail)) (a : Acc) : Acc :=
  {| dailyAvailabilityMap := dailyAvailabilityMap a;
     projectTaskMap := projectTaskMap a;
     fungibleTimeMap := fungibleTimeMap a;
     dailyDetailsMap := m;
     projectColorMap := projectColorMap a;
     nextColorIndex := nextColorIndex a |}.

(** [getProjectColor]: the colour of a name, allocating the next palette
    entry the first time the name is seen.  [projectColorMap] is a [gmap],
    which has no inherited properties: for the name of a member of
    [Object.prototype] the code finds the inherited member, returns it and
    allots nothing, and the statements about colours leave such names
    out. *)
Definition getProjectColor (name : string) (a : Acc) : string * Acc :=
  if Js.truthy (projectColorMap a !! name)
  then (default EmptyString (projectColorMap a !! name), a)
  else
    let c := nth (nextColorIndex a mod length PROJECT_COLORS)%nat
                 PROJECT_COLORS EmptyString in
    (c, {| dailyAvailabilityMap := dailyAvailabilityMap a;
           projectTaskMap := projectTaskMap a;
           fungibleTimeMap := fungibleTimeMap a;
           dailyDetailsMap := dailyDetailsMap a;
           projectColorMap := <[name := c]> (projectColorMap a);
           nextColorIndex := S (nextColorIndex a) |}).

(** The application state that [processCalendarData] reads and sets. *)
Record AppState := {
  isSignedIn : bool;
  isLoading : bool;
  error : option string;
  timeConfig : TimeConfig;
  allCalendars : list GoogleCalendar;
  calendarCategories : gmap string CalendarCategory;
  processedData : option ProcessedData }.

(** ** Exceptions

    What runs inside the [try] block either returns or throws an error
    with an optional [message]. *)

Inductive Try (A : Type) :=
| Returned (a : A)
| Thrown (message : option string).
Arguments Returned {A} a.
Arguments Thrown {A} message.

Definition bindTry {A B : Type} (x : Try A) (k : A -> Try B) : Try B :=
  match x with
  | Returned a => k a
  | Thrown m => Thrown m
  end.

Notation "x <- c ;; k" := (bindTry c (fun x => k))
  (at level 100, c at next level, right associativity).

(** [l.map(f)] for an [f] that can throw. *)
Fixpoint mapTry {A B : Type} (f : A -> Try B) (l : list A) : Try (list B) :=
  match l with
  | [] => Returned []
  | x :: r => y <- f x ;; ys <- mapTry f r ;; Returned (y :: ys)
  end.

(** ** The engine *)

Section Engine.
Variable host : Host.

(** [date.getDay()]: the weekday of the civil date of an instant in the
    browser's zone, Sunday being 0 (1970-01-01 was a Thursday). *)
Definition getDay (date : Z) : Z :=
  (formatDateToYMD date (browserZone host) + 4) mod 7.

(** [isWeekend] *)
Definition isWeekend (date : Z) : bool :=
  let day := getDay date in
  (day =? 0) || (day =? 6).

(** The loop of [getDatesInRange]: [day] is the civil date that
    [currentDate] stands at, at local noon; [setDate(getDate() + 1)] moves
    it to the next civil date. *)
Fixpoint datesLoop (fuel : nat) (day : Z) (endDate : Z) : list Z :=
  match fuel with
  | O => []
  | S fuel' =>
      let currentDate := localNoon host day in
      if currentDate <=? endDate
      then currentDate :: datesLoop fuel' (day + 1) endDate
      else []
  end.

(** [getDatesInRange]; the [timezone] argument is not read.  The fuel is
    one more than the number of civil dates from the start to the end, so
    that the loop test is what ends the loop
    ([getDatesInRange_days]). *)
Definition getDatesInRange (startDateStr endDateStr : Z) (timezone : string)
  : list Z :=
  datesLoop (S (Z.to_nat (endDateStr - startDateStr + 1))) startDateStr
            (localNoon host endDateStr).

Section Run.
Variable cfg : TimeConfig.
Variable calendars : list GoogleCalendar.

Definition tz : TimeZone := zoneinfo host (timezone cfg).

(** The entry that the initialisation loop stores for one date.  The
    product by the buffer factor and the quotient by it are two
    operations, as in the code; in doubles the quotient need not give the
    window back to the last bit. *)
Definition initialCapacity (date : Z) : DailyCapacity :=
  let isWeekendDay := isWeekend date in
  let startTime := if isWeekendDay then weekendStartTime cfg else weekdayStartTime cfg in
  let endTime := if isWeekendDay then weekendEndTime cfg else weekdayEndTime cfg in
  let dailyWorkMinutes :=
    (inject_Z (parseTimeToMinutes endTime - parseTimeToMinutes startTime)
     * timeBufferFactor cfg)%Q in
  {| availableMinutes := Js.Math_max 0 dailyWorkMinutes;
     totalMinutes := Js.Math_max 0 (dailyWorkMinutes / timeBufferFactor cfg);
     fungibleMinutes := 0;
     taskMinutes := 0 |}.

(** [datesInRange.forEach(date => dailyAvailabilityMap[dateStr] = ...)] *)
Definition initDailyAvailabilityMap (datesInRange : list Z)
  : gmap Z DailyCapacity :=
  fold_left
    (fun m date => <[formatDateToYMD date tz := initialCapacity date]> m)
    datesInRange ∅.

(** The project and the task of a Task event, from its summary. *)
Definition parseProjectTask (summary : option string) : string * string :=
  let project := "Unassigned"%string in
  let task := Js.orElse summary "Unnamed Task" in
  match summary with
  | Some s =>
      if Js.includesChar s ":" then
        match map Js.trim (Js.splitLimit ":" 2 s) with
        | p :: t :: _ => (p, t)
        | _ => (project, task) (* a summary with a colon has two pieces *)
        end
      else if Js.truthy summary then (s, task)
      else (project, task)
  | None => (project, task)
  end.

(** [`${normalizedProject}::${normalizedTask}`] *)
Definition taskKey (project task : string) : string :=
  (Js.toLowerCase (Js.trim project) +:+ "::" +:+ Js.toLowerCase (Js.trim task))%string.

(** [TASK_CALENDAR_BLOCK_KEYWORDS.some(k => eventSummaryLower.includes(k))] *)
Definition isBlocked (eventSummaryLower : string) : bool :=
  existsb (fun keyword => Js.includes eventSummaryLower keyword)
          TASK_CALENDAR_BLOCK_KEYWORDS.

(** [m[k].fungibleMinutes += o; m[k].availableMinutes -= o] *)
Definition deductFungible (c : DailyCapacity) (overlap : Z) : DailyCapacity :=
  {| availableMinutes := (availableMinutes c - inject_Z overlap)%Q;
     totalMinutes := totalMinutes c;
     fungibleMinutes := (fungibleMinutes c + inject_Z overlap)%Q;
     taskMinutes := taskMinutes c |}.

(** [m[k].taskMinutes += o; m[k].availableMinutes -= o] *)
Definition deductTask (c : DailyCapacity) (overlap : Z) : DailyCapacity :=
  {| availableMinutes := (availableMinutes c - inject_Z overlap)%Q;
     totalMinutes := totalMinutes c;
     fungibleMinutes := fungibleMinutes c;
     taskMinutes := (taskMinutes c + inject_Z overlap)%Q |}.

(** [if (!fungibleTimeMap[calendarId]) fungibleTimeMap[calendarId] =
    {calendarSummary, totalHours: 0, color: getProjectColor(...)}] *)
Definition ensureFungibleTime (a : Acc) (calendarId : string)
    (cal : GoogleCalendar) : Acc :=
  match JsObject.get (fungibleTimeMap a) calendarId with
  | Some _ => a
  | None =>
      let '(c, a') := getProjectColor (cal_summary cal) a in
      set_fungibleTimeMap
        (JsObject.set (fungibleTimeMap a') calendarId
           {| calendarSummary := cal_summary cal;
              ft_totalHours := 0;
              ft_color := c |}) a'
  end.

(** [fungibleTimeMap[calendarId].totalHours += overlap / 60] *)
Definition addFungibleHours (a : Acc) (calendarId : string)
    (workHoursOverlapMinutes : Z) : Acc :=
  match JsObject.get (fungibleTimeMap a) calendarId with
  | Some f =>
      set_fungibleTimeMap
        (JsObject.set (fungibleTimeMap a) calendarId
           {| calendarSummary := calendarSummary f;
              ft_totalHours :=
                (ft_totalHours f + inject_Z workHoursOverlapMinutes / 60)%Q;
              ft_color := ft_color f |}) a
  | None => a
  end.

(** The Fungible branch of the event loop. *)
Definition fungibleBranch (a : Acc) (ev : RelevantEvent) (eventDateStr : Z)
    (data : DailyCapacity) (calendar : option GoogleCalendar)
    (workHoursOverlapMinutes : Z) : ImpactType * Acc :=
  let '(impact, a1) :=
    if 0 <? workHoursOverlapMinutes
    then (reduces_available,
          set_dailyAvailabilityMap
            (<[eventDateStr := deductFungible data workHoursOverlapMinutes]>
               (dailyAvailabilityMap a)) a)
    else (ignored, a) in
  match calendar with
  | Some cal =>
      (impact,
       addFungibleHours (ensureFungibleTime a1 (calendarId ev) cal)
                        (calendarId ev) workHoursOverlapMinutes)
  | None => (impact, a1)
  end.

(** [if (!projectTaskMap[taskKey]) projectTaskMap[taskKey] =
    {project, task, hours: 0, color: getProjectColor(project)}] *)
Definition ensureProjectTask (a : Acc) (key project' task' : string) : Acc :=
  match JsObject.get (projectTaskMap a) key with
  | Some _ => a
  | None =>
      let '(c, a') := getProjectColor project' a in
      set_projectTaskMap
        (JsObject.set (projectTaskMap a') key
           {| project := project'; task := task'; hours := 0; color := c |})
        a'
  end.

(** [projectTaskMap[taskKey].hours += eventDurationMinutes / 60] *)
Definition addTaskHours (a : Acc) (key : string) (eventDurationMinutes : Q)
  : Acc :=
  match JsObject.get (projectTaskMap a) key with
  | Some pt =>
      set_projectTaskMap
        (JsObject.set (projectTaskMap a) key
           {| project := project pt; task := task pt;
              hours := (hours pt + eventDurationMinutes / 60)%Q;
              color := color pt |}) a
  | None => a
  end.

(** The Task branch of the event loop. *)
Definition taskBranch (a : Acc) (ev : RelevantEvent) (eventDateStr : Z)
    (data : DailyCapacity) (eventSummaryLower : string)
    (workHoursOverlapMinutes : Z) (eventDurationMinutes : Q)
  : ImpactType * Acc :=
  if isBlocked eventSummaryLower then (ignored, a)
  else
    let a1 :=
      if 0 <? workHoursOverlapMinutes
      then set_dailyAvailabilityMap
             (<[eventDateStr := deductTask data workHoursOverlapMinutes]>
                (dailyAvailabilityMap a)) a
      else a in
    let '(project', task') := parseProjectTask (summary (event ev)) in
    let key := taskKey project' task' in
    (task_tracked,
     addTaskHours (ensureProjectTask a1 key project' task') key
                  eventDurationMinutes).

(** The body of [relevantEvents.forEach(event => ...)]. *)
Definition processEvent (a : Acc) (ev : RelevantEvent) : Acc :=
  match start_dateTime (event ev), end_dateTime (event ev) with
  | Some eventStart, Some eventEnd =>
      let eventDurationMinutes := (inject_Z (eventEnd - eventStart) / 60000)%Q in
      let eventDateStr := formatDateToYMD eventStart tz in
      match dailyAvailabilityMap a !! eventDateStr with
      | Some data =>
          let category := calendarCategory ev in
          let eventSummaryLower :=
            Js.toLowerCase (default EmptyString (summary (event ev))) in
          let calendar :=
            find (fun c => String.eqb (id c) (calendarId ev)) calendars in
          let calendarName :=
            Js.orElse (cal_summary <$> calendar) "Unknown Calendar" in
          let isWeekendDay := isWeekend eventStart in
          let dayStartTime :=
            if isWeekendDay then weekendStartTime cfg else weekdayStartTime cfg in
          let dayEndTime :=
            if isWeekendDay then weekendEndTime cfg else weekdayEndTime cfg in
          let workHoursOverlapMinutes :=
            calculateWorkHoursOverlap eventStart eventEnd dayStartTime dayEndTime tz in
          let startTimeStr := toLocaleTime eventStart tz in
          let endTimeStr := toLocaleTime eventEnd tz in
          let '(impactType, a') :=
            match category with
            | Fungible =>
                fungibleBranch a ev eventDateStr data calendar
                               workHoursOverlapMinutes
            | Task =>
                taskBranch a ev eventDateStr data eventSummaryLower
                           workHoursOverlapMinutes eventDurationMinutes
            | Inactive => (ignored, a)
            end in
          match impactType with
          | ignored => a'
          | _ =>
              set_dailyDetailsMap
                (<[eventDateStr :=
                     default [] (dailyDetailsMap a' !! eventDateStr)
                     ++ [{| de_summary := Js.orElse (summary (event ev)) "Unnamed Event";
                            calendarName := calendarName;
                            category := category;
                            startTime := startTimeStr;
                            endTime := endTimeStr;
                            duration := (eventDurationMinutes / 60)%Q;
                            impactType := impactType |}]]>
                   (dailyDetailsMap a')) a'
          end
      | None => a
      end
  | _, _ => a
  end.

(** [relevantEvents.forEach(...)] *)
Definition processEvents (a : Acc) (relevantEvents : list RelevantEvent) : Acc :=
  fold_left processEvent relevantEvents a.

(** The maps as they are when the event loop starts. *)
Definition initialAcc (m : gmap Z DailyCapacity) : Acc :=
  {| dailyAvailabilityMap := m;
     projectTaskMap := [];
     fungibleTimeMap := [];
     dailyDetailsMap := ∅;
     projectColorMap := ∅;
     nextColorIndex := 0 |}.

(** One element of [finalDailyAvailability].  The display date is a
    rendering of the civil date in the configured zone. *)
Definition dailyAvailabilityOf (m : gmap Z DailyCapacity) (date : Z)
  : Try DailyAvailability :=
  let dateStr := formatDateToYMD date tz in
  match m !! dateStr with
  | Some data =>
      let displayDate := dateStr in
      let availableAfterFungible :=
        Js.Math_max 0 ((totalMinutes data - fungibleMinutes data) / 60) in
      Returned {| date := displayDate;
                  availableHours := Js.Math_max 0 (availableMinutes data / 60);
                  totalHours := availableAfterFungible |}
  | None =>
      Thrown (Some "Cannot read properties of undefined (reading 'totalMinutes')"%string)
  end.

(** One element of [finalDailyDetails]. *)
Definition dailyDetailsOf (m : gmap Z (list DailyEventDetail)) (date : Z)
  : DailyDetails :=
  let dateStr := formatDateToYMD date tz in
  {| dd_date := dateStr; events := default [] (m !! dateStr) |}.

(** The body of [projectTaskData.forEach(pt => ...)].  For a project
    named like a member of [Object.prototype],
    [projectSummariesMap[pt.project]] is the inherited member: the test
    finds it truthy, no entry is made, and the hours are added to a
    property of that member, outside the map. *)
Definition addToProjectSummaries (m : list (string * ProjectTotal))
    (pt : ProjectTask) : list (string * ProjectTotal) :=
  if isPrototypeMember (project pt) then m
  else
    let m1 :=
      match JsObject.get m (project pt) with
      | Some _ => m
      | None =>
          JsObject.set m (project pt)
            {| pt_totalHours := 0; pt_color := color pt |}
      end in
    match JsObject.get m1 (project pt) with
    | Some d =>
        JsObject.set m1 (project pt)
          {| pt_totalHours := (pt_totalHours d + hours pt)%Q;
             pt_color := pt_color d |}
    | None => m1
    end.

(** [(a, b) => a.project.localeCompare(b.project) ||
    a.task.localeCompare(b.task)] *)
Definition compareProjectTask (a b : ProjectTask) : comparison :=
  match localeCompare host (project a) (project b) with
  | Eq => localeCompare host (task a) (task b)
  | c => c
  end.

(** Everything after the event loop: the report handed to
    [setProcessedData]. *)
Definition buildReport (datesInRange : list Z) (a : Acc) : Try ProcessedData :=
  finalDailyAvailability <-
    mapTry (dailyAvailabilityOf (dailyAvailabilityMap a)) datesInRange ;;
  let finalDailyDetails := map (dailyDetailsOf (dailyDetailsMap a)) datesInRange in
  let projectTaskData := JsObject.values (projectTaskMap a) in
  let projectSummariesMap := fold_left addToProjectSummaries projectTaskData [] in
  let finalProjectSummaries :=
    sortBy (fun x y => Qcompare (ps_totalHours y) (ps_totalHours x))
      (map (fun kv => {| ps_project := fst kv;
                         ps_totalHours := pt_totalHours (snd kv);
                         ps_color := pt_color (snd kv) |})
           (JsObject.entries projectSummariesMap)) in
  let finalFungibleSummaries :=
    sortBy (fun x y => Qcompare (fs_totalHours y) (fs_totalHours x))
      (map (fun data => {| fs_calendarSummary := calendarSummary data;
                           fs_totalHours := ft_totalHours data;
                           fs_color := ft_color data;
                           fs_project := calendarSummary data |})
           (JsObject.values (fungibleTimeMap a))) in
  Returned {| dailyAvailability := finalDailyAvailability;
              projectTasks := sortBy compareProjectTask projectTaskData;
              projectSummaries := finalProjectSummaries;
              fungibleTimeSummary := finalFungibleSummaries;
              dailyDetails := finalDailyDetails |}.

End Run.

(** [for (const cal of allCalendars) { ... await listEvents(...) ... }] *)
Fixpoint collectRelevantEvents (categories : gmap string CalendarCategory)
    (cals : list GoogleCalendar) (relevantEvents : list RelevantEvent)
  : Try (list RelevantEvent) :=
  match cals with
  | [] => Returned relevantEvents
  | cal :: rest =>
      match categories !! id cal with
      | Some Inactive | None => collectRelevantEvents categories rest relevantEvents
      | Some category =>
          match listEvents host (id cal) with
          | Fetched items =>
              collectRelevantEvents categories rest
                (relevantEvents
                 ++ map (fun e => {| event := e;
                                     calendarId := id cal;
                                     calendarCategory := category |}) items)
          | Rejected m => Thrown m
          end
      end
  end.

(** The [try] block of [processCalendarData], after validation and after
    the computation of [timeMin] and [timeMax] (lines 349-356), which
    throws for a zone that the browser does not know: that step is in
    [processCalendarDataIn] below. *)
Definition computeReport (s : AppState) : Try ProcessedData :=
  let cfg := timeConfig s in
  let datesInRange := getDatesInRange (startDate cfg) (endDate cfg) (timezone cfg) in
  let dailyAvailabilityMap := initDailyAvailabilityMap cfg datesInRange in
  relevantEvents <-
    collectRelevantEvents (calendarCategories s) (allCalendars s) [] ;;
  buildReport cfg datesInRange
    (processEvents cfg (allCalendars s) (initialAcc dailyAvailabilityMap)
                   relevantEvents).

Definition finish (s : AppState) (e : option string)
    (r : option ProcessedData) : AppState :=
  {| isSignedIn := isSignedIn s;
     isLoading := false;
     error := e;
     timeConfig := timeConfig s;
     allCalendars := allCalendars s;
     calendarCategories := calendarCategories s;
     processedData := r |}.

(** [processCalendarData], as the state it leaves behind. *)
Definition processCalendarData (s : AppState) : AppState :=
  if negb (isSignedIn s) then
    {| isSignedIn := isSignedIn s;
       isLoading := isLoading s;
       error := Some "Please sign in first."%string;
       timeConfig := timeConfig s;
       allCalendars := allCalendars s;
       calendarCategories := calendarCategories s;
       processedData := processedData s |}
  else
    let cfg := timeConfig s in
    let weekdayWorkMinutes :=
      parseTimeToMinutes (weekdayEndTime cfg)
      - parseTimeToMinutes (weekdayStartTime cfg) in
    let weekendWorkMinutes :=
      parseTimeToMinutes (weekendEndTime cfg)
      - parseTimeToMinutes (weekendStartTime cfg) in
    if weekdayWorkMinutes <=? 0 then
      finish s (Some "Weekday end time must be after start time."%string) None
    else if weekendWorkMinutes <=? 0 then
      finish s (Some "Weekend end time must be after start time."%string) None
    else
      match computeReport s with
      | Returned data => finish s None (Some data)
      | Thrown m =>
          finish s
            (Some ("Failed to process data: " +:+ Js.orElse m "Unknown error")%string)
            None
      end.

End Engine.

(** ** Concrete scenarios

    A browser whose own zone and every named zone are UTC, and the
    configuration of the specification's scenarios: weekdays 09:00-17:00,
    weekends 10:00-18:00. *)

Definition clock (h m : Z) : ClockTime :=
  {| clock_hours := h; clock_minutes := m |}.

(** The instant of a wall-clock time on a civil date, in UTC. *)
Definition utcInstant (day h m : Z) : Z := ((day * 24 + h) * 60 + m) * 60000.

Definition utcHost (fetch : string -> Fetch) : Host :=
  {| browserZone := fun _ => 0;
     localNoon := fun day => utcInstant day 12 0;
     zoneinfo := fun _ _ => 0;
     listEvents := fetch;
     localeCompare := String.compare |}.

(** Monday 2024-01-01. *)
Definition monday : Z := 19723.

Definition officeHours (startDate endDate : Z) (bufferFactor : Q) : TimeConfig :=
  {| startDate := startDate;
     endDate := endDate;
     weekdayStartTime := clock 9 0;
     weekdayEndTime := clock 17 0;
     weekendStartTime := clock 10 0;
     weekendEndTime := clock 18 0;
     timezone := "UTC";
     timeBufferFactor := bufferFactor |}.

Definition timedEvent (title : string) (eventStart eventEnd : Z)
  : GoogleCalendarEvent :=
  {| summary := Some title;
     start_dateTime := Some eventStart;
     end_dateTime := Some eventEnd |}.

Definition oneCalendar : list GoogleCalendar :=
  [{| id := "cal-1"; cal_summary := "Meetings" |}].

Definition signedIn (cfg : TimeConfig) (cat : CalendarCategory) : AppState :=
  {| isSignedIn := true;
     isLoading := false;
     error := None;
     timeConfig := cfg;
     allCalendars := oneCalendar;
     calendarCategories := {[ "cal-1"%string := cat ]};
     processedData := None |}.

(** Scenario B: one event 10:00-11:00 on the Monday. *)
Definition standup : GoogleCalendarEvent :=
  timedEvent "Standup" (utcInstant monday 10 0) (utcInstant monday 11 0).

(** An event that fills the whole weekday window, 09:00-17:00. *)
Definition allDayWorkshop : GoogleCalendarEvent :=
  timedEvent "Workshop" (utcInstant monday 9 0) (utcInstant monday 17 0).

(** An event in the evening, 20:00-21:00, outside the window. *)
Definition eveningCall : GoogleCalendarEvent :=
  timedEvent "Acme: Call" (utcInstant monday 20 0) (utcInstant monday 21 0).


Definition tagged (e : GoogleCalendarEvent) (cat : CalendarCategory)
  : RelevantEvent :=
  {| event := e; calendarId := "cal-1"; calendarCategory := cat |}.

Definition hostWith (e : GoogleCalendarEvent) : Host :=
  utcHost (fun _ => Fetched [e]).

(** ** Quantities named in the statements *)

(** The overlap that [processEvent] computes for an event: against the
    weekend window when [isWeekend(eventStart)], else the weekday one. *)
Definition workHoursOverlapOf (host : Host) (cfg : TimeConfig)
    (eventStart eventEnd : Z) : Z :=
  let isWeekendDay := isWeekend host eventStart in
  calculateWorkHoursOverlap eventStart eventEnd
    (if isWeekendDay then weekendStartTime cfg else weekdayStartTime cfg)
    (if isWeekendDay then weekendEndTime cfg else weekdayEndTime cfg)
    (tz host cfg).

(** [eventSummaryLower] *)
Definition eventSummaryLowerOf (ev : RelevantEvent) : string :=
  Js.toLowerCase (default EmptyString (summary (event ev))).

(** The key of the bucket of a Task event. *)
Definition taskKeyOf (ev : RelevantEvent) : string :=
  taskKey (fst (parseProjectTask (summary (event ev))))
          (snd (parseProjectTask (summary (event ev)))).


(** A day's record [c] accounts for every deduction made since it was
    [c0]: the total is untouched, and what left [availableMinutes] is what
    was added to [fungibleMinutes] and [taskMinutes]. *)
Definition balanced (c0 c : DailyCapacity) : Prop :=
  totalMinutes c = totalMinutes c0
  /\ (availableMinutes c ==
        availableMinutes c0 - (fungibleMinutes c - fungibleMinutes c0)
        - (taskMinutes c - taskMinutes c0))%Q
  /\ (fungibleMinutes c0 <= fungibleMinutes c)%Q
  /\ (taskMinutes c0 <= taskMinutes c)%Q.

(** The capacity map [m] has the days of [m0], each balanced. *)
Definition tracks (m0 m : gmap Z DailyCapacity) : Prop :=
  forall k,
    match m0 !! k, m !! k with
    | Some c0, Some c => balanced c0 c
    | None, None => True
    | _, _ => False
    end.

(** Every colour handed out so far comes from the palette. *)
Definition paletteOnly (a : Acc) : Prop :=
  forall name c, projectColorMap a !! name = Some c -> In c PROJECT_COLORS.

(** Local noon of a later civil date is a later instant. *)
Definition noonIncreasing (host : Host) : Prop :=
  forall d d', d < d' -> localNoon host d < localNoon host d'.

(** The report of a run over no dates and no tracked events. *)
Definition emptyReport : ProcessedData :=
  {| dailyAvailability := [];
     projectTasks := [];
     projectSummaries := [];
     fungibleTimeSummary := [];
     dailyDetails := [] |}.

(** A configuration whose weekday window ends when it starts. *)
Definition closedWeekdays : TimeConfig :=
  {| startDate := monday;
     endDate := monday;
     weekdayStartTime := clock 9 0;
     weekdayEndTime := clock 9 0;
     weekendStartTime := clock 10 0;
     weekendEndTime := clock 18 0;
     timezone := "UTC";
     timeBufferFactor := 4 # 5 |}.

(** Every entry of [fungibleTimeMap] carries a palette colour and the
    name of the calendar that its key finds. *)
Definition fungibleEntriesNamed (calendars : list GoogleCalendar) (a : Acc)
  : Prop :=
  forall k f,
    JsObject.get (fungibleTimeMap a) k = Some f ->
    In (ft_color f) PROJECT_COLORS
    /\ exists cal,
         find (fun c => String.eqb (id c) k) calendars = Some cal
         /\ calendarSummary f = cal_summary cal.

(** What one step of the event loop keeps: the colours stay in the
    palette, the fungible entries stay named, and no entry disappears. *)
Definition keepsEntries (calendars : list GoogleCalendar) (a a' : Acc) : Prop :=
  (paletteOnly a -> fungibleEntriesNamed calendars a ->
   paletteOnly a' /\ fungibleEntriesNamed calendars a')
  /\ forall k, is_Some (JsObject.get (fungibleTimeMap a) k) ->
               is_Some (JsObject.get (fungibleTimeMap a') k).

(** ** The parsing rule in the specification's words

    "The project is the text before the first colon and the task is the
    entire remainder after that first colon, both trimmed; with no colon
    the whole summary is the project and the task defaults to the
    summary."  Stated here to be compared with [parseProjectTask]. *)

Fixpoint beforeFirstColon (s : string) : string :=
  match s with
  | EmptyString => EmptyString
  | String c r => if Ascii.eqb c ":" then EmptyString else String c (beforeFirstColon r)
  end.

Fixpoint afterFirstColon (s : string) : string :=
  match s with
  | EmptyString => EmptyString
  | String c r => if Ascii.eqb c ":" then r else afterFirstColon r
  end.

Definition specProjectTask (summary : string) : string * string :=
  if Js.includesChar summary ":"
  then (Js.trim (beforeFirstColon summary), Js.trim (afterFirstColon summary))
  else (summary, summary).

(** ** The rest of the page (src/App.tsx) *)

(** [displayedCalendars] *)
Definition displayedCalendars (showInactive : bool)
    (allCalendars : list GoogleCalendar)
    (calendarCategories : gmap string CalendarCategory) : list GoogleCalendar :=
  if showInactive then allCalendars
  else List.filter
         (fun cal => match calendarCategories !! id cal with
                     | Some Inactive => false
                     | _ => true
                     end)
         allCalendars.

(** [hasActiveCalendars] of the effect that starts the analysis by itself. *)
Definition hasActiveCalendars (allCalendars : list GoogleCalendar)
    (calendarCategories : gmap string CalendarCategory) : bool :=
  existsb (fun cal =>
             match calendarCategories !! id cal with
             | Some Task | Some Fungible => true
             | _ => false
             end) allCalendars.

(** The category every listed calendar starts with in
    [fetchUserCalendars]: [savedCategories?.[cal.id] ||
    CalendarCategory.Inactive]. *)
Definition initialCategories
    (savedCategories : option (gmap string CalendarCategory))
    (calendars : list GoogleCalendar) : gmap string CalendarCategory :=
  fold_left
    (fun m cal =>
       <[id cal := default Inactive (savedCategories ≫= fun saved => saved !! id cal)]> m)
    calendars ∅.

(** ** The token store (googleCalendarService)

    [localStorage] is a map from keys to strings; the module variable
    [accessToken] is kept beside it.  The clock, [new Date().getTime()],
    is an argument.  Times and lifetimes are integers. *)

Module JsNumber.

(** [n.toString()] of an integer of magnitude below [10^21]: its decimal
    digits, after a minus sign if it is negative. *)
Definition toString (n : Z) : string :=
  DecimalString.NilZero.string_of_int (Z.to_int n).

(** The value of the longest prefix of decimal digits, if there is a
    digit. *)
Fixpoint digitsPrefix (s : string) (acc : option Z) : option Z :=
  match s with
  | EmptyString => acc
  | String c r =>
      match JsObject.digit c with
      | Some d => digitsPrefix r (Some (default 0 acc * 10 + Z.of_N d))
      | None => acc
      end
  end.

(** [parseInt(s, 10)]: leading white space is skipped, a sign is read,
    then as many decimal digits as there are; [None] is [NaN]. *)
Definition parseInt (s : string) : option Z :=
  match Js.trimStart s with
  | String "-" r => Z.opp <$> digitsPrefix r None
  | String "+" r => digitsPrefix r None
  | r => digitsPrefix r None
  end.

End JsNumber.

Definition TOKEN_STORAGE_KEY : string := "gapi_access_token".
Definition TOKEN_EXPIRY_KEY : string := "gapi_token_expiry".

Record TokenStore := {
  localStorage : gmap string string;
  accessToken : option string }.

(** [storeToken(token, expiresIn)] at the instant [now] *)
Definition storeToken (token : string) (expiresIn : Z) (now : Z)
    (st : TokenStore) : TokenStore :=
  let expiryTime := now + expiresIn * 1000 in
  {| localStorage :=
       <[TOKEN_EXPIRY_KEY := JsNumber.toString expiryTime]>
         (<[TOKEN_STORAGE_KEY := token]> (localStorage st));
     accessToken := Some token |}.

(** [clearStoredToken()] *)
Definition clearStoredToken (st : TokenStore) : TokenStore :=
  {| localStorage :=
       delete TOKEN_EXPIRY_KEY (delete TOKEN_STORAGE_KEY (localStorage st));
     accessToken := None |}.

(** [getStoredToken()] at the instant [now]: what it returns and the
    store it leaves. *)
Definition getStoredToken (now : Z) (st : TokenStore)
  : option string * TokenStore :=
  let storedToken := localStorage st !! TOKEN_STORAGE_KEY in
  let expiryTime := localStorage st !! TOKEN_EXPIRY_KEY in
  if (Js.truthy storedToken && Js.truthy expiryTime
      && match expiryTime ≫= JsNumber.parseInt with
         | Some expiry => now <? expiry
         | None => false
         end)%bool
  then (storedToken,
        {| localStorage := localStorage st; accessToken := storedToken |})
  else (None, clearStoredToken st).

(** ** The time range of the fetch (src/App.tsx, lines 349-356)

    After the validation of the windows, the [try] block first computes
    [timeMin] and [timeMax] with [toLocaleString('en-US', { timeZone })].
    That call throws a RangeError when the browser does not know the
    configured zone, and the [catch] block turns it into the error of the
    run.  [zoneError] gives the message of that RangeError for a zone name,
    [None] for a zone that the browser knows; [processCalendarData] above
    is the run in a browser that knows the configured zone.  (Dates are
    civil dates in this file, so the invalid [Date] of a cleared date
    field does not arise.) *)
Definition processCalendarDataIn (zoneError : string -> option string)
    (host : Host) (s : AppState) : AppState :=
  let cfg := timeConfig s in
  let weekdayWorkMinutes :=
    parseTimeToMinutes (weekdayEndTime cfg)
    - parseTimeToMinutes (weekdayStartTime cfg) in
  let weekendWorkMinutes :=
    parseTimeToMinutes (weekendEndTime cfg)
    - parseTimeToMinutes (weekendStartTime cfg) in
  if (negb (isSignedIn s) || (weekdayWorkMinutes <=? 0)
      || (weekendWorkMinutes <=? 0))%bool
  then processCalendarData host s
  else
    match zoneError (timezone cfg) with
    | Some message =>
        finish s
          (Some ("Failed to process data: "
                 +:+ Js.orElse (Some message) "Unknown error")%string)
          None
    | None => processCalendarData host s
    end.

(** ** Quantities named in the further statements *)

(** A host that differs from [host] in what the calendars return. *)
Definition withFetch (host : Host) (fetch : string -> Fetch) : Host :=
  {| browserZone := browserZone host;
     localNoon := localNoon host;
     zoneinfo := zoneinfo host;
     listEvents := fetch;
     localeCompare := localeCompare host |}.

(** A calendar whose events the run fetches. *)
Definition isActive (categories : gmap string CalendarCategory)
    (cal : GoogleCalendar) : bool :=
  match categories !! id cal with
  | Some Task | Some Fungible => true
  | _ => false
  end.

(** The sum of a list of integers. *)
Definition sumZ (l : list Z) : Z := fold_right Z.add 0 l.

(** The minutes that an event takes from day [k] as fungible time: its
    overlap, if it is a Fungible event with both instants that starts on
    [k]. *)
Definition fungibleOverlapOn (host : Host) (cfg : TimeConfig) (k : Z)
    (ev : RelevantEvent) : Z :=
  match calendarCategory ev, start_dateTime (event ev), end_dateTime (event ev) with
  | Fungible, Some eventStart, Some eventEnd =>
      if formatDateToYMD eventStart (tz host cfg) =? k
      then workHoursOverlapOf host cfg eventStart eventEnd
      else 0
  | _, _, _ => 0
  end.

(** The minutes that an event takes from day [k] as task time: its
    overlap, if it is a Task event with both instants that starts on [k]
    and is not blocked. *)
Definition taskOverlapOn (host : Host) (cfg : TimeConfig) (k : Z)
    (ev : RelevantEvent) : Z :=
  match calendarCategory ev, start_dateTime (event ev), end_dateTime (event ev) with
  | Task, Some eventStart, Some eventEnd =>
      if formatDateToYMD eventStart (tz host cfg) =? k
      then if isBlocked (eventSummaryLowerOf ev) then 0
           else workHoursOverlapOf host cfg eventStart eventEnd
      else 0
  | _, _, _ => 0
  end.

(** A daily detail row as the event loop writes them: a Fungible event
    that reduces availability, or a tracked Task event. *)
Definition detailRowShape (row : DailyEventDetail) : Prop :=
  (category row = Fungible /\ impactType row = reduces_available)
  \/ (category row = Task /\ impactType row = task_tracked).

(** Every bucket and every fungible entry has the colour that the colour
    map records for its name, and the counter counts the names. *)
Definition coloursRecorded (a : Acc) : Prop :=
  (forall key pt,
     In (key, pt) (projectTaskMap a) ->
     projectColorMap a !! project pt = Some (color pt))
  /\ (forall k f,
        In (k, f) (fungibleTimeMap a) ->
        projectColorMap a !! calendarSummary f = Some (ft_color f))
  /\ size (projectColorMap a) = nextColorIndex a.

(** The length in minutes of the work window that applies to a date. *)
Definition windowMinutes (host : Host) (cfg : TimeConfig) (dt : Z) : Z :=
  if isWeekend host dt
  then parseTimeToMinutes (weekendEndTime cfg)
       - parseTimeToMinutes (weekendStartTime cfg)
  else parseTimeToMinutes (weekdayEndTime cfg)
       - parseTimeToMinutes (weekdayStartTime cfg).

(** The events that a calendar brings into a run: those it returns,
    tagged with its id and category, if it is a Task or Fungible
    calendar. *)
Definition taggedEventsOf (host : Host)
    (categories : gmap string CalendarCategory) (cal : GoogleCalendar)
  : list RelevantEvent :=
  match categories !! id cal, listEvents host (id cal) with
  | Some Inactive, _ | None, _ | _, Rejected _ => []
  | Some category, Fetched items =>
      map (fun e => {| event := e;
                       calendarId := id cal;
                       calendarCategory := category |}) items
  end.

(** The fungible minutes that a list of events takes from day [k]. *)
Definition fungibleMinutesOn (host : Host) (cfg : TimeConfig) (k : Z)
    (evs : list RelevantEvent) : Q :=
  inject_Z (sumZ (map (fungibleOverlapOn host cfg k) evs)).

(** The task minutes that a list of events takes from day [k]. *)
Definition taskMinutesOn (host : Host) (cfg : TimeConfig) (k : Z)
    (evs : list RelevantEvent) : Q :=
  inject_Z (sumZ (map (taskOverlapOn host cfg k) evs)).

(** [resetCategories] of [handleResetSettings]:
    [allCalendars.forEach(cal => resetCategories[cal.id] = Inactive)]. *)
Definition resetCategories (allCalendars : list GoogleCalendar)
  : gmap string CalendarCategory :=
  fold_left (fun m cal => <[id cal := Inactive]> m) allCalendars ∅.

(** The impact that the event loop records for an event with both
    instants that starts on a day of the range. *)
Definition impactOf (host : Host) (cfg : TimeConfig) (ev : RelevantEvent)
  : ImpactType :=
  match calendarCategory ev, start_dateTime (event ev), end_dateTime (event ev) with
  | Fungible, Some eventStart, Some eventEnd =>
      if 0 <? workHoursOverlapOf host cfg eventStart eventEnd
      then reduces_available else ignored
  | Task, Some _, Some _ =>
      if isBlocked (eventSummaryLowerOf ev) then ignored else task_tracked
  | _, _, _ => ignored
  end.

(** The row that an event contributes to the details of day [k]: none
    unless it has both instants, starts on [k] and is not ignored. *)
Definition detailRowOn (host : Host) (cfg : TimeConfig)
    (calendars : list GoogleCalendar) (k : Z) (ev : RelevantEvent)
  : option DailyEventDetail :=
  match start_dateTime (event ev), end_dateTime (event ev) with
  | Some eventStart, Some eventEnd =>
      if formatDateToYMD eventStart (tz host cfg) =? k
      then match impactOf host cfg ev with
           | ignored => None
           | impact =>
               Some {| de_summary := Js.orElse (summary (event ev)) "Unnamed Event";
                       calendarName :=
                         Js.orElse
                           (cal_summary
                              <$> find (fun c => String.eqb (id c) (calendarId ev))
                                       calendars)
                           "Unknown Calendar";
                       category := calendarCategory ev;
                       startTime := toLocaleTime eventStart (tz host cfg);
                       endTime := toLocaleTime eventEnd (tz host cfg);
                       duration := (inject_Z (eventEnd - eventStart) / 60000 / 60)%Q;
                       impactType := impact |}
           end
      else None
  | _, _ => None
  end.

(** ** The order in which names ask for a colour

    [getProjectColor] is called in two places of the event loop: when the
    first Fungible event of a calendar creates the calendar's entry of
    [fungibleTimeMap], with the calendar's name, and when the first Task
    event of a bucket creates the bucket in [projectTaskMap], with the
    project. *)

(** The name for which [processEvent] calls [getProjectColor] on [ev] in
    the state [a], if it does. *)
Definition colourRequest (host : Host) (cfg : TimeConfig)
    (calendars : list GoogleCalendar) (a : Acc) (ev : RelevantEvent)
  : option string :=
  match start_dateTime (event ev), end_dateTime (event ev) with
  | Some eventStart, Some _ =>
      match dailyAvailabilityMap a !! formatDateToYMD eventStart (tz host cfg) with
      | Some _ =>
          match calendarCategory ev with
          | Fungible =>
              match find (fun c => String.eqb (id c) (calendarId ev)) calendars with
              | Some cal =>
                  match JsObject.get (fungibleTimeMap a) (calendarId ev) with
                  | Some _ => None
                  | None => Some (cal_summary cal)
                  end
              | None => None
              end
          | Task =>
              if isBlocked (eventSummaryLowerOf ev) then None
              else
                match JsObject.get (projectTaskMap a) (taskKeyOf ev) with
                | Some _ => None
                | None => Some (fst (parseProjectTask (summary (event ev))))
                end
          | Inactive => None
          end
      | None => None
      end
  | _, _ => None
  end.

(** The names for which the event loop calls [getProjectColor], in the
    order of the calls, when it starts in the state [a]. *)
Fixpoint colourRequests (host : Host) (cfg : TimeConfig)
    (calendars : list GoogleCalendar) (a : Acc) (evs : list RelevantEvent)
  : list string :=
  match evs with
  | [] => []
  | ev :: rest =>
      let later :=
        colourRequests host cfg calendars
          (processEvent host cfg calendars a ev) rest in
      match colourRequest host cfg calendars a ev with
      | Some name => name :: later
      | None => later
      end
  end.

(** A list of names with one more name, put last unless it is there. *)
Definition addName (seen : list string) (name : string) : list string :=
  if existsb (String.eqb name) seen then seen else seen ++ [name].

(** The distinct names of a list, in the order of their first
    occurrences. *)
Definition firstSeen (names : list string) : list string :=
  fold_left addName names [].

(** The position of a name in a list, counted from 0. *)
Fixpoint indexOf (name : string) (names : list string) : option nat :=
  match names with
  | [] => None
  | n :: rest =>
      if String.eqb n name then Some 0%nat else S <$> indexOf name rest
  end.

(** [PROJECT_COLORS[i % PROJECT_COLORS.length]] *)
Definition paletteColour (i : nat) : string :=
  nth (i mod length PROJECT_COLORS)%nat PROJECT_COLORS EmptyString.

(** The colour map and its counter hold exactly the names of [order],
    each with the palette entry of its position. *)
Definition allotted (order : list string) (a : Acc) : Prop :=
  nextColorIndex a = length order
  /\ forall name,
       projectColorMap a !! name = paletteColour <$> indexOf name order.

(** ** The hours of the buckets and of the summaries

    The additions that the event loop and the summary loop make, one
    operand at a time and in the order of the loops. *)





(** [projectSummariesMap[pt.project].totalHours += pt.hours], seen from
    the summary of [name] when it holds [h] hours. *)
Definition addProjectHours (name : string) (h : Q) (pt : ProjectTask) : Q :=
  if String.eqb (project pt) name then (h + hours pt)%Q else h.

(** The buckets as they are when the event loop of a run has handled the
    events [evs], in the order of [Object.values(projectTaskMap)]. *)
Definition bucketsAfter (host : Host) (s : AppState)
    (evs : list RelevantEvent) : list ProjectTask :=
  let cfg := timeConfig s in
  JsObject.values
    (projectTaskMap
       (processEvents host cfg (allCalendars s)
          (initialAcc
             (initDailyAvailabilityMap host cfg
                (getDatesInRange host (startDate cfg) (endDate cfg)
                   (timezone cfg))))
          evs)).

(** The total that a map of project totals holds for a name, 0 if it has
    no entry of that name. *)
Definition totalOf (d : option ProjectTotal) : Q :=
  match d with
  | Some d => pt_totalHours d
  | None => 0
  end.


(** * Properties *)

(** ** Arithmetic helpers *)

Lemma Math_max_cases (a b : Q) :
  (a <= b /\ Js.Math_max a b = b)%Q \/ (b < a /\ Js.Math_max a b = a)%Q.
Proof.
  unfold Js.Math_max. destruct (Qle_bool a b) eqn:E.
  - left. split; [now apply Qle_bool_iff | reflexivity].
  - right. split; [| reflexivity].
    apply Qnot_le_lt. intros H. apply Qle_bool_iff in H. congruence.
Qed.

Lemma Math_max_nonneg (x : Q) : (0 <= Js.Math_max 0 x)%Q.
Proof. destruct (Math_max_cases 0 x) as [[H ->] | [H ->]]; lra. Qed.

Lemma Math_max_mono (x y : Q) :
  (x <= y)%Q -> (Js.Math_max 0 x <= Js.Math_max 0 y)%Q.
Proof.
  intros Hxy.
  destruct (Math_max_cases 0 x) as [[Hx ->] | [Hx ->]];
    destruct (Math_max_cases 0 y) as [[Hy ->] | [Hy ->]]; lra.
Qed.

Lemma localClock_range (t : Z) (zone : TimeZone) :
  0 <= parseTimeToMinutes (toLocaleTime t zone) < 1440.
Proof.
  unfold parseTimeToMinutes, toLocaleTime. simpl.
  pose proof (Z.mod_pos_bound (localMinutes zone t) 1440 ltac:(lia)) as Hm.
  pose proof (Z.div_mod (localMinutes zone t mod 1440) 60 ltac:(lia)) as Hd.
  lia.
Qed.

Lemma localClock_minutes (t : Z) (zone : TimeZone) :
  parseTimeToMinutes (toLocaleTime t zone) = localMinutes zone t mod 1440.
Proof.
  unfold parseTimeToMinutes, toLocaleTime. simpl.
  pose proof (Z.div_mod (localMinutes zone t mod 1440) 60 ltac:(lia)). lia.
Qed.

(** ** Overlap calculator *)

Lemma overlap_formula eventStart eventEnd workStartTime workEndTime zone :
  calculateWorkHoursOverlap eventStart eventEnd workStartTime workEndTime zone
  = Z.max 0
      (Z.min (parseTimeToMinutes (toLocaleTime eventEnd zone))
             (parseTimeToMinutes workEndTime)
       - Z.max (parseTimeToMinutes (toLocaleTime eventStart zone))
               (parseTimeToMinutes workStartTime)).
Proof.
  unfold calculateWorkHoursOverlap, toLocaleDateString, formatDateToYMD.
  cbv zeta. rewrite Z.eqb_refl. simpl negb. cbv iota.
  destruct (Z.geb_spec
              (Z.max (parseTimeToMinutes (toLocaleTime eventStart zone))
                     (parseTimeToMinutes workStartTime))
              (Z.min (parseTimeToMinutes (toLocaleTime eventEnd zone))
                     (parseTimeToMinutes workEndTime))); lia.
Qed.

Lemma overlap_nonneg eventStart eventEnd workStartTime workEndTime zone :
  0 <= calculateWorkHoursOverlap eventStart eventEnd workStartTime workEndTime zone.
Proof. rewrite overlap_formula. lia. Qed.



(** ** Project and task of a summary *)

Lemma includesChar_app (a b : string) (c : ascii) :
  Js.includesChar (a +:+ b) c = (Js.includesChar a c || Js.includesChar b c)%bool.
Proof.
  induction a as [| x a IH]; simpl; [reflexivity |].
  rewrite IH. now rewrite orb_assoc.
Qed.

Lemma split_without_separator (sep : ascii) (s : string) :
  Js.includesChar s sep = false -> Js.split sep s = [s].
Proof.
  induction s as [| x s IH]; simpl; [reflexivity |].
  intros H. apply orb_false_iff in H as [Hx Hs].
  rewrite Hx, (IH Hs). reflexivity.
Qed.

Lemma split_at_first_separator (sep : ascii) (a r : string) :
  Js.includesChar a sep = false ->
  Js.split sep (a +:+ String sep r) = a :: Js.split sep r.
Proof.
  induction a as [| x a IH]; simpl.
  - intros _. now rewrite Ascii.eqb_refl.
  - intros H. apply orb_false_iff in H as [Hx Ha].
    rewrite Hx, (IH Ha). reflexivity.
Qed.

Lemma split_has_two_pieces (sep : ascii) (s : string) :
  Js.includesChar s sep = true ->
  exists p t rest, Js.split sep s = p :: t :: rest.
Proof.
  induction s as [| x s IH]; simpl; [discriminate |].
  destruct (Ascii.eqb x sep) eqn:Hx; simpl.
  - intros _. destruct (Js.split sep s) as [| h tl] eqn:E.
    + destruct s; simpl in E; [discriminate |].
      destruct (Ascii.eqb a sep); [discriminate |].
      destruct (Js.split sep s); discriminate.
    + eauto.
  - intros H. destruct (IH H) as (p & t & rest & ->). eauto.
Qed.

(** The fall-back arm of the destructuring in [parseProjectTask] is never
    taken: a summary that contains a colon splits into two pieces. *)
Lemma parseProjectTask_with_colon (s : string) :
  Js.includesChar s ":" = true ->
  exists p t rest,
    Js.split ":" s = p :: t :: rest
    /\ parseProjectTask (Some s) = (Js.trim p, Js.trim t).
Proof.
  intros H. destruct (split_has_two_pieces _ _ H) as (p & t & rest & E).
  exists p, t, rest. split; [exact E |].
  unfold parseProjectTask, Js.splitLimit. rewrite H, E. reflexivity.
Qed.

(** With a second colon, the task is the text between the first two
    colons: [split(':', 2)] drops what follows. *)
Lemma parseProjectTask_stops_at_second_colon (a b rest : string) :
  Js.includesChar a ":" = false ->
  Js.includesChar b ":" = false ->
  parseProjectTask (Some (a +:+ ":" +:+ b +:+ ":" +:+ rest))
  = (Js.trim a, Js.trim b).
Proof.
  intros Ha Hb. unfold parseProjectTask, Js.splitLimit.
  rewrite includesChar_app. simpl (Js.includesChar (":" +:+ _) ":").
  rewrite orb_true_r.
  change (":" +:+ b +:+ ":" +:+ rest)%string
    with (String ":" (b +:+ String ":" rest)).
  rewrite split_at_first_separator by exact Ha.
  rewrite split_at_first_separator by exact Hb.
  destruct (Js.split ":" rest); reflexivity.
Qed.

(** C4, as the code has it.  For a summary [a:b] where neither [a] nor
    [b] holds a colon, the project is [a] and the task is [b], both
    trimmed.  A non-empty summary without a colon is both the project and
    the task, untrimmed.  An empty or missing summary gives the project
    [Unassigned] and the task [Unnamed Task]. *)
Theorem parseProjectTask_splits_at_the_colon (a b : string) :
  Js.includesChar a ":" = false ->
  Js.includesChar b ":" = false ->
  parseProjectTask (Some (a +:+ ":" +:+ b)) = (Js.trim a, Js.trim b)
  /\ (a <> EmptyString -> parseProjectTask (Some a) = (a, a))
  /\ parseProjectTask (Some EmptyString) = ("Unassigned", "Unnamed Task")%string
  /\ parseProjectTask None = ("Unassigned", "Unnamed Task")%string.
Proof.
  intros Ha Hb. repeat split.
  - unfold parseProjectTask, Js.splitLimit.
    rewrite includesChar_app. simpl (Js.includesChar (":" +:+ b) ":").
    rewrite orb_true_r.
    change (":" +:+ b)%string with (String ":" b).
    rewrite split_at_first_separator by exact Ha.
    rewrite split_without_separator by exact Hb. reflexivity.
  - intros Hne. unfold parseProjectTask. rewrite Ha.
    destruct a; [congruence | reflexivity].
Qed.

Lemma parseProjectTask_splits_at_the_colon_witness :
  parseProjectTask (Some "Acme: Draft proposal"%string)
  = ("Acme", "Draft proposal")%string
  /\ parseProjectTask (Some "Acme"%string) = ("Acme", "Acme")%string.
Proof.
  destruct (parseProjectTask_splits_at_the_colon
              "Acme" " Draft proposal" eq_refl eq_refl) as (H1 & H2 & _).
  split; [exact H1 | apply H2; discriminate].
Defined.

(** C4 as the specification words it fails on a summary with two
    colons, where the code keeps only the text between them as the task,
    and on the empty summary. *)
Lemma parseProjectTask_differs_from_spec :
  parseProjectTask (Some "Acme: Draft: v2"%string) = ("Acme", "Draft")%string
  /\ specProjectTask "Acme: Draft: v2" = ("Acme", "Draft: v2")%string
  /\ parseProjectTask (Some "Acme: Draft: v2"%string)
     <> specProjectTask "Acme: Draft: v2"
  /\ parseProjectTask (Some EmptyString) <> specProjectTask EmptyString.
Proof. repeat split; try reflexivity; vm_compute; discriminate. Qed.

(** ** Enumerable objects *)

Lemma get_set_eq {T} (o : list (string * T)) (k : string) (v : T) :
  JsObject.get (JsObject.set o k v) k = Some v.
Proof.
  induction o as [| [k' v'] o IH]; simpl.
  - now rewrite String.eqb_refl.
  - destruct (String.eqb k' k) eqn:E; simpl; rewrite E; [reflexivity | exact IH].
Qed.

Lemma get_set_ne {T} (o : list (string * T)) (k k' : string) (v : T) :
  k <> k' -> JsObject.get (JsObject.set o k v) k' = JsObject.get o k'.
Proof.
  intros Hne. induction o as [| [k0 v0] o IH]; simpl.
  - apply String.eqb_neq in Hne. now rewrite Hne.
  - destruct (String.eqb k0 k) eqn:E; simpl.
    + apply String.eqb_eq in E. subst k0.
      apply String.eqb_neq in Hne. now rewrite Hne.
    + destruct (String.eqb k0 k'); [reflexivity | exact IH].
Qed.

(** ** The colour allocator *)

Lemma getProjectColor_maps (name : string) (a : Acc) :
  let a' := snd (getProjectColor name a) in
  dailyAvailabilityMap a' = dailyAvailabilityMap a
  /\ projectTaskMap a' = projectTaskMap a
  /\ fungibleTimeMap a' = fungibleTimeMap a
  /\ dailyDetailsMap a' = dailyDetailsMap a.
Proof.
  unfold getProjectColor.
  destruct (Js.truthy (projectColorMap a !! name)); simpl; auto.
Qed.

(** ** The event loop, one event at a time *)

Section EventLoop.
Variable host : Host.
Variable cfg : TimeConfig.
Variable calendars : list GoogleCalendar.

Lemma ensureFungibleTime_maps a calId cal :
  let a' := ensureFungibleTime a calId cal in
  dailyAvailabilityMap a' = dailyAvailabilityMap a
  /\ projectTaskMap a' = projectTaskMap a
  /\ dailyDetailsMap a' = dailyDetailsMap a.
Proof.
  unfold ensureFungibleTime.
  destruct (JsObject.get (fungibleTimeMap a) calId); [simpl; auto |].
  pose proof (getProjectColor_maps (cal_summary cal) a) as (Hd & Hp & _ & Hdd).
  destruct (getProjectColor (cal_summary cal) a) as [c a']. simpl in *. auto.
Qed.

Lemma addFungibleHours_maps a calId o :
  let a' := addFungibleHours a calId o in
  dailyAvailabilityMap a' = dailyAvailabilityMap a
  /\ projectTaskMap a' = projectTaskMap a
  /\ dailyDetailsMap a' = dailyDetailsMap a
  /\ projectColorMap a' = projectColorMap a
  /\ nextColorIndex a' = nextColorIndex a.
Proof.
  unfold addFungibleHours.
  destruct (JsObject.get (fungibleTimeMap a) calId); simpl; auto.
Qed.

Lemma ensureProjectTask_maps a key p t :
  let a' := ensureProjectTask a key p t in
  dailyAvailabilityMap a' = dailyAvailabilityMap a
  /\ fungibleTimeMap a' = fungibleTimeMap a
  /\ dailyDetailsMap a' = dailyDetailsMap a.
Proof.
  unfold ensureProjectTask.
  destruct (JsObject.get (projectTaskMap a) key); [simpl; auto |].
  pose proof (getProjectColor_maps p a) as (Hd & _ & Hf & Hdd).
  destruct (getProjectColor p a) as [c a']. simpl in *. auto.
Qed.

Lemma addTaskHours_maps a key dur :
  let a' := addTaskHours a key dur in
  dailyAvailabilityMap a' = dailyAvailabilityMap a
  /\ fungibleTimeMap a' = fungibleTimeMap a
  /\ dailyDetailsMap a' = dailyDetailsMap a
  /\ projectColorMap a' = projectColorMap a
  /\ nextColorIndex a' = nextColorIndex a.
Proof.
  unfold addTaskHours.
  destruct (JsObject.get (projectTaskMap a) key); simpl; auto.
Qed.

Lemma fungibleBranch_capacity a ev k data calendar o :
  dailyAvailabilityMap (snd (fungibleBranch a ev k data calendar o))
  = if 0 <? o then <[k := deductFungible data o]> (dailyAvailabilityMap a)
    else dailyAvailabilityMap a.
Proof.
  unfold fungibleBranch.
  destruct (0 <? o); destruct calendar as [cal |]; simpl; try reflexivity.
  all: rewrite (proj1 (addFungibleHours_maps _ _ _)),
               (proj1 (ensureFungibleTime_maps _ _ _)); reflexivity.
Qed.

Lemma taskBranch_capacity a ev k data lower o dur :
  dailyAvailabilityMap (snd (taskBranch a ev k data lower o dur))
  = if isBlocked lower then dailyAvailabilityMap a
    else if 0 <? o then <[k := deductTask data o]> (dailyAvailabilityMap a)
    else dailyAvailabilityMap a.
Proof.
  unfold taskBranch.
  destruct (isBlocked lower); [reflexivity |].
  destruct (parseProjectTask (summary (event ev))) as [p t].
  cbv zeta. simpl snd.
  rewrite (proj1 (addTaskHours_maps _ _ _)),
          (proj1 (ensureProjectTask_maps _ _ _ _)).
  destruct (0 <? o); reflexivity.
Qed.

Lemma processEvent_capacity a ev :
  dailyAvailabilityMap (processEvent host cfg calendars a ev)
  = dailyAvailabilityMap a
  \/ exists k data o,
       dailyAvailabilityMap a !! k = Some data /\ 0 < o
       /\ (dailyAvailabilityMap (processEvent host cfg calendars a ev)
           = <[k := deductFungible data o]> (dailyAvailabilityMap a)
           \/ dailyAvailabilityMap (processEvent host cfg calendars a ev)
              = <[k := deductTask data o]> (dailyAvailabilityMap a)).
Proof.
  unfold processEvent.
  destruct (start_dateTime (event ev)) as [eventStart |]; [| now left].
  destruct (end_dateTime (event ev)) as [eventEnd |]; [| now left].
  destruct (dailyAvailabilityMap a !! formatDateToYMD eventStart (tz host cfg))
    as [data |] eqn:Hdata; [| now left].
  set (o := calculateWorkHoursOverlap _ _ _ _ _).
  destruct (calendarCategory ev).
  - left. reflexivity.
  - pose proof (fungibleBranch_capacity a ev
                  (formatDateToYMD eventStart (tz host cfg)) data
                  (find (fun c => String.eqb (id c) (calendarId ev)) calendars) o)
      as Hcap.
    destruct (fungibleBranch _ _ _ _ _ _) as [i a'].
    simpl snd in Hcap.
    assert (Hd : forall m, dailyAvailabilityMap (set_dailyDetailsMap m a')
                           = dailyAvailabilityMap a') by reflexivity.
    destruct (Z.ltb_spec 0 o) as [Ho | Ho].
    + right. exists (formatDateToYMD eventStart (tz host cfg)), data, o.
      split; [exact Hdata |]. split; [exact Ho |]. left.
      destruct i; rewrite ?Hd; exact Hcap.
    + left. destruct i; rewrite ?Hd; exact Hcap.
  - pose proof (taskBranch_capacity a ev
                  (formatDateToYMD eventStart (tz host cfg)) data
                  (Js.toLowerCase (default EmptyString (summary (event ev)))) o
                  (inject_Z (eventEnd - eventStart) / 60000)%Q) as Hcap.
    destruct (taskBranch _ _ _ _ _ _ _) as [i a'].
    simpl snd in Hcap.
    assert (Hd : forall m, dailyAvailabilityMap (set_dailyDetailsMap m a')
                           = dailyAvailabilityMap a') by reflexivity.
    destruct (isBlocked _).
    + left. destruct i; rewrite ?Hd; exact Hcap.
    + destruct (Z.ltb_spec 0 o) as [Ho | Ho].
      * right. exists (formatDateToYMD eventStart (tz host cfg)), data, o.
        split; [exact Hdata |]. split; [exact Ho |]. right.
        destruct i; rewrite ?Hd; exact Hcap.
      * left. destruct i; rewrite ?Hd; exact Hcap.
Qed.

Lemma balanced_refl c : balanced c c.
Proof. unfold balanced. repeat split; lra. Qed.

Lemma balanced_deductFungible c0 c o :
  0 < o -> balanced c0 c -> balanced c0 (deductFungible c o).
Proof.
  intros Ho (Ht & Ha & Hf & Hk).
  assert (0 < inject_Z o)%Q by (change 0%Q with (inject_Z 0); now rewrite <- Zlt_Qlt).
  unfold balanced, deductFungible; simpl.
  repeat split; try assumption; lra.
Qed.

Lemma balanced_deductTask c0 c o :
  0 < o -> balanced c0 c -> balanced c0 (deductTask c o).
Proof.
  intros Ho (Ht & Ha & Hf & Hk).
  assert (0 < inject_Z o)%Q by (change 0%Q with (inject_Z 0); now rewrite <- Zlt_Qlt).
  unfold balanced, deductTask; simpl.
  repeat split; try assumption; lra.
Qed.

Lemma tracks_refl m : tracks m m.
Proof. intros k. destruct (m !! k); [apply balanced_refl | exact I]. Qed.

Lemma tracks_insert m0 m k data c :
  tracks m0 m -> m !! k = Some data ->
  (forall c0, balanced c0 data -> balanced c0 c) ->
  tracks m0 (<[k := c]> m).
Proof.
  intros Ht Hk Hc k'. specialize (Ht k').
  destruct (decide (k = k')) as [-> | Hne].
  - rewrite lookup_insert_eq. rewrite Hk in Ht.
    destruct (m0 !! k'); [now apply Hc | exact Ht].
  - rewrite lookup_insert_ne by exact Hne. exact Ht.
Qed.

Lemma tracks_processEvent m0 a ev :
  tracks m0 (dailyAvailabilityMap a) ->
  tracks m0 (dailyAvailabilityMap (processEvent host cfg calendars a ev)).
Proof.
  intros Ht.
  destruct (processEvent_capacity a ev)
    as [-> | (k & data & o & Hk & Ho & [-> | ->])].
  - exact Ht.
  - apply (tracks_insert _ _ _ data); auto using balanced_deductFungible.
  - apply (tracks_insert _ _ _ data); auto using balanced_deductTask.
Qed.

Lemma tracks_processEvents m0 evs : forall a,
  tracks m0 (dailyAvailabilityMap a) ->
  tracks m0 (dailyAvailabilityMap (processEvents host cfg calendars a evs)).
Proof.
  induction evs as [| ev evs IH]; intros a Ht; simpl; [exact Ht |].
  apply IH, tracks_processEvent, Ht.
Qed.

(** Every entry of the initial map was stored for a date of the range,
    and every date of the range has its entry. *)
Lemma initDailyAvailabilityMap_lookup dates k c0 :
  initDailyAvailabilityMap host cfg dates !! k = Some c0 ->
  exists date,
    In date dates /\ formatDateToYMD date (tz host cfg) = k
    /\ c0 = initialCapacity host cfg date.
Proof.
  unfold initDailyAvailabilityMap.
  induction dates as [| d dates IH] using rev_ind; simpl.
  - rewrite lookup_empty. discriminate.
  - rewrite fold_left_app. simpl.
    destruct (decide (formatDateToYMD d (tz host cfg) = k)) as [E | Hne].
    + rewrite E, lookup_insert_eq. intros [= <-].
      exists d. rewrite in_app_iff. simpl. auto.
    + rewrite lookup_insert_ne by exact Hne. intros H.
      destruct (IH H) as (date & Hin & Hk & Hc).
      exists date. rewrite in_app_iff. auto.
Qed.

Lemma initDailyAvailabilityMap_covers dates date :
  In date dates ->
  is_Some (initDailyAvailabilityMap host cfg dates
           !! formatDateToYMD date (tz host cfg)).
Proof.
  unfold initDailyAvailabilityMap.
  induction dates as [| d dates IH] using rev_ind; simpl; [tauto |].
  rewrite fold_left_app, in_app_iff. simpl.
  destruct (decide (formatDateToYMD d (tz host cfg)
                    = formatDateToYMD date (tz host cfg))) as [E | Hne].
  - intros _. rewrite E, lookup_insert_eq. eauto.
  - rewrite lookup_insert_ne by exact Hne.
    intros [Hin | [-> | []]]; [now apply IH | congruence].
Qed.

End EventLoop.

(** ** Capacity of a day *)

(** C2, as the code has it.  After any sequence of events, the record of
    every day satisfies [availableMinutes = initial - fungibleMinutes -
    taskMinutes], where [initial = max(0, (end - start) * bufferFactor)] is
    the buffered capacity the day started with (not [totalMinutes], which
    is the unbuffered window).  Nothing is floored while events are
    applied; the floor at 0 is applied to the reported [availableHours]. *)
Theorem available_minutes_is_initial_minus_deductions
    (host : Host) (cfg : TimeConfig) (calendars : list GoogleCalendar)
    (dates : list Z) (evs : list RelevantEvent) (k : Z) (c : DailyCapacity) :
  let m :=
    dailyAvailabilityMap
      (processEvents host cfg calendars
         (initialAcc (initDailyAvailabilityMap host cfg dates)) evs) in
  m !! k = Some c ->
  exists dt,
    In dt dates /\ formatDateToYMD dt (tz host cfg) = k
    /\ totalMinutes c = totalMinutes (initialCapacity host cfg dt)
    /\ (availableMinutes c ==
        availableMinutes (initialCapacity host cfg dt)
        - fungibleMinutes c - taskMinutes c)%Q
    /\ (0 <= fungibleMinutes c)%Q /\ (0 <= taskMinutes c)%Q
    /\ dailyAvailabilityOf host cfg m dt
       = Returned
           {| date := k;
              availableHours := Js.Math_max 0 (availableMinutes c / 60);
              totalHours :=
                Js.Math_max 0 ((totalMinutes c - fungibleMinutes c) / 60) |}.
Proof.
  intros m Hc.
  pose proof (tracks_processEvents host cfg calendars
                (initDailyAvailabilityMap host cfg dates) evs
                (initialAcc (initDailyAvailabilityMap host cfg dates))
                (tracks_refl _) k) as Ht.
  fold m in Ht. rewrite Hc in Ht.
  destruct (initDailyAvailabilityMap host cfg dates !! k) as [c0 |] eqn:H0;
    [| contradiction].
  destruct (initDailyAvailabilityMap_lookup host cfg dates k c0 H0)
    as (dt & Hin & Hk & ->).
  destruct Ht as (Htot & Hav & Hf & Hk').
  exists dt.
  change (fungibleMinutes (initialCapacity host cfg dt)) with 0%Q in Hav, Hf.
  change (taskMinutes (initialCapacity host cfg dt)) with 0%Q in Hav, Hk'.
  repeat split; try assumption; try lra.
  unfold dailyAvailabilityOf. rewrite Hk, Hc. reflexivity.
Qed.

Lemma available_minutes_is_initial_minus_deductions_witness :
  let host := hostWith standup in
  let cfg := officeHours monday monday (4 # 5) in
  exists c dt,
    dailyAvailabilityMap
      (processEvents host cfg oneCalendar
         (initialAcc (initDailyAvailabilityMap host cfg [utcInstant monday 12 0]))
         [tagged standup Fungible]) !! monday = Some c
    /\ In dt [utcInstant monday 12 0]
    /\ (availableMinutes c ==
        availableMinutes (initialCapacity host cfg dt)
        - fungibleMinutes c - taskMinutes c)%Q.
Proof.
  intros host cfg.
  assert (H : { c | dailyAvailabilityMap
                      (processEvents host cfg oneCalendar
                         (initialAcc
                            (initDailyAvailabilityMap host cfg
                               [utcInstant monday 12 0]))
                         [tagged standup Fungible]) !! monday = Some c })
    by (eexists; vm_compute; reflexivity).
  destruct H as [c H]. exists c.
  destruct (available_minutes_is_initial_minus_deductions
              host cfg oneCalendar [utcInstant monday 12 0]
              [tagged standup Fungible] monday c H)
    as (dt & Hin & _ & _ & Hav & _).
  exists dt. repeat split; assumption.
Defined.

(** C2 as the specification words it fails: an event that fills the
    window takes a buffered day below zero, and the record is not
    [totalMinutes - fungibleMinutes - taskMinutes] floored at 0. *)
Lemma available_minutes_go_negative :
  exists c,
    dailyAvailabilityMap
      (processEvents (hostWith allDayWorkshop)
         (officeHours monday monday (4 # 5)) oneCalendar
         (initialAcc
            (initDailyAvailabilityMap (hostWith allDayWorkshop)
               (officeHours monday monday (4 # 5)) [utcInstant monday 12 0]))
         [tagged allDayWorkshop Fungible]) !! monday = Some c
    /\ (availableMinutes c == -96)%Q
    /\ (availableMinutes c < 0)%Q
    /\ ~ (availableMinutes c ==
          Js.Math_max 0 (totalMinutes c - fungibleMinutes c - taskMinutes c))%Q.
Proof.
  eexists. split; [vm_compute; reflexivity |].
  repeat split; vm_compute; congruence.
Qed.

(** ** The reported hours *)

Lemma initialCapacity_within_total host cfg dt :
  (0 < timeBufferFactor cfg)%Q -> (timeBufferFactor cfg <= 1)%Q ->
  (availableMinutes (initialCapacity host cfg dt)
   <= totalMinutes (initialCapacity host cfg dt))%Q.
Proof.
  intros Hpos Hle. unfold initialCapacity. cbv zeta. simpl.
  set (w := inject_Z _). set (b := timeBufferFactor cfg) in *.
  assert (Hq : (w * b / b == w)%Q) by (apply Qdiv_mult_l; lra).
  destruct (Math_max_cases 0 (w * b)) as [[H1 ->] | [H1 ->]];
    destruct (Math_max_cases 0 (w * b / b)) as [[H2 ->] | [H2 ->]];
    rewrite ?Hq in *; try lra; nra.
Qed.

Lemma mapTry_dailyAvailabilityOf host cfg (m : gmap Z DailyCapacity)
    (P : DailyAvailability -> Prop) (dates : list Z) :
  (forall dt, In dt dates ->
     exists d, dailyAvailabilityOf host cfg m dt = Returned d
               /\ date d = formatDateToYMD dt (tz host cfg) /\ P d) ->
  exists ds,
    mapTry (dailyAvailabilityOf host cfg m) dates = Returned ds
    /\ map date ds = map (fun dt => formatDateToYMD dt (tz host cfg)) dates
    /\ Forall P ds.
Proof.
  induction dates as [| dt dates IH]; intros H; simpl.
  - exists []. repeat split. constructor.
  - destruct (H dt (or_introl eq_refl)) as (d & -> & Hd & HP).
    destruct IH as (ds & -> & Hm & HF); [intros; apply H; now right |].
    exists (d :: ds). simpl. rewrite Hd, Hm. repeat split. now constructor.
Qed.

(** C7.  When the events have been fetched and the buffer factor lies in
    (0, 1], the run returns a report with one [dailyAvailability] entry per
    date of the range, in order, and in every entry
    [0 <= availableHours <= totalHours]. *)
Theorem reported_available_hours_within_total
    (host : Host) (s : AppState) (evs : list RelevantEvent) :
  (0 < timeBufferFactor (timeConfig s))%Q ->
  (timeBufferFactor (timeConfig s) <= 1)%Q ->
  collectRelevantEvents host (calendarCategories s) (allCalendars s) []
  = Returned evs ->
  exists data,
    computeReport host s = Returned data
    /\ map date (dailyAvailability data)
       = map (fun dt => formatDateToYMD dt (tz host (timeConfig s)))
             (getDatesInRange host (startDate (timeConfig s))
                (endDate (timeConfig s)) (timezone (timeConfig s)))
    /\ Forall (fun d => (0 <= availableHours d)%Q
                        /\ (availableHours d <= totalHours d)%Q)
              (dailyAvailability data).
Proof.
  intros Hpos Hle Hev.
  unfold computeReport. rewrite Hev. simpl bindTry.
  set (cfg := timeConfig s).
  set (dates := getDatesInRange _ _ _ _).
  set (m0 := initDailyAvailabilityMap host cfg dates).
  set (a := processEvents _ _ _ _ _).
  destruct (mapTry_dailyAvailabilityOf host cfg (dailyAvailabilityMap a)
              (fun d => (0 <= availableHours d)%Q
                        /\ (availableHours d <= totalHours d)%Q) dates)
    as (ds & Hds & Hmap & HF).
  { intros dt Hin.
    pose proof (tracks_processEvents host cfg (allCalendars s) m0 evs
                  (initialAcc m0) (tracks_refl _)
                  (formatDateToYMD dt (tz host cfg))) as Ht.
    fold a in Ht.
    destruct (initDailyAvailabilityMap_covers host cfg dates dt Hin)
      as [c0 Hc0].
    fold m0 in Hc0. rewrite Hc0 in Ht.
    destruct (dailyAvailabilityMap a !! formatDateToYMD dt (tz host cfg))
      as [c |] eqn:Hc; [| contradiction].
    destruct (initDailyAvailabilityMap_lookup host cfg dates _ _ Hc0)
      as (dt' & _ & _ & ->).
    destruct Ht as (Htot & Hav & Hf & Hk).
    change (fungibleMinutes (initialCapacity host cfg dt')) with 0%Q in Hav, Hf.
    change (taskMinutes (initialCapacity host cfg dt')) with 0%Q in Hav, Hk.
    pose proof (initialCapacity_within_total host cfg dt' Hpos Hle) as Hinit.
    unfold dailyAvailabilityOf. rewrite Hc.
    eexists. split; [reflexivity |]. split; [reflexivity |]. simpl.
    split; [apply Math_max_nonneg |].
    apply Math_max_mono. rewrite Htot.
    apply Qmult_le_compat_r; [lra | discriminate]. }
  unfold buildReport. rewrite Hds. simpl bindTry.
  eexists. split; [reflexivity |]. simpl. split; assumption.
Qed.

Lemma reported_available_hours_within_total_witness :
  let host := hostWith standup in
  let s := signedIn (officeHours monday (monday + 6) (4 # 5)) Fungible in
  exists data,
    computeReport host s = Returned data
    /\ length (dailyAvailability data) = 7%nat
    /\ Forall (fun d => (0 <= availableHours d)%Q
                        /\ (availableHours d <= totalHours d)%Q)
              (dailyAvailability data).
Proof.
  intros host s.
  destruct (reported_available_hours_within_total host s
              [tagged standup Fungible]
              ltac:(reflexivity) ltac:(discriminate) ltac:(reflexivity))
    as (data & Hdata & Hmap & HF).
  exists data. split; [exact Hdata |]. split; [| exact HF].
  rewrite <- (length_map date), Hmap, length_map. reflexivity.
Defined.

(** ** Events that are skipped *)

(** C9.  An event that lacks [start.dateTime] or lacks [end.dateTime]
    leaves every map of the run as it was: the capacity of each day, the
    project/task buckets, the fungible totals, the daily detail rows and
    the colours.  Removing it from the events changes nothing. *)
Theorem event_without_both_instants_is_skipped
    (host : Host) (cfg : TimeConfig) (calendars : list GoogleCalendar)
    (a : Acc) (ev : RelevantEvent) (before after : list RelevantEvent) :
  start_dateTime (event ev) = None \/ end_dateTime (event ev) = None ->
  processEvent host cfg calendars a ev = a
  /\ processEvents host cfg calendars a (before ++ ev :: after)
     = processEvents host cfg calendars a (before ++ after).
Proof.
  intros H.
  assert (Hskip : forall x, processEvent host cfg calendars x ev = x).
  { intros x. unfold processEvent.
    destruct H as [-> | ->]; [reflexivity |].
    destruct (start_dateTime (event ev)); reflexivity. }
  split; [apply Hskip |].
  unfold processEvents. rewrite !fold_left_app. simpl.
  now rewrite Hskip.
Qed.

Lemma event_without_both_instants_is_skipped_witness :
  let host := hostWith standup in
  let cfg := officeHours monday monday (4 # 5) in
  let a := initialAcc (initDailyAvailabilityMap host cfg [utcInstant monday 12 0]) in
  let endless :=
    {| event := {| summary := Some "Offsite"%string;
                   start_dateTime := Some (utcInstant monday 10 0);
                   end_dateTime := None |};
       calendarId := "cal-1"%string;
       calendarCategory := Task |} in
  processEvent host cfg oneCalendar a endless = a
  /\ processEvents host cfg oneCalendar a
       ([tagged standup Fungible] ++ endless :: [tagged eveningCall Task])
     = processEvents host cfg oneCalendar a
         ([tagged standup Fungible] ++ [tagged eveningCall Task]).
Proof.
  intros host cfg a endless.
  apply (event_without_both_instants_is_skipped host cfg oneCalendar a endless).
  right. reflexivity.
Defined.

(** ** Buckets of the Task branch *)






(** ** Entries of the Fungible branch *)

Lemma PROJECT_COLORS_truthy (c : string) :
  In c PROJECT_COLORS -> Js.truthy (Some c) = true.
Proof.
  unfold PROJECT_COLORS. simpl.
  intros H. repeat (destruct H as [<- | H]; [reflexivity |]). destruct H.
Qed.

Lemma getProjectColor_palette (name : string) (a : Acc) :
  paletteOnly a ->
  In (fst (getProjectColor name a)) PROJECT_COLORS
  /\ projectColorMap (snd (getProjectColor name a)) !! name
     = Some (fst (getProjectColor name a))
  /\ paletteOnly (snd (getProjectColor name a)).
Proof.
  intros Hpal. unfold getProjectColor.
  destruct (projectColorMap a !! name) as [c |] eqn:E.
  - rewrite (PROJECT_COLORS_truthy c (Hpal _ _ E)). simpl.
    split; [exact (Hpal _ _ E) |]. split; [exact E | exact Hpal].
  - simpl.
    assert (Hin : In (nth (nextColorIndex a mod length PROJECT_COLORS)%nat
                          PROJECT_COLORS EmptyString) PROJECT_COLORS).
    { apply nth_In. apply Nat.mod_upper_bound. discriminate. }
    split; [exact Hin |]. split; [apply lookup_insert_eq |].
    intros n c. simpl.
    destruct (decide (name = n)) as [-> | Hne].
    + rewrite lookup_insert_eq. now intros [= <-].
    + rewrite lookup_insert_ne by exact Hne. apply Hpal.
Qed.

Lemma ensureFungibleTime_entry a calId cal :
  match JsObject.get (fungibleTimeMap a) calId with
  | Some f => ensureFungibleTime a calId cal = a
  | None =>
      JsObject.get (fungibleTimeMap (ensureFungibleTime a calId cal)) calId
      = Some {| calendarSummary := cal_summary cal;
                ft_totalHours := 0;
                ft_color := fst (getProjectColor (cal_summary cal) a) |}
      /\ projectColorMap (ensureFungibleTime a calId cal)
         = projectColorMap (snd (getProjectColor (cal_summary cal) a))
  end.
Proof.
  unfold ensureFungibleTime.
  destruct (JsObject.get (fungibleTimeMap a) calId); [reflexivity |].
  destruct (getProjectColor (cal_summary cal) a) as [c a']. simpl.
  rewrite get_set_eq. split; reflexivity.
Qed.




(** ** Scenario B *)

Lemma processEvent_fungible_capacity host cfg calendars a ev eventStart eventEnd data :
  calendarCategory ev = Fungible ->
  start_dateTime (event ev) = Some eventStart ->
  end_dateTime (event ev) = Some eventEnd ->
  dailyAvailabilityMap a !! formatDateToYMD eventStart (tz host cfg) = Some data ->
  dailyAvailabilityMap (processEvent host cfg calendars a ev)
  = if 0 <? workHoursOverlapOf host cfg eventStart eventEnd
    then <[formatDateToYMD eventStart (tz host cfg)
           := deductFungible data (workHoursOverlapOf host cfg eventStart eventEnd)]>
           (dailyAvailabilityMap a)
    else dailyAvailabilityMap a.
Proof.
  intros Hcat Hs He Hd.
  rewrite <- (fungibleBranch_capacity a ev _ data
                (find (fun c => String.eqb (id c) (calendarId ev)) calendars)).
  unfold processEvent. rewrite Hs, He, Hd, Hcat.
  unfold workHoursOverlapOf. cbv zeta.
  destruct (fungibleBranch _ _ _ _ _ _) as [i a']. destruct i; reflexivity.
Qed.

(** C1.  Scenario B run end to end: window 09:00-17:00, buffer factor
    0.8, one Fungible event 10:00-11:00.  The report's [availableHours] is
    5.4, as the specification says, but its [totalHours] is 7, not 5.4: the
    baseline is computed from [totalMinutes], from which the buffer has
    been divided out again (480), although the comments on it in the
    source call it the hours "after buffer" and "available after only
    fungible", which would be (384 - 60) / 60 = 5.4. *)
Lemma scenario_B_baseline_is_not_buffered :
  exists data d,
    processedData
      (processCalendarData (hostWith standup)
         (signedIn (officeHours monday monday (4 # 5)) Fungible))
    = Some data
    /\ dailyAvailability data = [d]
    /\ (availableHours d == 27 # 5)%Q
    /\ (totalHours d == 7)%Q
    /\ ~ (totalHours d == 27 # 5)%Q.
Proof.
  do 2 eexists. split; [vm_compute; reflexivity |].
  split; [reflexivity |]. repeat split; vm_compute; congruence.
Qed.

(** ** The date range *)

Lemma datesLoop_enough_fuel host (e : Z) :
  noonIncreasing host ->
  forall (n : nat) (day : Z) (fuel : nat),
    day + Z.of_nat n = e + 1 -> (n < fuel)%nat ->
    datesLoop host fuel day (localNoon host e)
    = map (localNoon host) (seqZ day (Z.of_nat n)).
Proof.
  intros Hmono. induction n as [| n IH]; intros day fuel Hday Hfuel.
  - destruct fuel as [| fuel]; [lia |]. simpl.
    destruct (Z.leb_spec (localNoon host day) (localNoon host e)) as [H | H].
    + pose proof (Hmono e day ltac:(lia)). lia.
    + reflexivity.
  - destruct fuel as [| fuel]; [lia |]. simpl datesLoop.
    destruct (Z.leb_spec (localNoon host day) (localNoon host e)) as [H | H].
    + rewrite seqZ_cons by lia. simpl. f_equal.
      replace (Z.pred (Z.of_nat (S n))) with (Z.of_nat n) by lia.
      apply IH; lia.
    + destruct (Z.eq_dec day e) as [-> | Hne]; [lia |].
      pose proof (Hmono day e ltac:(lia)). lia.
Qed.

(** The loop of [getDatesInRange] stops by its own test, never for lack
    of fuel: it yields local noon of each civil date from the start date
    to the end date. *)
Lemma getDatesInRange_days host startDateStr endDateStr timezone :
  noonIncreasing host ->
  getDatesInRange host startDateStr endDateStr timezone
  = map (localNoon host) (seqZ startDateStr (endDateStr - startDateStr + 1)).
Proof.
  intros Hmono. unfold getDatesInRange.
  destruct (Z.le_gt_cases startDateStr (endDateStr + 1)) as [Hle | Hgt].
  - rewrite (datesLoop_enough_fuel host endDateStr Hmono
               (Z.to_nat (endDateStr - startDateStr + 1)) startDateStr)
      by lia.
    now rewrite Z2Nat.id by lia.
  - replace (Z.to_nat (endDateStr - startDateStr + 1)) with 0%nat by lia.
    rewrite seqZ_nil by lia. simpl.
    destruct (Z.leb_spec (localNoon host startDateStr)
                         (localNoon host endDateStr)) as [H | H];
      [| reflexivity].
    pose proof (Hmono endDateStr startDateStr ltac:(lia)). lia.
Qed.

Lemma processEvents_without_days host cfg calendars evs : forall a,
  dailyAvailabilityMap a = ∅ ->
  processEvents host cfg calendars a evs = a.
Proof.
  induction evs as [| ev evs IH]; intros a Ha; simpl; [reflexivity |].
  assert (processEvent host cfg calendars a ev = a) as ->.
  { unfold processEvent. rewrite Ha.
    destruct (start_dateTime (event ev)); [| reflexivity].
    destruct (end_dateTime (event ev)); [| reflexivity].
    now rewrite lookup_empty. }
  now apply IH.
Qed.

(** ** Validation *)

(** C3, as the code has it.  A signed-in run whose weekday or weekend
    window does not end after it starts stops with an error message and
    no report.  An end date before the start date is not rejected: with
    valid windows and the events fetched, the run ends without an error
    and hands over a report whose lists are all empty. *)
Theorem invalid_window_is_rejected_but_inverted_range_is_not
    (host : Host) (s : AppState) :
  isSignedIn s = true ->
  let cfg := timeConfig s in
  let weekdayWorkMinutes :=
    parseTimeToMinutes (weekdayEndTime cfg)
    - parseTimeToMinutes (weekdayStartTime cfg) in
  let weekendWorkMinutes :=
    parseTimeToMinutes (weekendEndTime cfg)
    - parseTimeToMinutes (weekendStartTime cfg) in
  let s' := processCalendarData host s in
  (weekdayWorkMinutes <= 0 \/ weekendWorkMinutes <= 0 ->
   processedData s' = None /\ isLoading s' = false
   /\ (error s' = Some "Weekday end time must be after start time."%string
       \/ error s' = Some "Weekend end time must be after start time."%string))
  /\ (0 < weekdayWorkMinutes -> 0 < weekendWorkMinutes ->
      endDate cfg < startDate cfg ->
      noonIncreasing host ->
      forall evs,
        collectRelevantEvents host (calendarCategories s) (allCalendars s) []
        = Returned evs ->
        error s' = None /\ processedData s' = Some emptyReport).
Proof.
  intros Hin cfg wd we s'. subst s'. unfold processCalendarData.
  rewrite Hin. simpl negb. cbv iota. fold cfg. fold wd. fold we.
  split.
  - intros H.
    destruct (Z.leb_spec wd 0) as [Hwd | Hwd]; [simpl; auto |].
    destruct (Z.leb_spec we 0) as [Hwe | Hwe]; [simpl; auto | lia].
  - intros Hwd Hwe Hrange Hmono evs Hev.
    destruct (Z.leb_spec wd 0) as [? | _]; [lia |].
    destruct (Z.leb_spec we 0) as [? | _]; [lia |].
    unfold computeReport. rewrite Hev. simpl bindTry. fold cfg.
    rewrite (getDatesInRange_days host _ _ _ Hmono).
    rewrite seqZ_nil by lia. simpl map.
    rewrite processEvents_without_days by reflexivity.
    simpl. split; reflexivity.
Qed.

Lemma invalid_window_is_rejected_but_inverted_range_is_not_witness :
  (let s' := processCalendarData (hostWith standup) (signedIn closedWeekdays Task) in
   processedData s' = None /\ isLoading s' = false
   /\ (error s' = Some "Weekday end time must be after start time."%string
       \/ error s' = Some "Weekend end time must be after start time."%string))
  /\ (let s' := processCalendarData (hostWith standup)
                  (signedIn (officeHours monday (monday - 1) (4 # 5)) Task) in
      error s' = None /\ processedData s' = Some emptyReport).
Proof.
  split.
  - apply (invalid_window_is_rejected_but_inverted_range_is_not
             (hostWith standup) (signedIn closedWeekdays Task) eq_refl).
    left. vm_compute. discriminate.
  - apply (proj2 (invalid_window_is_rejected_but_inverted_range_is_not
                    (hostWith standup)
                    (signedIn (officeHours monday (monday - 1) (4 # 5)) Task)
                    eq_refl))
      with (evs := [tagged standup Task]).
    + reflexivity.
    + reflexivity.
    + reflexivity.
    + intros d d' H. unfold hostWith, utcHost, utcInstant. simpl. lia.
    + reflexivity.
Defined.

(** C3 as the specification words it fails: with the end date one day
    before the start date the run is not rejected; it ends without an
    error and produces a report. *)
Lemma inverted_date_range_produces_a_report :
  let s' := processCalendarData (hostWith standup)
              (signedIn (officeHours monday (monday - 1) (4 # 5)) Task) in
  endDate (officeHours monday (monday - 1) (4 # 5))
  < startDate (officeHours monday (monday - 1) (4 # 5))
  /\ error s' = None
  /\ processedData s' = Some emptyReport.
Proof. vm_compute. repeat split. Qed.

(** ** Repeated runs *)

Lemma computeReport_inputs host s1 s2 :
  timeConfig s1 = timeConfig s2 ->
  allCalendars s1 = allCalendars s2 ->
  calendarCategories s1 = calendarCategories s2 ->
  computeReport host s1 = computeReport host s2.
Proof. intros H1 H2 H3. unfold computeReport. now rewrite H1, H2, H3. Qed.

Lemma processCalendarData_inputs host s :
  isSignedIn (processCalendarData host s) = isSignedIn s
  /\ timeConfig (processCalendarData host s) = timeConfig s
  /\ allCalendars (processCalendarData host s) = allCalendars s
  /\ calendarCategories (processCalendarData host s) = calendarCategories s.
Proof.
  unfold processCalendarData.
  destruct (negb (isSignedIn s)); [simpl; auto |].
  destruct (_ <=? 0); [simpl; auto |].
  destruct (_ <=? 0); [simpl; auto |].
  destruct (computeReport host s); simpl; auto.
Qed.

Lemma processCalendarData_same_inputs (host : Host) (s1 s2 : AppState) :
  isSignedIn s1 = true ->
  isSignedIn s2 = true ->
  timeConfig s1 = timeConfig s2 ->
  allCalendars s1 = allCalendars s2 ->
  calendarCategories s1 = calendarCategories s2 ->
  processCalendarData host s1 = processCalendarData host s2.
Proof.
  intros Hx Hy H1 H2 H3. unfold processCalendarData.
  rewrite Hx, Hy, (computeReport_inputs host s1 s2 H1 H2 H3). simpl negb.
  cbv iota. rewrite <- H1. unfold finish. rewrite Hx, Hy, H1, H2, H3.
  reflexivity.
Qed.

(** ** The fungible summary of a whole run *)

Lemma In_insertSorted {A} (cmp : A -> A -> comparison) (x y : A) (l : list A) :
  In x (insertSorted cmp y l) <-> x = y \/ In x l.
Proof.
  induction l as [| z l IH]; simpl; [intuition congruence |].
  destruct (cmp y z); simpl; rewrite ?IH; intuition congruence.
Qed.

Lemma In_sortBy {A} (cmp : A -> A -> comparison) (x : A) (l : list A) :
  In x (sortBy cmp l) <-> In x l.
Proof.
  induction l as [| y l IH]; simpl; [reflexivity |].
  rewrite In_insertSorted, IH. intuition congruence.
Qed.

Lemma In_entries {T} (o : list (string * T)) (kv : string * T) :
  In kv (JsObject.entries o) <-> In kv o.
Proof.
  unfold JsObject.entries.
  rewrite in_app_iff, In_sortBy, <- !list_elem_of_In, !list_elem_of_filter.
  destruct (JsObject.isIndex (fst kv)); intuition congruence.
Qed.

Lemma get_In_values {T} (o : list (string * T)) (k : string) (v : T) :
  JsObject.get o k = Some v -> In v (JsObject.values o).
Proof.
  intros H. unfold JsObject.values. apply in_map_iff.
  exists (k, v). split; [reflexivity |]. apply In_entries.
  induction o as [| [k' v'] o IH]; simpl in *; [discriminate |].
  destruct (String.eqb_spec k' k) as [-> | Hne].
  - injection H as ->. now left.
  - right. now apply IH.
Qed.

Section Entries.
Variable calendars : list GoogleCalendar.

Lemma keepsEntries_refl a : keepsEntries calendars a a.
Proof. split; auto. Qed.

Lemma keepsEntries_trans a b c :
  keepsEntries calendars a b -> keepsEntries calendars b c ->
  keepsEntries calendars a c.
Proof.
  intros [H1 K1] [H2 K2]. split.
  - intros Hp Hn. destruct (H1 Hp Hn). auto.
  - auto.
Qed.

(** A step that touches neither the colours nor the fungible entries. *)
Lemma keepsEntries_frame a a' :
  projectColorMap a' = projectColorMap a ->
  fungibleTimeMap a' = fungibleTimeMap a ->
  keepsEntries calendars a a'.
Proof.
  intros Hc Hf. unfold keepsEntries, paletteOnly, fungibleEntriesNamed.
  rewrite Hc, Hf. auto.
Qed.

Lemma keepsEntries_ensureProjectTask a key p t :
  keepsEntries calendars a (ensureProjectTask a key p t).
Proof.
  destruct (ensureProjectTask_maps a key p t) as (_ & Hf & _).
  split.
  - intros Hp Hn. split.
    + unfold ensureProjectTask.
      destruct (JsObject.get (projectTaskMap a) key); [exact Hp |].
      destruct (getProjectColor_palette p a Hp) as (_ & _ & Hp').
      destruct (getProjectColor p a) as [c a']. exact Hp'.
    + unfold fungibleEntriesNamed. rewrite Hf. exact Hn.
  - rewrite Hf. auto.
Qed.

Lemma keepsEntries_addTaskHours a key dur :
  keepsEntries calendars a (addTaskHours a key dur).
Proof.
  destruct (addTaskHours_maps a key dur) as (_ & Hf & _ & Hc & _).
  now apply keepsEntries_frame.
Qed.

Lemma keepsEntries_ensureFungibleTime a k cal :
  find (fun c => String.eqb (id c) k) calendars = Some cal ->
  keepsEntries calendars a (ensureFungibleTime a k cal)
  /\ is_Some (JsObject.get (fungibleTimeMap (ensureFungibleTime a k cal)) k).
Proof.
  intros Hfind.
  pose proof (ensureFungibleTime_entry a k cal) as Hens.
  destruct (JsObject.get (fungibleTimeMap a) k) as [f |] eqn:E.
  - rewrite Hens, E. split; [apply keepsEntries_refl | eauto].
  - destruct Hens as [Hget Hcol]. split; [| rewrite Hget; eauto].
    assert (Hother : forall k', k' <> k ->
              JsObject.get (fungibleTimeMap (ensureFungibleTime a k cal)) k'
              = JsObject.get (fungibleTimeMap a) k').
    { intros k' Hk'. unfold ensureFungibleTime. rewrite E.
      pose proof (getProjectColor_maps (cal_summary cal) a) as (_ & _ & Hf & _).
      destruct (getProjectColor (cal_summary cal) a) as [c a']. simpl in *.
      rewrite Hf. apply get_set_ne. congruence. }
    split.
    + intros Hp Hn.
      destruct (getProjectColor_palette (cal_summary cal) a Hp)
        as (Hin & _ & Hp').
      split.
      * unfold paletteOnly. rewrite Hcol. exact Hp'.
      * intros k' f Hf.
        destruct (String.eqb_spec k' k) as [-> | Hne].
        -- rewrite Hget in Hf. injection Hf as <-. simpl. eauto.
        -- rewrite Hother in Hf by exact Hne. eauto.
    + intros k' Hk'.
      destruct (String.eqb_spec k' k) as [-> | Hne].
      * rewrite Hget. eauto.
      * now rewrite Hother.
Qed.

Lemma keepsEntries_addFungibleHours a k o :
  keepsEntries calendars a (addFungibleHours a k o).
Proof.
  destruct (addFungibleHours_maps a k o) as (_ & _ & _ & Hc & _).
  assert (Hget : forall k' f,
            JsObject.get (fungibleTimeMap (addFungibleHours a k o)) k' = Some f ->
            exists f0, JsObject.get (fungibleTimeMap a) k' = Some f0
                       /\ calendarSummary f = calendarSummary f0
                       /\ ft_color f = ft_color f0).
  { intros k' f. unfold addFungibleHours.
    destruct (JsObject.get (fungibleTimeMap a) k) as [f0 |] eqn:E; [| eauto].
    simpl. destruct (String.eqb_spec k k') as [<- | Hne].
    - rewrite get_set_eq. intros [= <-]. eauto.
    - rewrite get_set_ne by exact Hne. eauto. }
  split.
  - intros Hp Hn. split; [unfold paletteOnly; rewrite Hc; exact Hp |].
    intros k' f Hf. destruct (Hget k' f Hf) as (f0 & H0 & -> & ->). eauto.
  - intros k' [f0 H0]. unfold addFungibleHours.
    destruct (JsObject.get (fungibleTimeMap a) k) as [f |] eqn:E; [| eauto].
    simpl. destruct (String.eqb_spec k k') as [<- | Hne].
    + rewrite get_set_eq. eauto.
    + rewrite get_set_ne by exact Hne. eauto.
Qed.

Lemma keepsEntries_fungibleBranch a ev k data calendar o :
  calendar = find (fun c => String.eqb (id c) (calendarId ev)) calendars ->
  keepsEntries calendars a (snd (fungibleBranch a ev k data calendar o))
  /\ (is_Some calendar ->
      is_Some (JsObject.get
                 (fungibleTimeMap (snd (fungibleBranch a ev k data calendar o)))
                 (calendarId ev))).
Proof.
  intros Hcal. unfold fungibleBranch.
  set (a1 := if 0 <? o then _ else _).
  assert (H1 : keepsEntries calendars a (snd a1))
    by (subst a1; destruct (0 <? o); now apply keepsEntries_frame).
  destruct a1 as [impact a1]. simpl snd in H1.
  destruct calendar as [cal |]; simpl snd.
  - destruct (keepsEntries_ensureFungibleTime a1 (calendarId ev) cal
                (eq_sym Hcal)) as [H2 [f Hf]].
    pose proof (keepsEntries_addFungibleHours
                  (ensureFungibleTime a1 (calendarId ev) cal)
                  (calendarId ev) o) as H3.
    split.
    + eauto using keepsEntries_trans.
    + intros _. apply H3. eauto.
  - split; [exact H1 | intros [? [=]]].
Qed.

Lemma keepsEntries_taskBranch a ev k data lower o dur :
  keepsEntries calendars a (snd (taskBranch a ev k data lower o dur)).
Proof.
  unfold taskBranch.
  destruct (isBlocked lower); [apply keepsEntries_refl |].
  destruct (parseProjectTask (summary (event ev))) as [p t]. cbv zeta.
  simpl snd.
  eapply keepsEntries_trans; [| apply keepsEntries_addTaskHours].
  eapply keepsEntries_trans; [| apply keepsEntries_ensureProjectTask].
  destruct (0 <? o); now apply keepsEntries_frame.
Qed.

Lemma keepsEntries_processEvent host cfg a ev :
  keepsEntries calendars a (processEvent host cfg calendars a ev)
  /\ (forall eventStart eventEnd,
        calendarCategory ev = Fungible ->
        start_dateTime (event ev) = Some eventStart ->
        end_dateTime (event ev) = Some eventEnd ->
        is_Some (dailyAvailabilityMap a !! formatDateToYMD eventStart (tz host cfg)) ->
        is_Some (find (fun c => String.eqb (id c) (calendarId ev)) calendars) ->
        is_Some (JsObject.get
                   (fungibleTimeMap (processEvent host cfg calendars a ev))
                   (calendarId ev))).
Proof.
  unfold processEvent.
  destruct (start_dateTime (event ev)) as [eventStart |];
    [| split; [apply keepsEntries_refl | discriminate]].
  destruct (end_dateTime (event ev)) as [eventEnd |];
    [| split; [apply keepsEntries_refl | discriminate]].
  destruct (dailyAvailabilityMap a !! formatDateToYMD eventStart (tz host cfg))
    as [data |] eqn:Hdata.
  2:{ split; [apply keepsEntries_refl |].
      intros s e _ [= <-] _ Hd. rewrite Hdata in Hd. destruct Hd; discriminate. }
  set (o := calculateWorkHoursOverlap _ _ _ _ _).
  destruct (calendarCategory ev).
  - split; [apply keepsEntries_refl | discriminate].
  - destruct (keepsEntries_fungibleBranch a ev
                (formatDateToYMD eventStart (tz host cfg)) data _ o eq_refl)
      as [Hk Hs].
    destruct (fungibleBranch _ _ _ _ _ _) as [i a']. simpl snd in Hk, Hs.
    assert (Hfr : forall m, keepsEntries calendars a' (set_dailyDetailsMap m a'))
      by (intros; now apply keepsEntries_frame).
    split.
    + destruct i; eauto using keepsEntries_trans.
    + intros s e _ _ _ _ Hfound. destruct i; simpl; auto.
  - pose proof (keepsEntries_taskBranch a ev
                  (formatDateToYMD eventStart (tz host cfg)) data
                  (Js.toLowerCase (default EmptyString (summary (event ev)))) o
                  (inject_Z (eventEnd - eventStart) / 60000)%Q) as Hk.
    destruct (taskBranch _ _ _ _ _ _ _) as [i a']. simpl snd in Hk.
    assert (Hfr : forall m, keepsEntries calendars a' (set_dailyDetailsMap m a'))
      by (intros; now apply keepsEntries_frame).
    split; [| discriminate].
    destruct i; eauto using keepsEntries_trans.
Qed.

Lemma keepsEntries_processEvents host cfg evs : forall a,
  keepsEntries calendars a (processEvents host cfg calendars a evs).
Proof.
  induction evs as [| ev evs IH]; intros a; simpl; [apply keepsEntries_refl |].
  eapply keepsEntries_trans; [apply keepsEntries_processEvent | apply IH].
Qed.

End Entries.

Lemma tracks_is_Some (m0 m : gmap Z DailyCapacity) (k : Z) :
  tracks m0 m -> is_Some (m0 !! k) -> is_Some (m !! k).
Proof.
  intros Ht [c0 H0]. specialize (Ht k). rewrite H0 in Ht.
  destruct (m !! k); [eauto | contradiction].
Qed.

Lemma finalDailyAvailability_returns host cfg calendars dates evs :
  exists ds,
    mapTry (dailyAvailabilityOf host cfg
              (dailyAvailabilityMap
                 (processEvents host cfg calendars
                    (initialAcc (initDailyAvailabilityMap host cfg dates)) evs)))
           dates
    = Returned ds.
Proof.
  destruct (mapTry_dailyAvailabilityOf host cfg
              (dailyAvailabilityMap
                 (processEvents host cfg calendars
                    (initialAcc (initDailyAvailabilityMap host cfg dates)) evs))
              (fun _ => True) dates) as (ds & Hds & _).
  - intros dt Hin.
    destruct (tracks_is_Some _ _ (formatDateToYMD dt (tz host cfg))
                (tracks_processEvents host cfg calendars _ evs
                   (initialAcc (initDailyAvailabilityMap host cfg dates))
                   (tracks_refl _))
                (initDailyAvailabilityMap_covers host cfg dates dt Hin))
      as [c Hc].
    unfold dailyAvailabilityOf. simpl in Hc. rewrite Hc. eauto.
  - eauto.
Qed.

(** Every event collected for the run carries the id of one of the
    calendars, so that [allCalendars.find] finds its calendar. *)
Lemma collectRelevantEvents_calendar host categories cals : forall acc evs,
  collectRelevantEvents host categories cals acc = Returned evs ->
  forall (all : list GoogleCalendar),
    (forall ev, In ev acc ->
       is_Some (find (fun c => String.eqb (id c) (calendarId ev)) all)) ->
    (forall cal, In cal cals -> In cal all) ->
    forall ev, In ev evs ->
      is_Some (find (fun c => String.eqb (id c) (calendarId ev)) all).
Proof.
  induction cals as [| cal cals IH]; simpl; intros acc evs Hret all Hacc Hsub.
  - injection Hret as <-. exact Hacc.
  - assert (Hfound : is_Some (find (fun c => String.eqb (id c) (id cal)) all)).
    { destruct (find (fun c => String.eqb (id c) (id cal)) all) eqn:E; [eauto |].
      exfalso.
      pose proof (find_none _ _ E cal (Hsub cal (or_introl eq_refl))) as Hn.
      simpl in Hn. now rewrite String.eqb_refl in Hn. }
    assert (Hrest : forall c, In c cals -> In c all) by (intros; apply Hsub; now right).
    destruct (categories !! id cal) as [[| |] |];
      try (now apply (IH acc evs Hret all Hacc Hrest)).
    all: destruct (listEvents host (id cal)) as [items | m]; [| discriminate].
    all: apply (IH _ evs Hret all); [| exact Hrest].
    all: intros ev Hin; apply in_app_iff in Hin as [Hin | Hin]; [now apply Hacc |].
    all: apply in_map_iff in Hin as (e & <- & _); exact Hfound.
Qed.

(** Over a whole run: a Fungible event with both instants
    whose local start date is a date of the range puts its calendar into
    the report's fungible summary, under the calendar's name and with a
    palette colour, whatever its overlap with the work window. *)
Lemma fungible_calendar_is_listed_in_the_report
    (host : Host) (s : AppState) (evs : list RelevantEvent)
    (ev : RelevantEvent) (eventStart eventEnd dt : Z) :
  let cfg := timeConfig s in
  collectRelevantEvents host (calendarCategories s) (allCalendars s) []
  = Returned evs ->
  In ev evs ->
  calendarCategory ev = Fungible ->
  start_dateTime (event ev) = Some eventStart ->
  end_dateTime (event ev) = Some eventEnd ->
  In dt (getDatesInRange host (startDate cfg) (endDate cfg) (timezone cfg)) ->
  formatDateToYMD eventStart (tz host cfg) = formatDateToYMD dt (tz host cfg) ->
  exists data x cal,
    computeReport host s = Returned data
    /\ In x (fungibleTimeSummary data)
    /\ find (fun c => String.eqb (id c) (calendarId ev)) (allCalendars s) = Some cal
    /\ fs_project x = cal_summary cal
    /\ In (fs_color x) PROJECT_COLORS.
Proof.
  intros cfg Hev Hin Hcat Hs He Hdt Hday.
  unfold computeReport. rewrite Hev. simpl bindTry. fold cfg.
  set (dates := getDatesInRange _ _ _ _) in *.
  set (m0 := initDailyAvailabilityMap host cfg dates).
  destruct (in_split _ _ Hin) as (before & after & ->).
  set (a := processEvents host cfg (allCalendars s) (initialAcc m0)
              (before ++ ev :: after)).
  pose proof (keepsEntries_processEvents (allCalendars s) host cfg
                (before ++ ev :: after) (initialAcc m0)) as [Hinv _].
  fold a in Hinv.
  destruct Hinv as [_ Hnamed].
  { intros n c H. simpl in H. rewrite lookup_empty in H. discriminate. }
  { intros k f H. discriminate. }
  assert (Hentry : is_Some (JsObject.get (fungibleTimeMap a) (calendarId ev))).
  { subst a. unfold processEvents. rewrite fold_left_app. simpl fold_left.
    fold (processEvents host cfg (allCalendars s) (initialAcc m0) before).
    set (mid := processEvents host cfg (allCalendars s) (initialAcc m0) before).
    fold (processEvents host cfg (allCalendars s)
            (processEvent host cfg (allCalendars s) mid ev) after).
    apply (keepsEntries_processEvents (allCalendars s) host cfg after).
    apply (proj2 (keepsEntries_processEvent (allCalendars s) host cfg mid ev)
             eventStart eventEnd Hcat Hs He).
    - rewrite Hday.
      apply (tracks_is_Some m0).
      + apply tracks_processEvents, tracks_refl.
      + apply initDailyAvailabilityMap_covers, Hdt.
    - apply (collectRelevantEvents_calendar host _ _ [] _ Hev (allCalendars s));
        [intros ? [] | auto | apply in_elt]. }
  destruct Hentry as [f Hf].
  destruct (Hnamed _ _ Hf) as (Hcol & cal & Hfind & Hname).
  destruct (finalDailyAvailability_returns host cfg (allCalendars s) dates
              (before ++ ev :: after)) as (ds & Hds).
  fold m0 in Hds. fold a in Hds.
  unfold buildReport. rewrite Hds. simpl bindTry.
  eexists. eexists. exists cal.
  split; [reflexivity |]. simpl fungibleTimeSummary.
  split.
  - apply In_sortBy. apply in_map_iff. exists f.
    split; [reflexivity |]. eapply get_In_values, Hf.
  - simpl. auto.
Qed.

(** * Further properties of the code *)

(** ** The date sequence *)

(** [getDatesInRange] yields one date per civil day from the start date to
    the end date, both included and in order: the i-th is local noon of
    the i-th day.  An end date before the start date yields no date. *)
Theorem getDatesInRange_one_noon_per_day
    (host : Host) (startDateStr endDateStr : Z) (timezone : string) :
  noonIncreasing host ->
  length (getDatesInRange host startDateStr endDateStr timezone)
  = Z.to_nat (endDateStr - startDateStr + 1)
  /\ (forall i : nat,
        (i < Z.to_nat (endDateStr - startDateStr + 1))%nat ->
        getDatesInRange host startDateStr endDateStr timezone !! i
        = Some (localNoon host (startDateStr + Z.of_nat i)))
  /\ (endDateStr < startDateStr ->
      getDatesInRange host startDateStr endDateStr timezone = []).
Proof.
  intros Hmono. rewrite (getDatesInRange_days host _ _ _ Hmono).
  split; [| split].
  - rewrite length_map, length_seqZ. reflexivity.
  - intros i Hi. rewrite list_lookup_fmap.
    rewrite (proj2 (lookup_seqZ startDateStr (endDateStr - startDateStr + 1) i
                      (startDateStr + Z.of_nat i)));
      [reflexivity | lia].
  - intros Hlt. now rewrite seqZ_nil by lia.
Qed.

Lemma getDatesInRange_one_noon_per_day_witness :
  length (getDatesInRange (hostWith standup) monday (monday + 6) "UTC") = 7%nat
  /\ getDatesInRange (hostWith standup) monday (monday + 6) "UTC" !! 6%nat
     = Some (utcInstant (monday + 6) 12 0).
Proof.
  assert (Hmono : noonIncreasing (hostWith standup))
    by (intros d d' H; unfold hostWith, utcHost, utcInstant; simpl; lia).
  destruct (getDatesInRange_one_noon_per_day (hostWith standup) monday
              (monday + 6) "UTC" Hmono) as (Hlen & Hnth & _).
  split; [exact Hlen |]. apply (Hnth 6%nat). vm_compute. lia.
Defined.

(** ** More on the overlap *)

(** The overlap never exceeds the length of the work window, nor the span
    between the event's start and end clocks, and is always less than a
    day. *)
Theorem overlap_is_bounded_by_window_and_event
    (eventStart eventEnd : Z) (workStartTime workEndTime : ClockTime)
    (zone : TimeZone) :
  let overlap :=
    calculateWorkHoursOverlap eventStart eventEnd workStartTime workEndTime zone in
  overlap <= Z.max 0 (parseTimeToMinutes workEndTime
                      - parseTimeToMinutes workStartTime)
  /\ overlap <= Z.max 0 (parseTimeToMinutes (toLocaleTime eventEnd zone)
                         - parseTimeToMinutes (toLocaleTime eventStart zone))
  /\ overlap < 1440.
Proof.
  cbv zeta. rewrite overlap_formula.
  pose proof (localClock_range eventStart zone).
  pose proof (localClock_range eventEnd zone).
  lia.
Qed.

(** An event whose end clock is not after its start clock, as when it
    runs past local midnight, has no overlap at all, even where part of it
    lies inside the work window of the day it starts on. *)
Theorem overlap_of_event_past_midnight_is_zero
    (eventStart eventEnd : Z) (workStartTime workEndTime : ClockTime)
    (zone : TimeZone) :
  parseTimeToMinutes (toLocaleTime eventEnd zone)
  <= parseTimeToMinutes (toLocaleTime eventStart zone) ->
  calculateWorkHoursOverlap eventStart eventEnd workStartTime workEndTime zone = 0.
Proof. intros H. rewrite overlap_formula. lia. Qed.

Lemma overlap_of_event_past_midnight_is_zero_witness :
  calculateWorkHoursOverlap
    (utcInstant monday 22 0) (utcInstant (monday + 1) 1 0)
    (clock 18 0) (clock 23 0) (fun _ => 0) = 0.
Proof.
  apply overlap_of_event_past_midnight_is_zero. vm_compute. discriminate.
Defined.

(** ** Events that the loop drops *)

Lemma processEvents_capacity_days host cfg calendars evs a k :
  is_Some (dailyAvailabilityMap (processEvents host cfg calendars a evs) !! k)
  <-> is_Some (dailyAvailabilityMap a !! k).
Proof.
  pose proof (tracks_processEvents host cfg calendars (dailyAvailabilityMap a)
                evs a (tracks_refl _) k) as Ht.
  destruct (dailyAvailabilityMap a !! k),
           (dailyAvailabilityMap (processEvents host cfg calendars a evs) !! k);
    try contradiction; split; intros [? H]; eauto; discriminate.
Qed.

Lemma processEvent_outside_days host cfg calendars a ev eventStart :
  start_dateTime (event ev) = Some eventStart ->
  dailyAvailabilityMap a !! formatDateToYMD eventStart (tz host cfg) = None ->
  processEvent host cfg calendars a ev = a.
Proof.
  intros Hs Hd. unfold processEvent. rewrite Hs.
  destruct (end_dateTime (event ev)); [| reflexivity]. now rewrite Hd.
Qed.

(** An event whose local start date is not a day of the capacity map,
    that is, not a date of the range, is dropped: wherever it stands among
    the events, the maps at the end of the loop are those of the run
    without it. *)
Theorem event_outside_the_range_is_dropped
    (host : Host) (cfg : TimeConfig) (calendars : list GoogleCalendar)
    (a : Acc) (ev : RelevantEvent) (eventStart : Z)
    (before after : list RelevantEvent) :
  start_dateTime (event ev) = Some eventStart ->
  dailyAvailabilityMap a !! formatDateToYMD eventStart (tz host cfg) = None ->
  processEvents host cfg calendars a (before ++ ev :: after)
  = processEvents host cfg calendars a (before ++ after).
Proof.
  intros Hs Hd. unfold processEvents. rewrite !fold_left_app. simpl.
  fold (processEvents host cfg calendars a before).
  rewrite (processEvent_outside_days host cfg calendars _ ev eventStart Hs);
    [reflexivity |].
  apply eq_None_not_Some. intros H.
  apply processEvents_capacity_days in H. rewrite Hd in H.
  destruct H; discriminate.
Qed.

Lemma event_outside_the_range_is_dropped_witness :
  let host := hostWith standup in
  let cfg := officeHours monday monday (4 # 5) in
  let a := initialAcc (initDailyAvailabilityMap host cfg [utcInstant monday 12 0]) in
  let tomorrow :=
    tagged (timedEvent "Acme: Review" (utcInstant (monday + 1) 10 0)
                       (utcInstant (monday + 1) 11 0)) Task in
  processEvents host cfg oneCalendar a
    ([tagged standup Fungible] ++ tomorrow :: [tagged eveningCall Task])
  = processEvents host cfg oneCalendar a
      ([tagged standup Fungible] ++ [tagged eveningCall Task]).
Proof.
  intros host cfg a tomorrow.
  apply (event_outside_the_range_is_dropped host cfg oneCalendar a tomorrow
           (utcInstant (monday + 1) 10 0)).
  - reflexivity.
  - vm_compute. reflexivity.
Defined.

Lemma prefix_toLowerCase (a b : string) :
  String.prefix a b = true ->
  String.prefix (Js.toLowerCase a) (Js.toLowerCase b) = true.
Proof.
  revert b. induction a as [| x a IH]; intros b; [destruct b; reflexivity |].
  destruct b as [| y b]; simpl; [discriminate |].
  destruct (ascii_dec x y) as [-> | Hne]; [| discriminate].
  destruct (ascii_dec (Js.lowerChar y) (Js.lowerChar y)); [apply IH | congruence].
Qed.

Lemma includes_toLowerCase (s needle : string) :
  Js.includes s needle = true ->
  Js.includes (Js.toLowerCase s) (Js.toLowerCase needle) = true.
Proof.
  induction s as [| c s IH].
  - change (Js.toLowerCase EmptyString) with EmptyString.
    cbn [Js.includes]. rewrite !orb_false_r.
    apply (prefix_toLowerCase needle EmptyString).
  - change (Js.toLowerCase (String c s))
      with (String (Js.lowerChar c) (Js.toLowerCase s)).
    cbn [Js.includes]. intros H. apply orb_true_iff in H as [H | H].
    + change (String (Js.lowerChar c) (Js.toLowerCase s))
        with (Js.toLowerCase (String c s)).
      now rewrite (prefix_toLowerCase _ _ H).
    + rewrite (IH H). apply orb_true_r.
Qed.

(** A Task event whose summary contains a blocking keyword, in whatever
    letter case, is left out of everything: no capacity is deducted, no
    bucket and no detail row is written, no colour is allocated. *)
Theorem blocked_task_event_changes_nothing
    (host : Host) (cfg : TimeConfig) (calendars : list GoogleCalendar)
    (a : Acc) (ev : RelevantEvent) (text spelling : string) :
  calendarCategory ev = Task ->
  summary (event ev) = Some text ->
  In (Js.toLowerCase spelling) TASK_CALENDAR_BLOCK_KEYWORDS ->
  Js.includes text spelling = true ->
  processEvent host cfg calendars a ev = a.
Proof.
  intros Hcat Hsum Hkw Hinc.
  assert (Hb : isBlocked (Js.toLowerCase text) = true).
  { unfold isBlocked. apply existsb_exists.
    exists (Js.toLowerCase spelling). split; [exact Hkw |].
    now apply includes_toLowerCase. }
  unfold processEvent.
  destruct (start_dateTime (event ev)); [| reflexivity].
  destruct (end_dateTime (event ev)); [| reflexivity].
  destruct (dailyAvailabilityMap a !! _); [| reflexivity].
  rewrite Hcat, Hsum. unfold taskBranch. simpl default. rewrite Hb.
  reflexivity.
Qed.

Lemma blocked_task_event_changes_nothing_witness :
  let host := hostWith standup in
  let cfg := officeHours monday monday (4 # 5) in
  let a := initialAcc (initDailyAvailabilityMap host cfg [utcInstant monday 12 0]) in
  processEvent host cfg oneCalendar a
    (tagged (timedEvent "Focus BLOCK: writing" (utcInstant monday 10 0)
                        (utcInstant monday 12 0)) Task)
  = a.
Proof.
  intros host cfg a.
  apply (blocked_task_event_changes_nothing host cfg oneCalendar a _
           "Focus BLOCK: writing" "BLOCK");
    try reflexivity.
  left. reflexivity.
Defined.

(** ** Days of the capacity map *)

(** The event loop neither adds nor removes a day, and it never changes
    a day's [totalMinutes]. *)
Theorem event_loop_keeps_the_days
    (host : Host) (cfg : TimeConfig) (calendars : list GoogleCalendar)
    (a : Acc) (evs : list RelevantEvent) :
  dom (dailyAvailabilityMap (processEvents host cfg calendars a evs))
  = dom (dailyAvailabilityMap a)
  /\ forall k c0 c,
       dailyAvailabilityMap a !! k = Some c0 ->
       dailyAvailabilityMap (processEvents host cfg calendars a evs) !! k = Some c ->
       totalMinutes c = totalMinutes c0.
Proof.
  split.
  - apply set_eq. intros k. rewrite !elem_of_dom.
    apply processEvents_capacity_days.
  - intros k c0 c H0 Hc.
    pose proof (tracks_processEvents host cfg calendars (dailyAvailabilityMap a)
                  evs a (tracks_refl _) k) as Ht.
    rewrite H0, Hc in Ht. apply Ht.
Qed.

(** ** What each day loses *)

Lemma processEvent_task_capacity host cfg calendars a ev eventStart eventEnd data :
  calendarCategory ev = Task ->
  start_dateTime (event ev) = Some eventStart ->
  end_dateTime (event ev) = Some eventEnd ->
  dailyAvailabilityMap a !! formatDateToYMD eventStart (tz host cfg) = Some data ->
  dailyAvailabilityMap (processEvent host cfg calendars a ev)
  = if isBlocked (eventSummaryLowerOf ev) then dailyAvailabilityMap a
    else if 0 <? workHoursOverlapOf host cfg eventStart eventEnd
    then <[formatDateToYMD eventStart (tz host cfg)
           := deductTask data (workHoursOverlapOf host cfg eventStart eventEnd)]>
           (dailyAvailabilityMap a)
    else dailyAvailabilityMap a.
Proof.
  intros Hcat Hs He Hd.
  rewrite <- (taskBranch_capacity a ev _ data (eventSummaryLowerOf ev) _
                (inject_Z (eventEnd - eventStart) / 60000)%Q).
  unfold processEvent. rewrite Hs, He, Hd, Hcat.
  unfold workHoursOverlapOf, eventSummaryLowerOf. cbv zeta.
  destruct (taskBranch _ _ _ _ _ _ _) as [i a']. destruct i; reflexivity.
Qed.

Lemma inject_Z_pos_or_zero (o : Z) : 0 <= o -> (0 <? o) = false -> o = 0.
Proof. intros H1 H2. apply Z.ltb_ge in H2. lia. Qed.

Lemma processEvent_capacity_elsewhere host cfg calendars a ev eventStart k :
  start_dateTime (event ev) = Some eventStart ->
  formatDateToYMD eventStart (tz host cfg) <> k ->
  dailyAvailabilityMap (processEvent host cfg calendars a ev) !! k
  = dailyAvailabilityMap a !! k.
Proof.
  intros Hs Hk.
  destruct (end_dateTime (event ev)) as [eventEnd |] eqn:He.
  2:{ unfold processEvent. now rewrite Hs, He. }
  destruct (dailyAvailabilityMap a !! formatDateToYMD eventStart (tz host cfg))
    as [data |] eqn:Hd.
  2:{ unfold processEvent. now rewrite Hs, He, Hd. }
  destruct (calendarCategory ev) eqn:Hcat.
  - unfold processEvent. now rewrite Hs, He, Hd, Hcat.
  - rewrite (processEvent_fungible_capacity host cfg calendars a ev
               eventStart eventEnd data Hcat Hs He Hd).
    destruct (0 <? _); [now rewrite lookup_insert_ne | reflexivity].
  - rewrite (processEvent_task_capacity host cfg calendars a ev
               eventStart eventEnd data Hcat Hs He Hd).
    destruct (isBlocked _); [reflexivity |].
    destruct (0 <? _); [now rewrite lookup_insert_ne | reflexivity].
Qed.

Lemma processEvent_capacity_at host cfg calendars a ev k c :
  dailyAvailabilityMap a !! k = Some c ->
  exists c',
    dailyAvailabilityMap (processEvent host cfg calendars a ev) !! k = Some c'
    /\ (fungibleMinutes c' ==
        fungibleMinutes c + inject_Z (fungibleOverlapOn host cfg k ev))%Q
    /\ (taskMinutes c' ==
        taskMinutes c + inject_Z (taskOverlapOn host cfg k ev))%Q.
Proof.
  intros Hc.
  assert (Hsame : fungibleOverlapOn host cfg k ev = 0 ->
                  taskOverlapOn host cfg k ev = 0 ->
                  dailyAvailabilityMap (processEvent host cfg calendars a ev)
                  = dailyAvailabilityMap a ->
                  exists c',
                    dailyAvailabilityMap (processEvent host cfg calendars a ev) !! k
                    = Some c'
                    /\ (fungibleMinutes c' ==
                        fungibleMinutes c
                        + inject_Z (fungibleOverlapOn host cfg k ev))%Q
                    /\ (taskMinutes c' ==
                        taskMinutes c
                        + inject_Z (taskOverlapOn host cfg k ev))%Q).
  { intros -> -> ->. exists c. split; [exact Hc |].
    change (inject_Z 0) with 0%Q. split; lra. }
  destruct (start_dateTime (event ev)) as [eventStart |] eqn:Hs.
  2:{ apply Hsame; unfold fungibleOverlapOn, taskOverlapOn, processEvent;
        rewrite ?Hs; destruct (calendarCategory ev); reflexivity. }
  destruct (end_dateTime (event ev)) as [eventEnd |] eqn:He.
  2:{ apply Hsame; unfold fungibleOverlapOn, taskOverlapOn, processEvent;
        rewrite ?Hs, ?He; destruct (calendarCategory ev); reflexivity. }
  pose proof (overlap_nonneg eventStart eventEnd
                (if isWeekend host eventStart
                 then weekendStartTime cfg else weekdayStartTime cfg)
                (if isWeekend host eventStart
                 then weekendEndTime cfg else weekdayEndTime cfg)
                (tz host cfg)) as Hnn.
  fold (workHoursOverlapOf host cfg eventStart eventEnd) in Hnn.
  destruct (Z.eqb_spec (formatDateToYMD eventStart (tz host cfg)) k) as [Hk | Hk].
  - rewrite <- Hk in Hc.
    destruct (calendarCategory ev) eqn:Hcat.
    + apply Hsame; unfold fungibleOverlapOn, taskOverlapOn, processEvent;
        rewrite ?Hs, ?He, ?Hcat, ?Hc; reflexivity.
    + rewrite (processEvent_fungible_capacity host cfg calendars a ev
                 eventStart eventEnd c Hcat Hs He Hc).
      unfold fungibleOverlapOn, taskOverlapOn.
      rewrite Hcat, Hs, He, <- Hk, Z.eqb_refl.
      destruct (0 <? workHoursOverlapOf host cfg eventStart eventEnd) eqn:Ho.
      * rewrite lookup_insert_eq. eexists. split; [reflexivity |].
        simpl. change (inject_Z 0) with 0%Q. split; lra.
      * rewrite (inject_Z_pos_or_zero _ Hnn Ho). exists c.
        split; [exact Hc |]. change (inject_Z 0) with 0%Q. split; lra.
    + rewrite (processEvent_task_capacity host cfg calendars a ev
                 eventStart eventEnd c Hcat Hs He Hc).
      unfold fungibleOverlapOn, taskOverlapOn.
      rewrite Hcat, Hs, He, <- Hk, Z.eqb_refl.
      destruct (isBlocked (eventSummaryLowerOf ev)).
      { exists c. split; [exact Hc |]. change (inject_Z 0) with 0%Q.
        split; lra. }
      destruct (0 <? workHoursOverlapOf host cfg eventStart eventEnd) eqn:Ho.
      * rewrite lookup_insert_eq. eexists. split; [reflexivity |].
        simpl. change (inject_Z 0) with 0%Q. split; lra.
      * rewrite (inject_Z_pos_or_zero _ Hnn Ho). exists c.
        split; [exact Hc |]. change (inject_Z 0) with 0%Q. split; lra.
  - assert (Hf : fungibleOverlapOn host cfg k ev = 0).
    { unfold fungibleOverlapOn. rewrite Hs, He.
      destruct (calendarCategory ev); try reflexivity.
      destruct (Z.eqb_spec (formatDateToYMD eventStart (tz host cfg)) k);
        [contradiction | reflexivity]. }
    assert (Ht : taskOverlapOn host cfg k ev = 0).
    { unfold taskOverlapOn. rewrite Hs, He.
      destruct (calendarCategory ev); try reflexivity.
      destruct (Z.eqb_spec (formatDateToYMD eventStart (tz host cfg)) k);
        [contradiction | reflexivity]. }
    rewrite Hf, Ht. change (inject_Z 0) with 0%Q.
    exists c.
    rewrite (processEvent_capacity_elsewhere host cfg calendars a ev
               eventStart k Hs Hk).
    split; [exact Hc |]. split; lra.
Qed.

Lemma processEvents_capacity_sums host cfg calendars evs : forall a k c,
  dailyAvailabilityMap a !! k = Some c ->
  exists c',
    dailyAvailabilityMap (processEvents host cfg calendars a evs) !! k = Some c'
    /\ (fungibleMinutes c' ==
        fungibleMinutes c
        + inject_Z (sumZ (map (fungibleOverlapOn host cfg k) evs)))%Q
    /\ (taskMinutes c' ==
        taskMinutes c
        + inject_Z (sumZ (map (taskOverlapOn host cfg k) evs)))%Q.
Proof.
  induction evs as [| ev evs IH]; intros a k c Hc; simpl.
  - exists c. split; [exact Hc |]. change (inject_Z 0) with 0%Q. split; lra.
  - destruct (processEvent_capacity_at host cfg calendars a ev k c Hc)
      as (c1 & Hc1 & Hf1 & Ht1).
    destruct (IH _ k c1 Hc1) as (c' & Hc' & Hf & Ht).
    exists c'. split; [exact Hc' |].
    rewrite !inject_Z_plus, Hf, Ht, Hf1, Ht1. split; lra.
Qed.

(** At the end of the event loop the [fungibleMinutes] of a day are the
    sum of the overlaps of the Fungible events that start on it, its
    [taskMinutes] the sum of the overlaps of the unblocked Task events
    that start on it: every overlap is deducted once, from the day the
    event starts on and from no other. *)
Theorem day_minutes_are_the_sums_of_its_overlaps
    (host : Host) (cfg : TimeConfig) (calendars : list GoogleCalendar)
    (dates : list Z) (evs : list RelevantEvent) (k : Z) (c : DailyCapacity) :
  dailyAvailabilityMap
    (processEvents host cfg calendars
       (initialAcc (initDailyAvailabilityMap host cfg dates)) evs) !! k
  = Some c ->
  (fungibleMinutes c
   == inject_Z (sumZ (map (fungibleOverlapOn host cfg k) evs)))%Q
  /\ (taskMinutes c
      == inject_Z (sumZ (map (taskOverlapOn host cfg k) evs)))%Q.
Proof.
  intros Hc.
  assert (H0 : is_Some (initDailyAvailabilityMap host cfg dates !! k)).
  { apply (processEvents_capacity_days host cfg calendars evs
             (initialAcc (initDailyAvailabilityMap host cfg dates)) k).
    rewrite Hc. eauto. }
  destruct H0 as [c0 H0].
  destruct (initDailyAvailabilityMap_lookup host cfg dates k c0 H0)
    as (dt & _ & _ & Hinit).
  destruct (processEvents_capacity_sums host cfg calendars evs
              (initialAcc (initDailyAvailabilityMap host cfg dates)) k c0 H0)
    as (c' & Hc' & Hf & Ht).
  rewrite Hc in Hc'. injection Hc' as <-.
  rewrite Hf, Ht, Hinit. simpl. split; lra.
Qed.

Lemma day_minutes_are_the_sums_of_its_overlaps_witness :
  let host := hostWith standup in
  let cfg := officeHours monday monday (4 # 5) in
  let evs := [tagged standup Fungible; tagged allDayWorkshop Task;
              tagged eveningCall Task; tagged standup Fungible] in
  exists c,
    dailyAvailabilityMap
      (processEvents host cfg oneCalendar
         (initialAcc (initDailyAvailabilityMap host cfg [utcInstant monday 12 0]))
         evs) !! monday = Some c
    /\ (fungibleMinutes c == 120)%Q /\ (taskMinutes c == 480)%Q.
Proof.
  intros host cfg evs.
  assert (H : { c | dailyAvailabilityMap
                      (processEvents host cfg oneCalendar
                         (initialAcc
                            (initDailyAvailabilityMap host cfg
                               [utcInstant monday 12 0])) evs) !! monday
                    = Some c })
    by (eexists; vm_compute; reflexivity).
  destruct H as [c H]. exists c. split; [exact H |].
  destruct (day_minutes_are_the_sums_of_its_overlaps host cfg oneCalendar
              [utcInstant monday 12 0] evs monday c H) as [Hf Ht].
  rewrite Hf, Ht. split; reflexivity.
Defined.

(** ** Daily detail rows *)

Lemma fungibleBranch_impact a ev k data calendar o :
  dailyDetailsMap (snd (fungibleBranch a ev k data calendar o))
  = dailyDetailsMap a
  /\ (fst (fungibleBranch a ev k data calendar o) = reduces_available
      \/ fst (fungibleBranch a ev k data calendar o) = ignored).
Proof.
  unfold fungibleBranch.
  destruct (0 <? o); destruct calendar as [cal |]; simpl; split; auto.
  all: rewrite (proj1 (proj2 (proj2 (addFungibleHours_maps _ _ _)))),
               (proj2 (proj2 (ensureFungibleTime_maps _ _ _))); reflexivity.
Qed.

Lemma taskBranch_impact a ev k data lower o dur :
  dailyDetailsMap (snd (taskBranch a ev k data lower o dur))
  = dailyDetailsMap a
  /\ (fst (taskBranch a ev k data lower o dur) = task_tracked
      \/ fst (taskBranch a ev k data lower o dur) = ignored).
Proof.
  unfold taskBranch.
  destruct (isBlocked lower); [simpl; auto |].
  destruct (parseProjectTask (summary (event ev))) as [p t]. cbv zeta.
  simpl. split; [| auto].
  rewrite (proj1 (proj2 (proj2 (addTaskHours_maps _ _ _)))).
  rewrite (proj2 (proj2 (ensureProjectTask_maps _ _ _ _))).
  destruct (0 <? o); reflexivity.
Qed.

Lemma processEvent_detail_rows host cfg calendars a ev :
  dailyDetailsMap (processEvent host cfg calendars a ev) = dailyDetailsMap a
  \/ exists eventStart eventEnd row,
       start_dateTime (event ev) = Some eventStart
       /\ end_dateTime (event ev) = Some eventEnd
       /\ dailyDetailsMap (processEvent host cfg calendars a ev)
          = <[formatDateToYMD eventStart (tz host cfg)
              := default [] (dailyDetailsMap a
                             !! formatDateToYMD eventStart (tz host cfg))
                 ++ [row]]> (dailyDetailsMap a)
       /\ detailRowShape row
       /\ duration row = (inject_Z (eventEnd - eventStart) / 60000 / 60)%Q
       /\ startTime row = toLocaleTime eventStart (tz host cfg)
       /\ endTime row = toLocaleTime eventEnd (tz host cfg).
Proof.
  unfold processEvent.
  destruct (start_dateTime (event ev)) as [eventStart |]; [| now left].
  destruct (end_dateTime (event ev)) as [eventEnd |]; [| now left].
  destruct (dailyAvailabilityMap a !! _) as [data |]; [| now left].
  set (o := calculateWorkHoursOverlap _ _ _ _ _).
  destruct (calendarCategory ev) eqn:Hcat.
  - now left.
  - destruct (fungibleBranch_impact a ev
                (formatDateToYMD eventStart (tz host cfg)) data
                (find (fun c => String.eqb (id c) (calendarId ev)) calendars) o)
      as [Hdd Hi].
    destruct (fungibleBranch _ _ _ _ _ _) as [i a']. simpl in Hdd, Hi.
    destruct Hi as [-> | ->]; [| now left].
    right. exists eventStart, eventEnd. eexists.
    split; [reflexivity |]. split; [reflexivity |].
    split; [simpl; rewrite Hdd; reflexivity |].
    split; [left; simpl; auto |]. simpl. auto.
  - destruct (taskBranch_impact a ev
                (formatDateToYMD eventStart (tz host cfg)) data
                (Js.toLowerCase (default EmptyString (summary (event ev)))) o
                (inject_Z (eventEnd - eventStart) / 60000)%Q)
      as [Hdd Hi].
    destruct (taskBranch _ _ _ _ _ _ _) as [i a']. simpl in Hdd, Hi.
    destruct Hi as [-> | ->]; [| now left].
    right. exists eventStart, eventEnd. eexists.
    split; [reflexivity |]. split; [reflexivity |].
    split; [simpl; rewrite Hdd; reflexivity |].
    split; [right; simpl; auto |]. simpl. auto.
Qed.

Lemma processEvents_detail_rows host cfg calendars evs : forall a,
  (forall k rows, dailyDetailsMap a !! k = Some rows ->
                  Forall detailRowShape rows) ->
  forall k rows,
    dailyDetailsMap (processEvents host cfg calendars a evs) !! k = Some rows ->
    Forall detailRowShape rows.
Proof.
  induction evs as [| ev evs IH]; intros a Ha; simpl; [exact Ha |].
  apply IH. intros k rows.
  destruct (processEvent_detail_rows host cfg calendars a ev)
    as [-> | (s & e & row & _ & _ & -> & Hrow & _)]; [apply Ha |].
  destruct (decide (formatDateToYMD s (tz host cfg) = k)) as [<- | Hne].
  - rewrite lookup_insert_eq. intros [= <-].
    apply Forall_app.
    split; [| apply Forall_cons_2; [exact Hrow | apply Forall_nil_2]].
    destruct (dailyDetailsMap a !! formatDateToYMD s (tz host cfg)) eqn:E;
      [eapply Ha, E | apply Forall_nil_2].
  - rewrite lookup_insert_ne by exact Hne. apply Ha.
Qed.

(** Every row of the report's daily details is that of a Fungible event
    that reduced availability or of a tracked Task event: an ignored event
    (a Fungible event without overlap, a blocked Task event) is never
    listed. *)
Theorem report_lists_no_ignored_event
    (host : Host) (s : AppState) (data : ProcessedData) :
  computeReport host s = Returned data ->
  Forall (fun day => Forall detailRowShape (events day)) (dailyDetails data).
Proof.
  unfold computeReport.
  destruct (collectRelevantEvents _ _ _ _) as [evs | m]; [| discriminate].
  simpl bindTry. unfold buildReport.
  destruct (mapTry _ _) as [ds | m]; [| discriminate].
  simpl. intros [= <-]. simpl.
  apply Forall_forall. intros day Hin. apply list_elem_of_In in Hin.
  apply in_map_iff in Hin as (dt & <- & _). unfold dailyDetailsOf. simpl.
  destruct (dailyDetailsMap _ !! _) as [rows |] eqn:E; [| apply Forall_nil_2].
  simpl. eapply processEvents_detail_rows; [| exact E].
  intros k rows' H. simpl in H. rewrite lookup_empty in H. discriminate.
Qed.

Lemma report_lists_no_ignored_event_witness :
  exists data,
    computeReport (hostWith eveningCall)
      (signedIn (officeHours monday monday (4 # 5)) Fungible) = Returned data
    /\ Forall (fun day => Forall detailRowShape (events day)) (dailyDetails data)
    /\ map events (dailyDetails data) = [[]].
Proof.
  eexists. split; [vm_compute; reflexivity |].
  split; [| reflexivity].
  apply (report_lists_no_ignored_event (hostWith eveningCall)
           (signedIn (officeHours monday monday (4 # 5)) Fungible)).
  vm_compute. reflexivity.
Defined.

(** ** Collecting the events *)

Lemma collectRelevantEvents_fetched host categories cals : forall acc,
  (forall cal, In cal cals -> isActive categories cal = true ->
     exists items, listEvents host (id cal) = Fetched items) ->
  collectRelevantEvents host categories cals acc
  = Returned (acc ++ flat_map (taggedEventsOf host categories) cals).
Proof.
  induction cals as [| cal cals IH]; intros acc H; simpl.
  - now rewrite app_nil_r.
  - assert (Hrest : forall c, In c cals -> isActive categories c = true ->
              exists items, listEvents host (id c) = Fetched items)
      by (intros; apply H; [now right | assumption]).
    pose proof (H cal (or_introl eq_refl)) as Hcal.
    unfold taggedEventsOf, isActive in *.
    destruct (categories !! id cal) as [[| |] |]; simpl.
    + apply IH, Hrest.
    + destruct (Hcal eq_refl) as [items ->].
      rewrite (IH _ Hrest). now rewrite app_assoc.
    + destruct (Hcal eq_refl) as [items ->].
      rewrite (IH _ Hrest). now rewrite app_assoc.
    + apply IH, Hrest.
Qed.

Lemma collectRelevantEvents_returned host categories cals : forall acc evs,
  collectRelevantEvents host categories cals acc = Returned evs ->
  forall cal, In cal cals -> isActive categories cal = true ->
    exists items, listEvents host (id cal) = Fetched items.
Proof.
  induction cals as [| cal cals IH]; simpl; intros acc evs H c Hin Hact;
    [contradiction |].
  destruct Hin as [<- | Hin].
  - unfold isActive in Hact.
    destruct (categories !! id cal) as [[| |] |]; try discriminate;
      destruct (listEvents host (id cal)); eauto; discriminate.
  - destruct (categories !! id cal) as [[| |] |];
      try (eapply IH; eassumption);
      destruct (listEvents host (id cal)); try discriminate;
      eapply IH; eassumption.
Qed.

(** The events of a run are those of the Task and Fungible calendars,
    calendar by calendar in the order of the calendar list and, within a
    calendar, in the order it returned them; this is the order in which
    the loop handles them.  They are collected exactly when every such
    calendar returned its events. *)
Theorem events_follow_the_calendar_list
    (host : Host) (categories : gmap string CalendarCategory)
    (cals : list GoogleCalendar) :
  (forall evs,
     collectRelevantEvents host categories cals [] = Returned evs ->
     evs = flat_map (taggedEventsOf host categories) cals)
  /\ ((exists evs, collectRelevantEvents host categories cals [] = Returned evs)
      <-> forall cal, In cal cals -> isActive categories cal = true ->
            exists items, listEvents host (id cal) = Fetched items).
Proof.
  split.
  - intros evs H.
    pose proof (collectRelevantEvents_returned host categories cals [] evs H)
      as Hall.
    rewrite (collectRelevantEvents_fetched host categories cals [] Hall) in H.
    now injection H as <-.
  - split.
    + intros [evs H]. eapply collectRelevantEvents_returned, H.
    + intros Hall. eexists.
      apply (collectRelevantEvents_fetched host categories cals [] Hall).
Qed.

Lemma collectRelevantEvents_rejected host categories before cal after m :
  forall acc,
    (forall c, In c before -> isActive categories c = true ->
       exists items, listEvents host (id c) = Fetched items) ->
    isActive categories cal = true ->
    listEvents host (id cal) = Rejected m ->
    collectRelevantEvents host categories (before ++ cal :: after) acc = Thrown m.
Proof.
  induction before as [| b before IH]; intros acc Hb Hact Hrej; simpl.
  - unfold isActive in Hact.
    destruct (categories !! id cal) as [[| |] |]; try discriminate;
      now rewrite Hrej.
  - assert (Hrest : forall c, In c before -> isActive categories c = true ->
              exists items, listEvents host (id c) = Fetched items)
      by (intros; apply Hb; [now right | assumption]).
    pose proof (Hb b (or_introl eq_refl)) as Hfirst. unfold isActive in Hfirst.
    destruct (categories !! id b) as [[| |] |];
      try (now apply IH);
      destruct (Hfirst eq_refl) as [items ->]; now apply IH.
Qed.

(** ** How a run ends *)

Lemma computeReport_returns host s evs :
  collectRelevantEvents host (calendarCategories s) (allCalendars s) []
  = Returned evs ->
  exists data, computeReport host s = Returned data.
Proof.
  intros Hev. unfold computeReport. rewrite Hev. simpl bindTry.
  destruct (finalDailyAvailability_returns host (timeConfig s) (allCalendars s)
              (getDatesInRange host (startDate (timeConfig s))
                 (endDate (timeConfig s)) (timezone (timeConfig s))) evs)
    as (ds & Hds).
  unfold buildReport. rewrite Hds. simpl. eauto.
Qed.

Lemma processCalendarData_outcome (host : Host) (s : AppState) :
  isSignedIn s = true ->
  let cfg := timeConfig s in
  let s' := processCalendarData host s in
  isLoading s' = false
  /\ (is_Some (processedData s') <-> error s' = None)
  /\ (is_Some (processedData s') <->
      0 < parseTimeToMinutes (weekdayEndTime cfg)
          - parseTimeToMinutes (weekdayStartTime cfg)
      /\ 0 < parseTimeToMinutes (weekendEndTime cfg)
             - parseTimeToMinutes (weekendStartTime cfg)
      /\ forall cal, In cal (allCalendars s) ->
           isActive (calendarCategories s) cal = true ->
           exists items, listEvents host (id cal) = Fetched items).
Proof.
  intros Hin cfg s'. subst s'. unfold processCalendarData.
  rewrite Hin. simpl negb. cbv iota. fold cfg.
  set (wd := _ - _). set (we := _ - _).
  assert (Hnone : forall P : Prop, is_Some (@None ProcessedData) -> P)
    by (intros P [? Hx]; discriminate).
  destruct (wd <=? 0) eqn:Hwd.
  { apply Z.leb_le in Hwd. simpl. split; [reflexivity |].
    split; split; intros Hx; try (now apply Hnone); try discriminate.
    destruct Hx as (? & ? & _). lia. }
  destruct (we <=? 0) eqn:Hwe.
  { apply Z.leb_le in Hwe. simpl. split; [reflexivity |].
    split; split; intros Hx; try (now apply Hnone); try discriminate.
    destruct Hx as (? & ? & _). lia. }
  apply Z.leb_gt in Hwd, Hwe.
  destruct (collectRelevantEvents host (calendarCategories s) (allCalendars s) [])
    as [evs | m] eqn:Hev.
  - destruct (computeReport_returns host s evs Hev) as [data ->]. simpl.
    split; [reflexivity |]. split; split; intros Hx; eauto.
    split; [lia |]. split; [lia |].
    eapply collectRelevantEvents_returned, Hev.
  - assert (computeReport host s = Thrown m) as ->
      by (unfold computeReport; now rewrite Hev).
    simpl. split; [reflexivity |].
    split; split; intros Hx; try (now apply Hnone); try discriminate.
    destruct Hx as (_ & _ & Hall).
    rewrite (collectRelevantEvents_fetched host _ _ [] Hall) in Hev.
    discriminate.
Qed.

Lemma processCalendarDataIn_known_zone zoneError host s :
  zoneError (timezone (timeConfig s)) = None ->
  processCalendarDataIn zoneError host s = processCalendarData host s.
Proof.
  intros Hz. unfold processCalendarDataIn. rewrite Hz.
  now destruct (_ || _ || _)%bool.
Qed.

Lemma processCalendarDataIn_unknown_zone zoneError host s message :
  isSignedIn s = true ->
  0 < parseTimeToMinutes (weekdayEndTime (timeConfig s))
      - parseTimeToMinutes (weekdayStartTime (timeConfig s)) ->
  0 < parseTimeToMinutes (weekendEndTime (timeConfig s))
      - parseTimeToMinutes (weekendStartTime (timeConfig s)) ->
  zoneError (timezone (timeConfig s)) = Some message ->
  processCalendarDataIn zoneError host s
  = finish s
      (Some ("Failed to process data: "
             +:+ Js.orElse (Some message) "Unknown error")%string)
      None.
Proof.
  intros Hin Hwd Hwe Hz. unfold processCalendarDataIn.
  rewrite Hin, Hz. simpl negb.
  rewrite (proj2 (Z.leb_gt _ _) Hwd), (proj2 (Z.leb_gt _ _) Hwe).
  reflexivity.
Qed.

Lemma processCalendarData_report host s data :
  isSignedIn s = true ->
  processedData (processCalendarData host s) = Some data ->
  computeReport host s = Returned data
  /\ 0 < parseTimeToMinutes (weekdayEndTime (timeConfig s))
         - parseTimeToMinutes (weekdayStartTime (timeConfig s))
  /\ 0 < parseTimeToMinutes (weekendEndTime (timeConfig s))
         - parseTimeToMinutes (weekendStartTime (timeConfig s)).
Proof.
  intros Hin. unfold processCalendarData. rewrite Hin. simpl negb. cbv iota.
  set (wd := _ - _). set (we := _ - _).
  destruct (wd <=? 0) eqn:Hwd; [discriminate |].
  destruct (we <=? 0) eqn:Hwe; [discriminate |].
  apply Z.leb_gt in Hwd, Hwe.
  destruct (computeReport host s) as [r | m]; [| discriminate].
  simpl. intros [= ->]. auto.
Qed.

Lemma processCalendarDataIn_report zoneError host s data :
  isSignedIn s = true ->
  processedData (processCalendarDataIn zoneError host s) = Some data ->
  zoneError (timezone (timeConfig s)) = None
  /\ processedData (processCalendarData host s) = Some data.
Proof.
  intros Hin.
  destruct (zoneError (timezone (timeConfig s))) as [message |] eqn:Hz.
  - unfold processCalendarDataIn, processCalendarData.
    rewrite Hin, Hz. simpl negb. cbv zeta.
    set (wd := parseTimeToMinutes (weekdayEndTime (timeConfig s))
               - parseTimeToMinutes (weekdayStartTime (timeConfig s))).
    set (we := parseTimeToMinutes (weekendEndTime (timeConfig s))
               - parseTimeToMinutes (weekendStartTime (timeConfig s))).
    destruct (wd <=? 0); [| destruct (we <=? 0)]; simpl;
      intros H; discriminate H.
  - rewrite (processCalendarDataIn_known_zone zoneError host s Hz). auto.
Qed.

(** A signed-in run always ends with the loading flag off and with either
    a report or an error message, never both and never neither.  It ends
    with a report exactly when both work windows end after they start,
    the browser knows the configured time zone, and every Task or Fungible
    calendar returned its events. *)
Theorem run_ends_with_a_report_or_an_error
    (zoneError : string -> option string) (host : Host) (s : AppState) :
  isSignedIn s = true ->
  let cfg := timeConfig s in
  let s' := processCalendarDataIn zoneError host s in
  isLoading s' = false
  /\ (is_Some (processedData s') <-> error s' = None)
  /\ (is_Some (processedData s') <->
      0 < parseTimeToMinutes (weekdayEndTime cfg)
          - parseTimeToMinutes (weekdayStartTime cfg)
      /\ 0 < parseTimeToMinutes (weekendEndTime cfg)
             - parseTimeToMinutes (weekendStartTime cfg)
      /\ zoneError (timezone cfg) = None
      /\ forall cal, In cal (allCalendars s) ->
           isActive (calendarCategories s) cal = true ->
           exists items, listEvents host (id cal) = Fetched items).
Proof.
  intros Hin cfg s'. subst s'.
  destruct (processCalendarData_outcome host s Hin) as (Hload & Herr & Hrep).
  fold cfg in Hrep.
  destruct (zoneError (timezone cfg)) as [message |] eqn:Hz.
  - assert (Hnone : forall P : Prop, is_Some (@None ProcessedData) -> P)
      by (intros P [? Hx]; discriminate).
    unfold processCalendarDataIn. fold cfg. rewrite Hin, Hz. simpl negb.
    set (wd := parseTimeToMinutes (weekdayEndTime cfg)
               - parseTimeToMinutes (weekdayStartTime cfg)) in *.
    set (we := parseTimeToMinutes (weekendEndTime cfg)
               - parseTimeToMinutes (weekendStartTime cfg)) in *.
    destruct (wd <=? 0) eqn:Hwd; [| destruct (we <=? 0) eqn:Hwe]; simpl orb;
      cbv iota.
    + split; [exact Hload |]. split; [exact Herr |].
      rewrite Hrep. apply Z.leb_le in Hwd. split.
      * intros (H1 & _). lia.
      * intros (H1 & _). lia.
    + split; [exact Hload |]. split; [exact Herr |].
      rewrite Hrep. apply Z.leb_le in Hwe. split.
      * intros (_ & H2 & _). lia.
      * intros (_ & H2 & _). lia.
    + simpl. split; [reflexivity |].
      split; split; intros Hx; try (now apply Hnone); discriminate.
  - rewrite (processCalendarDataIn_known_zone zoneError host s Hz).
    split; [exact Hload |]. split; [exact Herr |]. rewrite Hrep.
    split.
    + intros (H1 & H2 & H3). auto.
    + intros (H1 & H2 & _ & H3). auto.
Qed.

Lemma run_ends_with_a_report_or_an_error_witness :
  let unknown := fun zone : string =>
    Some ("Invalid time zone specified: " +:+ zone)%string in
  let s := signedIn (officeHours monday monday (4 # 5)) Task in
  processedData (processCalendarDataIn unknown (hostWith standup) s) = None
  /\ is_Some (processedData
                (processCalendarDataIn (fun _ => None) (hostWith standup) s)).
Proof.
  intros unknown s.
  destruct (run_ends_with_a_report_or_an_error unknown (hostWith standup) s
              eq_refl) as (_ & _ & Hbad).
  destruct (run_ends_with_a_report_or_an_error (fun _ => None)
              (hostWith standup) s eq_refl) as (_ & _ & Hgood).
  split.
  - destruct (processedData (processCalendarDataIn unknown (hostWith standup) s))
      as [data |] eqn:E; [| reflexivity].
    destruct (proj1 Hbad (ex_intro _ data eq_refl)) as (_ & _ & Hz & _).
    discriminate Hz.
  - apply Hgood. split; [reflexivity |]. split; [reflexivity |].
    split; [reflexivity |]. intros cal _ _. eexists. reflexivity.
Defined.

(** When the fetch of a Task or Fungible calendar is rejected, and those
    of the calendars before it in the list succeeded, the run ends without
    a report and with the message of that rejection; the calendars after
    it play no part. *)
Theorem first_rejected_fetch_fails_the_run
    (host : Host) (s : AppState)
    (before after : list GoogleCalendar) (cal : GoogleCalendar)
    (m : option string) :
  isSignedIn s = true ->
  0 < parseTimeToMinutes (weekdayEndTime (timeConfig s))
      - parseTimeToMinutes (weekdayStartTime (timeConfig s)) ->
  0 < parseTimeToMinutes (weekendEndTime (timeConfig s))
      - parseTimeToMinutes (weekendStartTime (timeConfig s)) ->
  allCalendars s = before ++ cal :: after ->
  (forall c, In c before -> isActive (calendarCategories s) c = true ->
     exists items, listEvents host (id c) = Fetched items) ->
  isActive (calendarCategories s) cal = true ->
  listEvents host (id cal) = Rejected m ->
  let s' := processCalendarData host s in
  processedData s' = None
  /\ isLoading s' = false
  /\ error s'
     = Some ("Failed to process data: " +:+ Js.orElse m "Unknown error")%string.
Proof.
  intros Hin Hwd Hwe Hcals Hb Hact Hrej s'. subst s'.
  unfold processCalendarData. rewrite Hin. simpl negb. cbv iota.
  destruct (Z.leb_spec (parseTimeToMinutes (weekdayEndTime (timeConfig s))
                        - parseTimeToMinutes (weekdayStartTime (timeConfig s))) 0);
    [lia |].
  destruct (Z.leb_spec (parseTimeToMinutes (weekendEndTime (timeConfig s))
                        - parseTimeToMinutes (weekendStartTime (timeConfig s))) 0);
    [lia |].
  unfold computeReport.
  rewrite Hcals,
    (collectRelevantEvents_rejected host _ before cal after m [] Hb Hact Hrej).
  simpl. auto.
Qed.

Lemma first_rejected_fetch_fails_the_run_witness :
  let s' := processCalendarData
              (utcHost (fun _ => Rejected (Some "Rate Limit Exceeded"%string)))
              (signedIn (officeHours monday monday (4 # 5)) Task) in
  processedData s' = None
  /\ isLoading s' = false
  /\ error s' = Some "Failed to process data: Rate Limit Exceeded"%string.
Proof.
  apply (first_rejected_fetch_fails_the_run
           (utcHost (fun _ => Rejected (Some "Rate Limit Exceeded"%string)))
           (signedIn (officeHours monday monday (4 # 5)) Task)
           [] [] {| id := "cal-1"; cal_summary := "Meetings" |}
           (Some "Rate Limit Exceeded"%string));
    try reflexivity.
  intros c [].
Defined.

(** Calendars that are Inactive or have no category are never fetched:
    whatever they would return, or whether their fetch would fail, the run
    ends in the same state. *)
Theorem inactive_calendars_are_never_fetched
    (host : Host) (fetch : string -> Fetch) (s : AppState) :
  (forall cal, In cal (allCalendars s) ->
     isActive (calendarCategories s) cal = true ->
     fetch (id cal) = listEvents host (id cal)) ->
  processCalendarData (withFetch host fetch) s = processCalendarData host s.
Proof.
  intros Hsame.
  assert (Hcollect : forall cals acc,
            (forall cal, In cal cals ->
               isActive (calendarCategories s) cal = true ->
               fetch (id cal) = listEvents host (id cal)) ->
            collectRelevantEvents (withFetch host fetch) (calendarCategories s)
              cals acc
            = collectRelevantEvents host (calendarCategories s) cals acc).
  { induction cals as [| cal cals IH]; intros acc H; simpl; [reflexivity |].
    assert (Hrest : forall c, In c cals ->
              isActive (calendarCategories s) c = true ->
              fetch (id c) = listEvents host (id c))
      by (intros; apply H; [now right | assumption]).
    pose proof (H cal (or_introl eq_refl)) as Hcal. unfold isActive in Hcal.
    destruct (calendarCategories s !! id cal) as [[| |] |];
      try (apply IH, Hrest);
      rewrite (Hcal eq_refl); destruct (listEvents host (id cal));
      try reflexivity; apply IH, Hrest. }
  unfold processCalendarData, computeReport.
  rewrite (Hcollect _ [] Hsame). reflexivity.
Qed.

Lemma inactive_calendars_are_never_fetched_witness :
  processCalendarData
    (withFetch (hostWith standup) (fun _ => Rejected None))
    (signedIn (officeHours monday monday (4 # 5)) Inactive)
  = processCalendarData (hostWith standup)
      (signedIn (officeHours monday monday (4 # 5)) Inactive).
Proof.
  apply inactive_calendars_are_never_fetched.
  intros cal [<- | []] H. vm_compute in H. discriminate.
Defined.

(** ** A run without events *)

Lemma Math_max_of_nonneg (x : Q) : (0 <= x)%Q -> Js.Math_max 0 x = x.
Proof.
  intros H. destruct (Math_max_cases 0 x) as [[_ E] | [Hlt _]]; [exact E | lra].
Qed.

Lemma hasActiveCalendars_none cals categories :
  hasActiveCalendars cals categories = false ->
  forall cal, In cal cals -> isActive categories cal = false.
Proof.
  unfold hasActiveCalendars, isActive. intros H cal Hin.
  destruct (match categories !! id cal with
            | Some Task | Some Fungible => true
            | _ => false
            end) eqn:E; [| reflexivity].
  assert (existsb (fun c => match categories !! id c with
                            | Some Task | Some Fungible => true
                            | _ => false
                            end) cals = true)
    by (apply existsb_exists; eauto).
  congruence.
Qed.

Lemma initialCapacity_available_hours host cfg dt :
  0 < windowMinutes host cfg dt ->
  (0 < timeBufferFactor cfg)%Q ->
  (Js.Math_max 0 (availableMinutes (initialCapacity host cfg dt) / 60)
   == inject_Z (windowMinutes host cfg dt) * timeBufferFactor cfg / 60)%Q.
Proof.
  intros Hw Hb. unfold initialCapacity, windowMinutes in *. cbv zeta. simpl.
  destruct (isWeekend host dt).
  all: match goal with |- context [inject_Z ?z] => set (w := inject_Z z) end.
  all: assert (Hwq : (0 < w)%Q)
         by (subst w; change 0%Q with (inject_Z 0); now rewrite <- Zlt_Qlt).
  all: set (b := timeBufferFactor cfg) in *.
  all: assert (Hwb : (0 <= w * b)%Q) by nra.
  all: rewrite (Math_max_of_nonneg (w * b) Hwb).
  all: assert (H1 : (0 <= w * b / 60)%Q)
         by (apply Qle_shift_div_l; [reflexivity | nra]).
  all: rewrite (Math_max_of_nonneg _ H1).
  all: reflexivity.
Qed.

(** With no Task or Fungible calendar (as for an account whose calendars
    are all Inactive) a signed-in run with valid windows, in a browser that
    knows the configured zone, fetches nothing and ends with a report that
    has no tasks, no summaries and no detail rows; every day shows its
    whole buffered window as available: the product of the window and the
    buffer factor, divided by 60, in hours. *)
Theorem run_without_active_calendars_reports_full_availability
    (zoneError : string -> option string) (host : Host) (s : AppState) :
  isSignedIn s = true ->
  let cfg := timeConfig s in
  let dates := getDatesInRange host (startDate cfg) (endDate cfg) (timezone cfg) in
  0 < parseTimeToMinutes (weekdayEndTime cfg)
      - parseTimeToMinutes (weekdayStartTime cfg) ->
  0 < parseTimeToMinutes (weekendEndTime cfg)
      - parseTimeToMinutes (weekendStartTime cfg) ->
  zoneError (timezone cfg) = None ->
  (0 < timeBufferFactor cfg)%Q ->
  hasActiveCalendars (allCalendars s) (calendarCategories s) = false ->
  exists data,
    processedData (processCalendarDataIn zoneError host s) = Some data
    /\ error (processCalendarDataIn zoneError host s) = None
    /\ projectTasks data = []
    /\ projectSummaries data = []
    /\ fungibleTimeSummary data = []
    /\ map events (dailyDetails data) = map (fun _ => []) dates
    /\ map date (dailyAvailability data)
       = map (fun dt => formatDateToYMD dt (tz host cfg)) dates
    /\ Forall (fun d =>
                 exists dt,
                   In dt dates
                   /\ date d = formatDateToYMD dt (tz host cfg)
                   /\ (availableHours d
                       == inject_Z (windowMinutes host cfg dt)
                          * timeBufferFactor cfg / 60)%Q)
              (dailyAvailability data).
Proof.
  intros Hin cfg dates Hwd Hwe Hz Hb Hnone.
  rewrite (processCalendarDataIn_known_zone zoneError host s Hz).
  assert (Hev : collectRelevantEvents host (calendarCategories s)
                  (allCalendars s) [] = Returned []).
  { rewrite (collectRelevantEvents_fetched host _ _ []).
    - f_equal. simpl. induction (allCalendars s) as [| cal cals IH];
        [reflexivity |].
      simpl. rewrite IH.
      + pose proof (hasActiveCalendars_none _ _ Hnone cal (or_introl eq_refl))
          as Hc.
        unfold isActive in Hc. unfold taggedEventsOf.
        destruct (calendarCategories s !! id cal) as [[| |] |];
          try discriminate; reflexivity.
      + unfold hasActiveCalendars in *. simpl in Hnone.
        now apply orb_false_iff in Hnone as [_ ?].
    - intros cal Hc Hact.
      rewrite (hasActiveCalendars_none _ _ Hnone cal Hc) in Hact.
      discriminate. }
  unfold processCalendarData. rewrite Hin. simpl negb. cbv iota. fold cfg.
  destruct (Z.leb_spec (parseTimeToMinutes (weekdayEndTime cfg)
                        - parseTimeToMinutes (weekdayStartTime cfg)) 0);
    [lia |].
  destruct (Z.leb_spec (parseTimeToMinutes (weekendEndTime cfg)
                        - parseTimeToMinutes (weekendStartTime cfg)) 0);
    [lia |].
  unfold computeReport. rewrite Hev. simpl bindTry. fold cfg. fold dates.
  simpl processEvents. unfold buildReport.
  destruct (mapTry_dailyAvailabilityOf host cfg
              (initDailyAvailabilityMap host cfg dates)
              (fun d => exists dt,
                 In dt dates
                 /\ date d = formatDateToYMD dt (tz host cfg)
                 /\ (availableHours d
                     == inject_Z (windowMinutes host cfg dt)
                        * timeBufferFactor cfg / 60)%Q) dates)
    as (ds & Hds & Hmap & HF).
  { intros dt Hdt.
    destruct (initDailyAvailabilityMap_covers host cfg dates dt Hdt) as [c0 Hc0].
    destruct (initDailyAvailabilityMap_lookup host cfg dates _ _ Hc0)
      as (dt' & Hin' & Hk & ->).
    unfold dailyAvailabilityOf. rewrite Hc0.
    eexists. split; [reflexivity |]. split; [reflexivity |].
    exists dt'. split; [exact Hin' |]. split; [simpl; congruence |].
    simpl availableHours.
    apply initialCapacity_available_hours; [| exact Hb].
    unfold windowMinutes. destruct (isWeekend host dt'); assumption. }
  simpl dailyAvailabilityMap. rewrite Hds. simpl.
  eexists. split; [reflexivity |]. split; [reflexivity |].
  repeat split; try assumption.
  simpl dailyDetails. rewrite map_map. apply map_ext. intros dt.
  unfold dailyDetailsOf. simpl. now rewrite lookup_empty.
Qed.

Lemma run_without_active_calendars_reports_full_availability_witness :
  exists data d,
    processedData
      (processCalendarDataIn (fun _ => None) (hostWith standup)
         (signedIn (officeHours monday monday (4 # 5)) Inactive)) = Some data
    /\ dailyAvailability data = [d]
    /\ (availableHours d == 32 # 5)%Q.
Proof.
  destruct (run_without_active_calendars_reports_full_availability
              (fun _ => None) (hostWith standup)
              (signedIn (officeHours monday monday (4 # 5)) Inactive)
              eq_refl eq_refl eq_refl eq_refl eq_refl eq_refl)
    as (data & Hdata & _ & _ & _ & _ & _ & Hdates & HF).
  exists data.
  destruct (dailyAvailability data) as [| d [| d' rest]] eqn:E;
    try discriminate Hdates.
  exists d. split; [exact Hdata |]. split; [reflexivity |].
  apply Forall_cons in HF as [(dt & Hin & _ & Hav) _].
  destruct Hin as [<- | []]. rewrite Hav. vm_compute. reflexivity.
Defined.

(** ** Colours *)

Lemma isPrototypeMember_false (name : string) :
  isPrototypeMember name = false -> ~ In name objectPrototypeMembers.
Proof.
  intros Hf Hin. unfold isPrototypeMember in Hf.
  assert (Ht : existsb (String.eqb name) objectPrototypeMembers = true)
    by (apply existsb_exists; exists name; split;
        [exact Hin | apply String.eqb_refl]).
  congruence.
Qed.

Lemma isPrototypeMember_true (name : string) :
  isPrototypeMember name = true -> In name objectPrototypeMembers.
Proof.
  unfold isPrototypeMember. intros H.
  apply existsb_exists in H as (x & Hx & E).
  apply String.eqb_eq in E. now subst.
Qed.

Lemma getProjectColor_known name a c :
  paletteOnly a -> projectColorMap a !! name = Some c ->
  getProjectColor name a = (c, a).
Proof.
  intros Hp E. unfold getProjectColor.
  rewrite E, (PROJECT_COLORS_truthy c (Hp _ _ E)). reflexivity.
Qed.

(** [getProjectColor] is stable for every name that is not a member of
    [Object.prototype]: once the name has been given a colour, asking
    again returns that colour and changes nothing.  Asked for the first
    time, it gets the palette entry at the counter modulo the palette's
    length and advances the counter by one; no other name's colour is
    touched.  (For a member of [Object.prototype] the lookup finds the
    inherited member, which is returned in place of a colour; such names
    are not in the scope of [getProjectColor] as modelled here.) *)
Theorem getProjectColor_is_stable (name : string) (a : Acc) :
  ~ In name objectPrototypeMembers ->
  paletteOnly a ->
  let c := fst (getProjectColor name a) in
  let a' := snd (getProjectColor name a) in
  getProjectColor name a' = (c, a')
  /\ In c PROJECT_COLORS
  /\ (forall other, other <> name ->
        projectColorMap a' !! other = projectColorMap a !! other)
  /\ (is_Some (projectColorMap a !! name) -> a' = a)
  /\ (projectColorMap a !! name = None ->
      c = nth (nextColorIndex a mod length PROJECT_COLORS)%nat
              PROJECT_COLORS EmptyString
      /\ nextColorIndex a' = S (nextColorIndex a)).
Proof.
  intros _ Hp c a'. subst c a'.
  destruct (getProjectColor_palette name a Hp) as (Hin & Hrec & Hp').
  split; [| split; [exact Hin |]].
  - rewrite (getProjectColor_known name _ _ Hp' Hrec).
    now destruct (getProjectColor name a).
  - destruct (projectColorMap a !! name) as [c0 |] eqn:E.
    + rewrite (getProjectColor_known name a c0 Hp E). simpl.
      split; [reflexivity |]. split; [reflexivity | discriminate].
    + unfold getProjectColor. rewrite E. simpl.
      split; [intros other Hne; now rewrite lookup_insert_ne |].
      split; [intros [? ?]; discriminate | auto].
Qed.

Lemma getProjectColor_is_stable_witness :
  let a := initialAcc ∅ in
  let a1 := snd (getProjectColor "Acme" a) in
  let a2 := snd (getProjectColor "Beta" a1) in
  getProjectColor "Acme" a2 = ("#FF6384"%string, a2)
  /\ fst (getProjectColor "Beta" a1) = "#36A2EB"%string.
Proof.
  intros a a1 a2.
  assert (Hp : paletteOnly a)
    by (intros n c H; simpl in H; rewrite lookup_empty in H; discriminate).
  assert (Hp1 : paletteOnly a1)
    by (apply (getProjectColor_palette "Acme" a Hp)).
  assert (Hp2 : paletteOnly a2)
    by (apply (getProjectColor_palette "Beta" a1 Hp1)).
  destruct (getProjectColor_is_stable "Acme" a2
              (isPrototypeMember_false "Acme" eq_refl) Hp2)
    as (H1 & _ & _ & H4 & _).
  destruct (getProjectColor_is_stable "Beta" a1
              (isPrototypeMember_false "Beta" eq_refl) Hp1)
    as (_ & _ & _ & _ & Hfresh).
  split.
  - rewrite (H4 ltac:(vm_compute; eauto)) in H1. rewrite H1.
    vm_compute. reflexivity.
  - apply Hfresh. vm_compute. reflexivity.
Defined.

Lemma get_In {T} (o : list (string * T)) (k : string) (v : T) :
  JsObject.get o k = Some v -> In (k, v) o.
Proof.
  induction o as [| [k' v'] o IH]; simpl; [discriminate |].
  destruct (String.eqb_spec k' k) as [-> | Hne].
  - intros [= ->]. now left.
  - intros H. right. now apply IH.
Qed.

Lemma In_set {T} (o : list (string * T)) (k k' : string) (v v' : T) :
  In (k', v') (JsObject.set o k v) -> (k' = k /\ v' = v) \/ In (k', v') o.
Proof.
  induction o as [| [k0 v0] o IH]; simpl.
  - intros [[= <- <-] | []]. auto.
  - destruct (String.eqb_spec k0 k) as [-> | Hne]; simpl.
    + intros [[= <- <-] | H]; auto.
    + intros [H | H]; auto. destruct (IH H); auto.
Qed.

Lemma getProjectColor_extends name a :
  paletteOnly a ->
  (forall n c, projectColorMap a !! n = Some c ->
               projectColorMap (snd (getProjectColor name a)) !! n = Some c)
  /\ (size (projectColorMap a) = nextColorIndex a ->
      size (projectColorMap (snd (getProjectColor name a)))
      = nextColorIndex (snd (getProjectColor name a))).
Proof.
  intros Hp.
  destruct (projectColorMap a !! name) as [c0 |] eqn:E.
  - rewrite (getProjectColor_known name a c0 Hp E). simpl. auto.
  - unfold getProjectColor. rewrite E. simpl. split.
    + intros n c H. rewrite lookup_insert_ne; [exact H | congruence].
    + intros Hs. rewrite map_size_insert_None by exact E. now rewrite Hs.
Qed.

Section Colours.

(** The two invariants of the colour map together. *)
Let coloured (a : Acc) : Prop := paletteOnly a /\ coloursRecorded a.

Lemma coloured_frame a a' :
  projectColorMap a' = projectColorMap a ->
  nextColorIndex a' = nextColorIndex a ->
  projectTaskMap a' = projectTaskMap a ->
  fungibleTimeMap a' = fungibleTimeMap a ->
  coloured a -> coloured a'.
Proof.
  unfold coloured, paletteOnly, coloursRecorded.
  intros -> -> -> ->. auto.
Qed.

Lemma coloured_ensureProjectTask a key p t :
  coloured a -> coloured (ensureProjectTask a key p t).
Proof.
  intros [Hp (Hpt & Hft & Hsz)]. unfold ensureProjectTask.
  destruct (JsObject.get (projectTaskMap a) key); [now split |].
  destruct (getProjectColor_palette p a Hp) as (_ & Hrec & Hp').
  destruct (getProjectColor_extends p a Hp) as (Hext & Hsize).
  pose proof (getProjectColor_maps p a) as (_ & Hptm & Hftm & _).
  destruct (getProjectColor p a) as [c a']. simpl in *.
  split; [exact Hp' |]. split; [| split]; simpl.
  - intros k pt Hin. rewrite Hptm in Hin.
    destruct (In_set _ _ _ _ _ Hin) as [[_ ->] | Hold]; [exact Hrec |].
    eapply Hext, Hpt, Hold.
  - intros k f Hin. rewrite Hftm in Hin. eapply Hext, Hft, Hin.
  - auto.
Qed.

Lemma coloured_addTaskHours a key dur :
  coloured a -> coloured (addTaskHours a key dur).
Proof.
  intros [Hp (Hpt & Hft & Hsz)]. unfold addTaskHours.
  destruct (JsObject.get (projectTaskMap a) key) as [pt |] eqn:E;
    [| now split].
  split; [exact Hp |]. split; [| split]; simpl; auto.
  intros k x Hin.
  destruct (In_set _ _ _ _ _ Hin) as [[_ ->] | Hold]; [| eapply Hpt, Hold].
  simpl. eapply Hpt, get_In, E.
Qed.

Lemma coloured_ensureFungibleTime a k cal :
  coloured a -> coloured (ensureFungibleTime a k cal).
Proof.
  intros [Hp (Hpt & Hft & Hsz)]. unfold ensureFungibleTime.
  destruct (JsObject.get (fungibleTimeMap a) k); [now split |].
  destruct (getProjectColor_palette (cal_summary cal) a Hp) as (_ & Hrec & Hp').
  destruct (getProjectColor_extends (cal_summary cal) a Hp) as (Hext & Hsize).
  pose proof (getProjectColor_maps (cal_summary cal) a) as (_ & Hptm & Hftm & _).
  destruct (getProjectColor (cal_summary cal) a) as [c a']. simpl in *.
  split; [exact Hp' |]. split; [| split]; simpl.
  - intros key pt Hin. rewrite Hptm in Hin. eapply Hext, Hpt, Hin.
  - intros k' f Hin. rewrite Hftm in Hin.
    destruct (In_set _ _ _ _ _ Hin) as [[_ ->] | Hold]; [exact Hrec |].
    eapply Hext, Hft, Hold.
  - auto.
Qed.

Lemma coloured_addFungibleHours a k o :
  coloured a -> coloured (addFungibleHours a k o).
Proof.
  intros [Hp (Hpt & Hft & Hsz)]. unfold addFungibleHours.
  destruct (JsObject.get (fungibleTimeMap a) k) as [f |] eqn:E;
    [| now split].
  split; [exact Hp |]. split; [| split]; simpl; auto.
  intros k' x Hin.
  destruct (In_set _ _ _ _ _ Hin) as [[_ ->] | Hold]; [| eapply Hft, Hold].
  simpl. eapply Hft, get_In, E.
Qed.

Lemma coloured_processEvent host cfg calendars a ev :
  coloured a -> coloured (processEvent host cfg calendars a ev).
Proof.
  intros Ha. unfold processEvent.
  destruct (start_dateTime (event ev)) as [eventStart |]; [| exact Ha].
  destruct (end_dateTime (event ev)) as [eventEnd |]; [| exact Ha].
  destruct (dailyAvailabilityMap a !! _) as [data |]; [| exact Ha].
  set (o := calculateWorkHoursOverlap _ _ _ _ _).
  assert (Hdetails : forall i a' row,
            coloured a' ->
            coloured match i with
                     | ignored => a'
                     | _ => set_dailyDetailsMap row a'
                     end)
    by (intros [] a' row H; try exact H;
        now apply (coloured_frame a' (set_dailyDetailsMap row a'))).
  destruct (calendarCategory ev).
  - exact Ha.
  - assert (H : coloured (snd (fungibleBranch a ev
                 (formatDateToYMD eventStart (tz host cfg)) data
                 (find (fun c => String.eqb (id c) (calendarId ev)) calendars) o))).
    { unfold fungibleBranch.
      assert (H1 : forall m, coloured (set_dailyAvailabilityMap m a))
        by (intros m; now apply (coloured_frame a)).
      destruct (0 <? o); destruct (find _ calendars); simpl; auto;
        apply coloured_addFungibleHours, coloured_ensureFungibleTime; auto. }
    destruct (fungibleBranch _ _ _ _ _ _) as [i a']. now apply Hdetails.
  - assert (H : coloured (snd (taskBranch a ev
                 (formatDateToYMD eventStart (tz host cfg)) data
                 (Js.toLowerCase (default EmptyString (summary (event ev)))) o
                 (inject_Z (eventEnd - eventStart) / 60000)%Q))).
    { unfold taskBranch. destruct (isBlocked _); [exact Ha |].
      destruct (parseProjectTask (summary (event ev))) as [p t]. simpl.
      apply coloured_addTaskHours, coloured_ensureProjectTask.
      destruct (0 <? o); [now apply (coloured_frame a) | exact Ha]. }
    destruct (taskBranch _ _ _ _ _ _ _) as [i a']. now apply Hdetails.
Qed.

Lemma coloured_processEvents host cfg calendars evs : forall a,
  coloured a -> coloured (processEvents host cfg calendars a evs).
Proof.
  induction evs as [| ev evs IH]; intros a Ha; simpl; [exact Ha |].
  now apply IH, coloured_processEvent.
Qed.

Lemma coloursRecorded_after_run host cfg calendars m evs :
  paletteOnly (processEvents host cfg calendars (initialAcc m) evs)
  /\ coloursRecorded (processEvents host cfg calendars (initialAcc m) evs).
Proof.
  apply coloured_processEvents. split.
  - intros n c H. simpl in H. rewrite lookup_empty in H. discriminate.
  - repeat split; simpl; try (intros ? ? []); try apply map_size_empty.
Qed.

End Colours.

Lemma In_values {T} (o : list (string * T)) (v : T) :
  In v (JsObject.values o) <-> exists k, In (k, v) o.
Proof.
  unfold JsObject.values. rewrite in_map_iff. split.
  - intros ([k v'] & <- & H). exists k. now apply In_entries.
  - intros [k H]. exists (k, v). split; [reflexivity | now apply In_entries].
Qed.

Lemma addToProjectSummaries_colours (all : list ProjectTask) pts : forall m,
  (forall x, In x pts -> In x all) ->
  (forall k d, In (k, d) m ->
     exists x, In x all /\ project x = k /\ color x = pt_color d) ->
  forall k d, In (k, d) (fold_left addToProjectSummaries pts m) ->
    exists x, In x all /\ project x = k /\ color x = pt_color d.
Proof.
  induction pts as [| pt pts IH]; intros m Hsub Hm; simpl; [exact Hm |].
  apply IH; [intros; apply Hsub; now right |].
  intros k d. unfold addToProjectSummaries.
  destruct (isPrototypeMember (project pt)); [apply Hm |].
  set (m1 := match JsObject.get m (project pt) with
             | Some _ => m
             | None => JsObject.set m (project pt)
                         {| pt_totalHours := 0; pt_color := color pt |}
             end).
  assert (Hm1 : forall k d, In (k, d) m1 ->
            exists x, In x all /\ project x = k /\ color x = pt_color d).
  { intros k0 d0 H. subst m1.
    destruct (JsObject.get m (project pt)); [now apply Hm |].
    destruct (In_set _ _ _ _ _ H) as [[-> ->] | Hold]; [| now apply Hm].
    exists pt. split; [apply Hsub; now left | auto]. }
  destruct (JsObject.get m1 (project pt)) as [d1 |] eqn:E; [| apply Hm1].
  intros H. destruct (In_set _ _ _ _ _ H) as [[-> ->] | Hold]; [| now apply Hm1].
  simpl. apply Hm1. now apply get_In.
Qed.

(** In a report in which no project and no fungible calendar is named
    like a member of [Object.prototype], every task's colour comes from
    the palette; two tasks of the same project have the same colour; a
    fungible calendar whose name is that of a project has the project's
    colour; and every project summary has the colour of a task of that
    project. *)
Theorem colours_in_the_report_are_consistent
    (host : Host) (s : AppState) (data : ProcessedData) :
  computeReport host s = Returned data ->
  (forall x, In x (projectTasks data) ->
     ~ In (project x) objectPrototypeMembers) ->
  (forall f, In f (fungibleTimeSummary data) ->
     ~ In (fs_project f) objectPrototypeMembers) ->
  (forall x, In x (projectTasks data) -> In (color x) PROJECT_COLORS)
  /\ (forall x y,
        In x (projectTasks data) -> In y (projectTasks data) ->
        project x = project y -> color x = color y)
  /\ (forall x f,
        In x (projectTasks data) -> In f (fungibleTimeSummary data) ->
        project x = fs_project f -> color x = fs_color f)
  /\ (forall p,
        In p (projectSummaries data) ->
        exists x, In x (projectTasks data)
                  /\ project x = ps_project p /\ color x = ps_color p).
Proof.
  unfold computeReport.
  destruct (collectRelevantEvents _ _ _ _) as [evs | m]; [| discriminate].
  simpl bindTry. unfold buildReport.
  set (a := processEvents _ _ _ _ _).
  destruct (mapTry _ _) as [ds | m]; [| discriminate].
  simpl. intros [= <-] _ _. simpl.
  destruct (coloursRecorded_after_run host (timeConfig s) (allCalendars s)
              (initDailyAvailabilityMap host (timeConfig s)
                 (getDatesInRange host (startDate (timeConfig s))
                    (endDate (timeConfig s)) (timezone (timeConfig s)))) evs)
    as (Hp & Hpt & Hft & _).
  fold a in Hp, Hpt, Hft.
  assert (Htask : forall x, In x (sortBy (compareProjectTask host)
                                    (JsObject.values (projectTaskMap a))) ->
            projectColorMap a !! project x = Some (color x)).
  { intros x Hx. apply In_sortBy, In_values in Hx as [k Hk]. eapply Hpt, Hk. }
  repeat split.
  - intros x Hx. eapply Hp, Htask, Hx.
  - intros x y Hx Hy E. apply Htask in Hx, Hy. congruence.
  - intros x f Hx Hf E. apply Htask in Hx.
    apply In_sortBy, in_map_iff in Hf as (f0 & <- & Hf0).
    apply In_values in Hf0 as [k Hk]. apply Hft in Hk. simpl in E.
    simpl. congruence.
  - intros p Hin.
    apply In_sortBy, in_map_iff in Hin as ([k d] & <- & Hkd).
    apply (proj1 (In_entries _ _)) in Hkd. simpl.
    destruct (addToProjectSummaries_colours
                (JsObject.values (projectTaskMap a))
                (JsObject.values (projectTaskMap a)) []
                ltac:(auto) ltac:(intros ? ? []) k d Hkd)
      as (x & Hx & Hk & Hc).
    exists x. split; [now apply In_sortBy | auto].
Qed.

Lemma colours_in_the_report_are_consistent_witness :
  let host := utcHost (fun _ => Fetched [eveningCall; standup; eveningCall]) in
  let s := signedIn (officeHours monday monday (4 # 5)) Task in
  exists data,
    computeReport host s = Returned data
    /\ map color (projectTasks data) = ["#FF6384"; "#36A2EB"]%string
    /\ forall x, In x (projectTasks data) -> In (color x) PROJECT_COLORS.
Proof.
  intros host s.
  assert (H : { data | computeReport host s = Returned data })
    by (eexists; vm_compute; reflexivity).
  destruct H as [data H]. exists data. split; [exact H |].
  assert (Hnames :
    map project (projectTasks data) = ["Acme"; "Standup"]%string
    /\ map fs_project (fungibleTimeSummary data) = []
    /\ map color (projectTasks data) = ["#FF6384"; "#36A2EB"]%string).
  { revert H. vm_compute. intros [= <-]. repeat split. }
  destruct Hnames as (Hprojects & Hfungible & Hcolours).
  split; [exact Hcolours |].
  apply (colours_in_the_report_are_consistent host s data H).
  - intros x Hx Hmember. apply (in_map project) in Hx.
    rewrite Hprojects in Hx.
    destruct Hx as [E | [E | []]]; rewrite <- E in Hmember;
      revert Hmember; now apply isPrototypeMember_false.
  - intros f Hf. apply (in_map fs_project) in Hf.
    rewrite Hfungible in Hf. destruct Hf.
Defined.

(** ** Colours are allotted anew by every run *)

Lemma indexOf_app name l n :
  indexOf name (l ++ [n])
  = match indexOf name l with
    | Some i => Some i
    | None => if String.eqb n name then Some (length l) else None
    end.
Proof.
  induction l as [| x l IH]; simpl.
  - now destruct (String.eqb n name).
  - destruct (String.eqb x name); [reflexivity |].
    rewrite IH. destruct (indexOf name l); [reflexivity |].
    now destruct (String.eqb n name).
Qed.

Lemma existsb_indexOf name l :
  existsb (String.eqb name) l = true <-> is_Some (indexOf name l).
Proof.
  induction l as [| x l IH]; simpl.
  - split; [discriminate | intros [? H]; discriminate].
  - rewrite (String.eqb_sym name x).
    destruct (String.eqb x name); simpl; [split; eauto |].
    rewrite IH. destruct (indexOf name l); simpl; split; eauto;
      intros [? H]; discriminate.
Qed.

Lemma paletteColour_truthy i : Js.truthy (Some (paletteColour i)) = true.
Proof.
  apply PROJECT_COLORS_truthy, nth_In, Nat.mod_upper_bound. discriminate.
Qed.

Lemma allotted_initial m : allotted [] (initialAcc m).
Proof. split; [reflexivity |]. intros name. simpl. apply lookup_empty. Qed.

Lemma allotted_frame order a a' :
  projectColorMap a' = projectColorMap a ->
  nextColorIndex a' = nextColorIndex a ->
  allotted order a -> allotted order a'.
Proof. unfold allotted. now intros -> ->. Qed.

Lemma getProjectColor_allotted order name a :
  allotted order a ->
  allotted (addName order name) (snd (getProjectColor name a)).
Proof.
  intros [Hidx Hmap]. unfold addName, getProjectColor.
  rewrite (Hmap name).
  destruct (existsb (String.eqb name) order) eqn:E.
  - apply existsb_indexOf in E as [i E]. rewrite E. simpl fmap.
    rewrite paletteColour_truthy. now split.
  - assert (Hnone : indexOf name order = None).
    { destruct (indexOf name order) eqn:E'; [| reflexivity].
      assert (existsb (String.eqb name) order = true)
        by (apply existsb_indexOf; eauto).
      congruence. }
    rewrite Hnone. change (Js.truthy (paletteColour <$> None)) with false.
    cbv iota. cbn [snd]. fold (paletteColour (nextColorIndex a)). split.
    + cbn [nextColorIndex]. rewrite length_app, Hidx. simpl. lia.
    + intros n. cbn [projectColorMap]. rewrite indexOf_app.
      destruct (String.eqb_spec name n) as [<- | Hne].
      * rewrite Hnone, lookup_insert_eq, Hidx. reflexivity.
      * rewrite lookup_insert_ne by exact Hne. rewrite (Hmap n).
        now destruct (indexOf n order).
Qed.

Lemma getProjectColor_colours name a a0 :
  projectColorMap a0 = projectColorMap a ->
  nextColorIndex a0 = nextColorIndex a ->
  projectColorMap (snd (getProjectColor name a0))
  = projectColorMap (snd (getProjectColor name a))
  /\ nextColorIndex (snd (getProjectColor name a0))
     = nextColorIndex (snd (getProjectColor name a)).
Proof.
  intros Hm Hi. unfold getProjectColor. rewrite Hm, Hi.
  destruct (Js.truthy _); simpl; auto.
Qed.

Lemma processEvent_colours host cfg calendars a ev :
  let a' := processEvent host cfg calendars a ev in
  let a0 := match colourRequest host cfg calendars a ev with
            | Some name => snd (getProjectColor name a)
            | None => a
            end in
  projectColorMap a' = projectColorMap a0
  /\ nextColorIndex a' = nextColorIndex a0.
Proof.
  unfold processEvent, colourRequest, eventSummaryLowerOf, taskKeyOf.
  cbv zeta.
  destruct (start_dateTime (event ev)) as [eventStart |]; [| auto].
  destruct (end_dateTime (event ev)) as [eventEnd |]; [| auto].
  destruct (dailyAvailabilityMap a !! _) as [data |]; [| auto].
  set (o := calculateWorkHoursOverlap _ _ _ _ _).
  assert (Hdetails : forall i a' row b,
            projectColorMap a' = projectColorMap b
            /\ nextColorIndex a' = nextColorIndex b ->
            let r := match i with
                     | ignored => a'
                     | _ => set_dailyDetailsMap row a'
                     end in
            projectColorMap r = projectColorMap b
            /\ nextColorIndex r = nextColorIndex b)
    by (intros [] a' row b H; exact H).
  destruct (calendarCategory ev).
  - auto.
  - match goal with
    | |- context [fungibleBranch ?x1 ?x2 ?x3 ?x4 ?x5 ?x6] =>
        assert (H : let r := snd (fungibleBranch x1 x2 x3 x4 x5 x6) in
                    let b := match x5 with
                             | Some cal =>
                                 match JsObject.get (fungibleTimeMap a)
                                         (calendarId ev) with
                                 | Some _ => a
                                 | None => snd (getProjectColor (cal_summary cal) a)
                                 end
                             | None => a
                             end in
                    projectColorMap r = projectColorMap b
                    /\ nextColorIndex r = nextColorIndex b)
    end.
    { unfold fungibleBranch.
      destruct (find _ calendars) as [cal |].
      - assert (Hstep : forall a1,
                  fungibleTimeMap a1 = fungibleTimeMap a ->
                  projectColorMap a1 = projectColorMap a ->
                  nextColorIndex a1 = nextColorIndex a ->
                  let r := addFungibleHours
                             (ensureFungibleTime a1 (calendarId ev) cal)
                             (calendarId ev) o in
                  let b := match JsObject.get (fungibleTimeMap a)
                                   (calendarId ev) with
                           | Some _ => a
                           | None => snd (getProjectColor (cal_summary cal) a)
                           end in
                  projectColorMap r = projectColorMap b
                  /\ nextColorIndex r = nextColorIndex b).
        { intros a1 Hf Hm Hi. cbv zeta.
          assert (Hadd : forall x,
                    projectColorMap (addFungibleHours x (calendarId ev) o)
                    = projectColorMap x
                    /\ nextColorIndex (addFungibleHours x (calendarId ev) o)
                       = nextColorIndex x)
            by (intros x; unfold addFungibleHours;
                destruct (JsObject.get _ _); simpl; auto).
          destruct (Hadd (ensureFungibleTime a1 (calendarId ev) cal))
            as [-> ->].
          unfold ensureFungibleTime. rewrite Hf.
          destruct (JsObject.get (fungibleTimeMap a) (calendarId ev));
            [auto |].
          destruct (getProjectColor_colours (cal_summary cal) a a1 Hm Hi)
            as [<- <-].
          destruct (getProjectColor (cal_summary cal) a1) as [c a2].
          simpl. auto. }
        destruct (0 <? o); simpl; apply Hstep; reflexivity.
      - destruct (0 <? o); simpl; auto. }
    cbv zeta in H.
    destruct (fungibleBranch _ _ _ _ _ _) as [i a'].
    apply Hdetails. simpl in H.
    destruct (find _ calendars) as [cal |]; [| exact H].
    destruct (JsObject.get (fungibleTimeMap a) (calendarId ev)); exact H.
  - match goal with
    | |- context [taskBranch ?x1 ?x2 ?x3 ?x4 ?x5 ?x6 ?x7] =>
        assert (H : let r := snd (taskBranch x1 x2 x3 x4 x5 x6 x7) in
                    let b := if isBlocked x5 then a
                             else
                               match JsObject.get (projectTaskMap a)
                                       (taskKey
                                          (fst (parseProjectTask (summary (event ev))))
                                          (snd (parseProjectTask (summary (event ev)))))
                               with
                               | Some _ => a
                               | None =>
                                   snd (getProjectColor
                                          (fst (parseProjectTask (summary (event ev))))
                                          a)
                               end in
                    projectColorMap r = projectColorMap b
                    /\ nextColorIndex r = nextColorIndex b)
    end.
    { unfold taskBranch. destruct (isBlocked _); [simpl; auto |].
      destruct (parseProjectTask (summary (event ev))) as [p t].
      cbv zeta. simpl fst. simpl snd.
      assert (Hadd : forall x d,
                projectColorMap (addTaskHours x (taskKey p t) d)
                = projectColorMap x
                /\ nextColorIndex (addTaskHours x (taskKey p t) d)
                   = nextColorIndex x)
        by (intros x d; unfold addTaskHours;
            destruct (JsObject.get _ _); simpl; auto).
      assert (Hstep : forall a1,
                projectTaskMap a1 = projectTaskMap a ->
                projectColorMap a1 = projectColorMap a ->
                nextColorIndex a1 = nextColorIndex a ->
                let r := ensureProjectTask a1 (taskKey p t) p t in
                let b := match JsObject.get (projectTaskMap a) (taskKey p t) with
                         | Some _ => a
                         | None => snd (getProjectColor p a)
                         end in
                projectColorMap r = projectColorMap b
                /\ nextColorIndex r = nextColorIndex b).
      { intros a1 Hf Hm Hi. cbv zeta. unfold ensureProjectTask. rewrite Hf.
        destruct (JsObject.get (projectTaskMap a) (taskKey p t)); [auto |].
        destruct (getProjectColor_colours p a a1 Hm Hi) as [<- <-].
        destruct (getProjectColor p a1) as [c a2]. simpl. auto. }
      match goal with
      | |- context [addTaskHours ?x _ ?d] => destruct (Hadd x d) as [-> ->]
      end.
      destruct (0 <? o); apply Hstep; reflexivity. }
    cbv zeta in H.
    destruct (taskBranch _ _ _ _ _ _ _) as [i a'].
    apply Hdetails. simpl in H.
    destruct (isBlocked _); [exact H |].
    destruct (JsObject.get (projectTaskMap a) _); exact H.
Qed.

Lemma processEvents_allotted host cfg calendars evs : forall a order,
  allotted order a ->
  allotted (fold_left addName (colourRequests host cfg calendars a evs) order)
           (processEvents host cfg calendars a evs).
Proof.
  induction evs as [| ev evs IH]; intros a order Ha; simpl; [exact Ha |].
  destruct (processEvent_colours host cfg calendars a ev) as [Hm Hi].
  destruct (colourRequest host cfg calendars a ev) as [name |]; simpl.
  - apply IH. eapply allotted_frame; [exact Hm | exact Hi |].
    now apply getProjectColor_allotted.
  - apply IH. eapply allotted_frame; [exact Hm | exact Hi | exact Ha].
Qed.

Lemma computeReport_anatomy host s data :
  computeReport host s = Returned data ->
  exists relevantEvents,
    collectRelevantEvents host (calendarCategories s) (allCalendars s) []
    = Returned relevantEvents
    /\ let cfg := timeConfig s in
       let a :=
         processEvents host cfg (allCalendars s)
           (initialAcc
              (initDailyAvailabilityMap host cfg
                 (getDatesInRange host (startDate cfg) (endDate cfg)
                    (timezone cfg))))
           relevantEvents in
       projectTasks data
       = sortBy (compareProjectTask host) (JsObject.values (projectTaskMap a))
       /\ projectSummaries data
          = sortBy (fun x y => Qcompare (ps_totalHours y) (ps_totalHours x))
              (map (fun kv => {| ps_project := fst kv;
                                 ps_totalHours := pt_totalHours (snd kv);
                                 ps_color := pt_color (snd kv) |})
                 (JsObject.entries
                    (fold_left addToProjectSummaries
                       (JsObject.values (projectTaskMap a)) [])))
       /\ fungibleTimeSummary data
          = sortBy (fun x y => Qcompare (fs_totalHours y) (fs_totalHours x))
              (map (fun f => {| fs_calendarSummary := calendarSummary f;
                                fs_totalHours := ft_totalHours f;
                                fs_color := ft_color f;
                                fs_project := calendarSummary f |})
                 (JsObject.values (fungibleTimeMap a))).
Proof.
  unfold computeReport.
  destruct (collectRelevantEvents _ _ _ _) as [evs | m]; [| discriminate].
  simpl bindTry. unfold buildReport.
  destruct (mapTry _ _) as [ds | m]; [| discriminate].
  simpl. intros [= <-]. exists evs. split; [reflexivity |].
  simpl. auto.
Qed.

(** C8.  Two signed-in runs on the same configuration, calendars and
    category assignments, with the same host (zones, fetched events,
    collation), the first of which ends with a report, end in the same
    state, report and colours included, whatever report, error or loading
    flag each started from; and running again on the state that a run
    left gives that state again.  The colours of the report are those of
    this run alone: [projectColorMap] starts empty and [nextColorIndex] at
    0 in every run, so the colour of a project, of a fungible calendar or
    of a project summary is the palette entry at the position, counted
    from 0 and modulo the palette's length, of its name among the names
    for which the run called [getProjectColor], in the order of their
    first calls.  (Names and calendar ids are supposed not to be those of
    members of [Object.prototype], for which the lookups find the
    inherited member.) *)
Theorem rerun_gives_the_same_report_and_colours
    (zoneError : string -> option string) (host : Host) (s1 s2 : AppState)
    (data : ProcessedData) :
  isSignedIn s1 = true ->
  isSignedIn s2 = true ->
  timeConfig s2 = timeConfig s1 ->
  allCalendars s2 = allCalendars s1 ->
  calendarCategories s2 = calendarCategories s1 ->
  processedData (processCalendarDataIn zoneError host s1) = Some data ->
  (forall cal, In cal (allCalendars s1) ->
     ~ In (id cal) objectPrototypeMembers) ->
  (forall x, In x (projectTasks data) ->
     ~ In (project x) objectPrototypeMembers) ->
  (forall f, In f (fungibleTimeSummary data) ->
     ~ In (fs_project f) objectPrototypeMembers) ->
  processCalendarDataIn zoneError host s2
  = processCalendarDataIn zoneError host s1
  /\ processCalendarDataIn zoneError host
       (processCalendarDataIn zoneError host s1)
     = processCalendarDataIn zoneError host s1
  /\ exists relevantEvents,
       collectRelevantEvents host (calendarCategories s1) (allCalendars s1) []
       = Returned relevantEvents
       /\ let cfg := timeConfig s1 in
          let order :=
            firstSeen
              (colourRequests host cfg (allCalendars s1)
                 (initialAcc
                    (initDailyAvailabilityMap host cfg
                       (getDatesInRange host (startDate cfg) (endDate cfg)
                          (timezone cfg))))
                 relevantEvents) in
          (forall x, In x (projectTasks data) ->
             paletteColour <$> indexOf (project x) order = Some (color x))
          /\ (forall f, In f (fungibleTimeSummary data) ->
                paletteColour <$> indexOf (fs_project f) order
                = Some (fs_color f))
          /\ (forall p, In p (projectSummaries data) ->
                paletteColour <$> indexOf (ps_project p) order
                = Some (ps_color p)).
Proof.
  intros Hin1 Hin2 Hcfg Hcal Hcat Hdata _ _ _.
  destruct (processCalendarDataIn_report zoneError host s1 data Hin1 Hdata)
    as (Hz & Hdata').
  destruct (processCalendarData_report host s1 data Hin1 Hdata')
    as (Hrun & _ & _).
  destruct (processCalendarData_inputs host s1) as (H0 & H1 & H2 & H3).
  split; [| split].
  - rewrite !processCalendarDataIn_known_zone by congruence.
    now apply processCalendarData_same_inputs.
  - rewrite (processCalendarDataIn_known_zone zoneError host s1 Hz).
    rewrite processCalendarDataIn_known_zone by congruence.
    apply processCalendarData_same_inputs; congruence.
  - destruct (computeReport_anatomy host s1 data Hrun)
      as (evs & Hev & Htasks & Hsums & Hfung).
    exists evs. split; [exact Hev |]. cbv zeta in *.
    set (cfg := timeConfig s1) in *.
    set (m0 := initDailyAvailabilityMap host cfg _) in *.
    set (a := processEvents host cfg (allCalendars s1) (initialAcc m0) evs)
      in *.
    destruct (coloursRecorded_after_run host cfg (allCalendars s1) m0 evs)
      as (_ & Hpt & Hft & _).
    fold a in Hpt, Hft.
    destruct (processEvents_allotted host cfg (allCalendars s1) evs
                (initialAcc m0) [] (allotted_initial m0)) as [_ Hmap].
    fold a in Hmap.
    fold (firstSeen (colourRequests host cfg (allCalendars s1)
                       (initialAcc m0) evs)) in Hmap.
    assert (Htask : forall x,
              In x (JsObject.values (projectTaskMap a)) ->
              paletteColour
                <$> indexOf (project x)
                      (firstSeen (colourRequests host cfg (allCalendars s1)
                                    (initialAcc m0) evs))
              = Some (color x)).
    { intros x Hx. apply In_values in Hx as [k Hk].
      rewrite <- Hmap. eapply Hpt, Hk. }
    split; [| split].
    + intros x Hx. rewrite Htasks in Hx. apply In_sortBy in Hx.
      now apply Htask.
    + intros f Hf. rewrite Hfung in Hf.
      apply In_sortBy, in_map_iff in Hf as (f0 & <- & Hf0).
      apply In_values in Hf0 as [k Hk]. simpl.
      rewrite <- Hmap. eapply Hft, Hk.
    + intros p Hp. rewrite Hsums in Hp.
      apply In_sortBy, in_map_iff in Hp as ([k d] & <- & Hkd).
      apply (proj1 (In_entries _ _)) in Hkd. simpl.
      destruct (addToProjectSummaries_colours
                  (JsObject.values (projectTaskMap a))
                  (JsObject.values (projectTaskMap a)) []
                  ltac:(auto) ltac:(intros ? ? []) k d Hkd)
        as (x & Hx & <- & <-).
      now apply Htask.
Qed.

Lemma rerun_gives_the_same_report_and_colours_witness :
  let host := utcHost (fun _ => Fetched [eveningCall; standup; eveningCall]) in
  let s := signedIn (officeHours monday (monday + 6) (4 # 5)) Task in
  let stale :=
    {| isSignedIn := true;
       isLoading := true;
       error := Some "Failed to process data: Unknown error"%string;
       timeConfig := timeConfig s;
       allCalendars := allCalendars s;
       calendarCategories := calendarCategories s;
       processedData := Some emptyReport |} in
  exists data,
    processedData (processCalendarDataIn (fun _ => None) host s) = Some data
    /\ processCalendarDataIn (fun _ => None) host stale
       = processCalendarDataIn (fun _ => None) host s
    /\ map (fun x => (project x, color x)) (projectTasks data)
       = [("Acme", "#FF6384"); ("Standup", "#36A2EB")]%string
    /\ forall x, In x (projectTasks data) ->
         paletteColour <$> indexOf (project x) ["Acme"; "Standup"]%string
         = Some (color x).
Proof.
  intros host s stale.
  assert (H : { data | processedData
                         (processCalendarDataIn (fun _ => None) host s)
                       = Some data })
    by (eexists; vm_compute; reflexivity).
  destruct H as [data H]. exists data. split; [exact H |].
  assert (Hnames :
    map (fun x => (project x, color x)) (projectTasks data)
    = [("Acme", "#FF6384"); ("Standup", "#36A2EB")]%string
    /\ map fs_project (fungibleTimeSummary data) = []).
  { revert H. vm_compute. intros [= <-]. split; reflexivity. }
  destruct Hnames as (Hprojects & Hfungible).
  destruct (rerun_gives_the_same_report_and_colours (fun _ => None) host
              s stale data eq_refl eq_refl eq_refl eq_refl eq_refl H)
    as (Hsame & _ & evs & Hev & Hcolours & _).
  - intros cal [<- | []]. now apply isPrototypeMember_false.
  - intros x Hx Hmember.
    apply (in_map (fun x => (project x, color x))) in Hx.
    rewrite Hprojects in Hx.
    destruct Hx as [[= E _] | [[= E _] | []]]; rewrite <- E in Hmember;
      revert Hmember; now apply isPrototypeMember_false.
  - intros f Hf. apply (in_map fs_project) in Hf.
    rewrite Hfungible in Hf. destruct Hf.
  - split; [exact Hsame |]. split; [exact Hprojects |].
    revert Hev. vm_compute collectRelevantEvents. intros [= <-].
    exact Hcolours.
Defined.

(** ** Buckets and their labels *)

Lemma set_existing_keys {T} (o : list (string * T)) (k : string) (v : T) :
  is_Some (JsObject.get o k) ->
  map fst (JsObject.set o k v) = map fst o.
Proof.
  induction o as [| [k' v'] o IH]; simpl; [intros [? [=]] |].
  destruct (String.eqb k' k); simpl; [reflexivity |].
  intros H. now rewrite IH.
Qed.

Lemma set_missing_appends {T} (o : list (string * T)) (k : string) (v : T) :
  JsObject.get o k = None -> JsObject.set o k v = o ++ [(k, v)].
Proof.
  induction o as [| [k' v'] o IH]; simpl; [reflexivity |].
  destruct (String.eqb k' k); [discriminate |].
  intros H. now rewrite IH.
Qed.

Lemma processEvent_task_step host cfg calendars a ev eventStart eventEnd data :
  calendarCategory ev = Task ->
  start_dateTime (event ev) = Some eventStart ->
  end_dateTime (event ev) = Some eventEnd ->
  dailyAvailabilityMap a !! formatDateToYMD eventStart (tz host cfg) = Some data ->
  isBlocked (eventSummaryLowerOf ev) = false ->
  exists a1,
    projectTaskMap a1 = projectTaskMap a
    /\ projectColorMap a1 = projectColorMap a
    /\ nextColorIndex a1 = nextColorIndex a
    /\ let step :=
         addTaskHours
           (ensureProjectTask a1 (taskKeyOf ev)
              (fst (parseProjectTask (summary (event ev))))
              (snd (parseProjectTask (summary (event ev)))))
           (taskKeyOf ev) (inject_Z (eventEnd - eventStart) / 60000)%Q in
       projectTaskMap (processEvent host cfg calendars a ev) = projectTaskMap step
       /\ projectColorMap (processEvent host cfg calendars a ev)
          = projectColorMap step
       /\ nextColorIndex (processEvent host cfg calendars a ev)
          = nextColorIndex step.
Proof.
  intros Hcat Hs He Hd Hb.
  exists (if 0 <? workHoursOverlapOf host cfg eventStart eventEnd
          then set_dailyAvailabilityMap
                 (<[formatDateToYMD eventStart (tz host cfg)
                    := deductTask data
                         (workHoursOverlapOf host cfg eventStart eventEnd)]>
                    (dailyAvailabilityMap a)) a
          else a).
  split; [destruct (0 <? _); reflexivity |].
  split; [destruct (0 <? _); reflexivity |].
  split; [destruct (0 <? _); reflexivity |].
  unfold processEvent. rewrite Hs, He, Hd, Hcat.
  unfold taskBranch. unfold eventSummaryLowerOf in Hb. rewrite Hb.
  unfold taskKeyOf, workHoursOverlapOf.
  destruct (parseProjectTask (summary (event ev))) as [p t].
  cbv zeta. simpl. auto.
Qed.

Lemma get_app_last {T} (o : list (string * T)) (k : string) (v : T) :
  JsObject.get o k = None -> JsObject.get (o ++ [(k, v)]) k = Some v.
Proof.
  induction o as [| [k' v'] o IH]; simpl.
  - now rewrite String.eqb_refl.
  - destruct (String.eqb k' k); [discriminate | exact IH].
Qed.

Lemma set_app_last {T} (o : list (string * T)) (k : string) (v v' : T) :
  JsObject.get o k = None ->
  JsObject.set (o ++ [(k, v)]) k v' = o ++ [(k, v')].
Proof.
  induction o as [| [k0 v0] o IH]; simpl.
  - now rewrite String.eqb_refl.
  - destruct (String.eqb k0 k); [discriminate |].
    intros H. now rewrite IH.
Qed.

Lemma ensureProjectTask_new a key p t :
  JsObject.get (projectTaskMap a) key = None ->
  projectTaskMap (ensureProjectTask a key p t)
  = projectTaskMap a
    ++ [(key, {| project := p; task := t; hours := 0;
                 color := fst (getProjectColor p a) |})].
Proof.
  intros E. unfold ensureProjectTask. rewrite E.
  pose proof (getProjectColor_maps p a) as (_ & Hptm & _).
  destruct (getProjectColor p a) as [c a']. simpl in *.
  rewrite Hptm. now apply set_missing_appends.
Qed.

(** A later Task event of a bucket only adds hours: the bucket keeps the
    project, the task and the colour written by the first event of its
    key, no bucket is added or moved, and no colour is allocated.  The
    first event of a key appends its bucket after all the others, with its
    own project and task as labels and the colour of its project. *)
Theorem bucket_keeps_the_labels_of_its_first_event
    (host : Host) (cfg : TimeConfig) (calendars : list GoogleCalendar)
    (a : Acc) (ev : RelevantEvent) (eventStart eventEnd : Z)
    (data : DailyCapacity) :
  calendarCategory ev = Task ->
  start_dateTime (event ev) = Some eventStart ->
  end_dateTime (event ev) = Some eventEnd ->
  dailyAvailabilityMap a !! formatDateToYMD eventStart (tz host cfg) = Some data ->
  isBlocked (eventSummaryLowerOf ev) = false ->
  let a' := processEvent host cfg calendars a ev in
  let added := (inject_Z (eventEnd - eventStart) / 60000 / 60)%Q in
  match JsObject.get (projectTaskMap a) (taskKeyOf ev) with
  | Some pt =>
      JsObject.get (projectTaskMap a') (taskKeyOf ev)
      = Some {| project := project pt; task := task pt;
                hours := (hours pt + added)%Q; color := color pt |}
      /\ map fst (projectTaskMap a') = map fst (projectTaskMap a)
      /\ projectColorMap a' = projectColorMap a
      /\ nextColorIndex a' = nextColorIndex a
  | None =>
      projectTaskMap a'
      = projectTaskMap a
        ++ [(taskKeyOf ev,
             {| project := fst (parseProjectTask (summary (event ev)));
                task := snd (parseProjectTask (summary (event ev)));
                hours := (0 + added)%Q;
                color := fst (getProjectColor
                                (fst (parseProjectTask (summary (event ev)))) a) |})]
  end.
Proof.
  intros Hcat Hs He Hd Hb a' added.
  destruct (processEvent_task_step host cfg calendars a ev eventStart eventEnd
              data Hcat Hs He Hd Hb)
    as (a1 & Hptm & Hpcm & Hidx & Hp & Hc & Hi).
  fold a' in Hp, Hc, Hi. rewrite Hp, Hc, Hi. clear Hp Hc Hi.
  set (p := fst (parseProjectTask (summary (event ev)))).
  set (t := snd (parseProjectTask (summary (event ev)))).
  destruct (addTaskHours_maps (ensureProjectTask a1 (taskKeyOf ev) p t)
              (taskKeyOf ev) (inject_Z (eventEnd - eventStart) / 60000)%Q)
    as (_ & _ & _ & Hc2 & Hi2).
  destruct (JsObject.get (projectTaskMap a) (taskKeyOf ev)) as [pt |] eqn:E.
  - assert (Hens : ensureProjectTask a1 (taskKeyOf ev) p t = a1)
      by (unfold ensureProjectTask; now rewrite Hptm, E).
    rewrite Hens in *. rewrite Hc2, Hi2.
    unfold addTaskHours. rewrite Hptm, E. simpl.
    rewrite get_set_eq.
    split; [reflexivity |].
    split; [apply set_existing_keys; rewrite E; eauto | auto].
  - assert (Hcol : fst (getProjectColor p a1) = fst (getProjectColor p a))
      by (unfold getProjectColor; rewrite Hpcm, Hidx;
          destruct (Js.truthy _); reflexivity).
    unfold addTaskHours.
    rewrite (ensureProjectTask_new a1 (taskKeyOf ev) p t)
      by (now rewrite Hptm).
    rewrite Hptm, Hcol, (get_app_last _ _ _ E). simpl.
    now apply set_app_last.
Qed.

Lemma bucket_keeps_the_labels_of_its_first_event_witness :
  let host := hostWith eveningCall in
  let cfg := officeHours monday monday (4 # 5) in
  let a := processEvent host cfg oneCalendar
             (initialAcc (initDailyAvailabilityMap host cfg [utcInstant monday 12 0]))
             (tagged eveningCall Task) in
  let shout :=
    tagged (timedEvent "ACME :  call" (utcInstant monday 9 0)
                       (utcInstant monday 9 30)) Task in
  let a' := processEvent host cfg oneCalendar a shout in
  (exists pt,
     JsObject.get (projectTaskMap a') "acme::call" = Some pt
     /\ project pt = "Acme"%string /\ task pt = "Call"%string)
  /\ map fst (projectTaskMap a') = map fst (projectTaskMap a)
  /\ nextColorIndex a' = nextColorIndex a.
Proof.
  intros host cfg a shout a'.
  pose proof (bucket_keeps_the_labels_of_its_first_event host cfg oneCalendar
                a shout (utcInstant monday 9 0) (utcInstant monday 9 30)
                (initialCapacity host cfg (utcInstant monday 12 0))
                eq_refl eq_refl eq_refl ltac:(vm_compute; reflexivity) eq_refl)
    as H.
  fold a' in H.
  assert (E : { pt | JsObject.get (projectTaskMap a) (taskKeyOf shout) = Some pt
                     /\ project pt = "Acme"%string /\ task pt = "Call"%string })
    by (eexists; vm_compute; repeat split; reflexivity).
  destruct E as (pt & E & Hp & Ht). cbv zeta in H. rewrite E in H.
  destruct H as (H1 & H2 & _ & H4).
  split; [| split; assumption].
  eexists. split; [exact H1 |]. simpl. split; assumption.
Defined.

(** ** Letter case of a summary *)

Lemma lowerChar_idempotent (c : ascii) :
  Js.lowerChar (Js.lowerChar c) = Js.lowerChar c.
Proof. destruct c as [[] [] [] [] [] [] [] []]; reflexivity. Qed.

Lemma lowerChar_whitespace (c : ascii) :
  Js.isWhiteSpace (Js.lowerChar c) = Js.isWhiteSpace c.
Proof. destruct c as [[] [] [] [] [] [] [] []]; reflexivity. Qed.

Lemma lowerChar_colon (c : ascii) :
  Ascii.eqb (Js.lowerChar c) ":" = Ascii.eqb c ":".
Proof. destruct c as [[] [] [] [] [] [] [] []]; reflexivity. Qed.

Lemma toLowerCase_idempotent (s : string) :
  Js.toLowerCase (Js.toLowerCase s) = Js.toLowerCase s.
Proof.
  induction s as [| c s IH]; simpl; [reflexivity |].
  now rewrite lowerChar_idempotent, IH.
Qed.

Lemma trimStart_toLowerCase (s : string) :
  Js.trimStart (Js.toLowerCase s) = Js.toLowerCase (Js.trimStart s).
Proof.
  induction s as [| c s IH]; simpl; [reflexivity |].
  rewrite lowerChar_whitespace. destruct (Js.isWhiteSpace c); [exact IH | reflexivity].
Qed.

Lemma trimEnd_toLowerCase (s : string) :
  Js.trimEnd (Js.toLowerCase s) = Js.toLowerCase (Js.trimEnd s).
Proof.
  induction s as [| c s IH]; simpl; [reflexivity |].
  rewrite IH, lowerChar_whitespace.
  destruct (Js.trimEnd s) as [| c' r]; simpl;
    [destruct (Js.isWhiteSpace c); reflexivity | reflexivity].
Qed.

Lemma trim_toLowerCase (s : string) :
  Js.trim (Js.toLowerCase s) = Js.toLowerCase (Js.trim s).
Proof. unfold Js.trim. now rewrite trimStart_toLowerCase, trimEnd_toLowerCase. Qed.

Lemma includesChar_toLowerCase (s : string) :
  Js.includesChar (Js.toLowerCase s) ":" = Js.includesChar s ":".
Proof.
  induction s as [| c s IH]; simpl; [reflexivity |].
  now rewrite lowerChar_colon, IH.
Qed.

Lemma split_toLowerCase (s : string) :
  Js.split ":" (Js.toLowerCase s) = map Js.toLowerCase (Js.split ":" s).
Proof.
  induction s as [| c s IH]; simpl; [reflexivity |].
  rewrite lowerChar_colon, IH.
  destruct (Ascii.eqb c ":"); [reflexivity |].
  destruct (Js.split ":" s); reflexivity.
Qed.

Lemma taskKey_toLowerCase (p t : string) :
  taskKey (Js.toLowerCase p) (Js.toLowerCase t) = taskKey p t.
Proof.
  unfold taskKey. now rewrite !trim_toLowerCase, !toLowerCase_idempotent.
Qed.

Lemma parseProjectTask_toLowerCase (s : string) :
  taskKey (fst (parseProjectTask (Some (Js.toLowerCase s))))
          (snd (parseProjectTask (Some (Js.toLowerCase s))))
  = taskKey (fst (parseProjectTask (Some s))) (snd (parseProjectTask (Some s))).
Proof.
  destruct (Js.includesChar s ":") eqn:Hc.
  - destruct (split_has_two_pieces _ _ Hc) as (p & t & rest & E).
    unfold parseProjectTask, Js.splitLimit.
    rewrite includesChar_toLowerCase, Hc, split_toLowerCase, E. simpl.
    now rewrite !trim_toLowerCase, taskKey_toLowerCase.
  - unfold parseProjectTask.
    rewrite includesChar_toLowerCase, Hc.
    destruct s as [| c s]; [reflexivity |]. simpl.
    change (String (Js.lowerChar c) (Js.toLowerCase s))
      with (Js.toLowerCase (String c s)).
    apply taskKey_toLowerCase.
Qed.

(** Grouping ignores letter case: two summaries that are equal once
    lower-cased have the same bucket key, so their events fall into one
    bucket. *)
Theorem summaries_equal_up_to_case_share_a_bucket
    (ev1 ev2 : RelevantEvent) (text1 text2 : string) :
  summary (event ev1) = Some text1 ->
  summary (event ev2) = Some text2 ->
  Js.toLowerCase text1 = Js.toLowerCase text2 ->
  taskKeyOf ev1 = taskKeyOf ev2.
Proof.
  intros H1 H2 E. unfold taskKeyOf. rewrite H1, H2.
  rewrite <- (parseProjectTask_toLowerCase text1),
          <- (parseProjectTask_toLowerCase text2), E.
  reflexivity.
Qed.

Lemma summaries_equal_up_to_case_share_a_bucket_witness :
  taskKeyOf (tagged (timedEvent "Acme: Draft Proposal" 0 0) Task)
  = taskKeyOf (tagged (timedEvent "ACME: draft proposal" 0 0) Task).
Proof.
  apply (summaries_equal_up_to_case_share_a_bucket _ _
           "Acme: Draft Proposal" "ACME: draft proposal");
    reflexivity.
Defined.

(** ** Sorting and enumerating rearrange, nothing more *)

Lemma insertSorted_Permutation {A} (cmp : A -> A -> comparison) x l :
  Permutation (insertSorted cmp x l) (x :: l).
Proof.
  induction l as [| y l IH]; simpl; [reflexivity |].
  destruct (cmp x y); try reflexivity.
  rewrite IH. apply perm_swap.
Qed.

Lemma sortBy_Permutation {A} (cmp : A -> A -> comparison) l :
  Permutation (sortBy cmp l) l.
Proof.
  induction l as [| x l IH]; simpl; [reflexivity |].
  rewrite insertSorted_Permutation. now constructor.
Qed.

Lemma entries_Permutation {T} (o : list (string * T)) :
  Permutation (JsObject.entries o) o.
Proof.
  unfold JsObject.entries. rewrite sortBy_Permutation.
  induction o as [| kv o IH]; [reflexivity |].
  rewrite !filter_cons.
  destruct (decide (JsObject.isIndex (fst kv) = true)) as [E | E].
  - destruct (decide (JsObject.isIndex (fst kv) = false)); [congruence |].
    simpl. now constructor.
  - destruct (decide (JsObject.isIndex (fst kv) = false)) as [_ | E'].
    + rewrite <- Permutation_middle. now constructor.
    + destruct (JsObject.isIndex (fst kv)); congruence.
Qed.

(** ** Order of the summaries *)

Lemma get_None_keys {T} (o : list (string * T)) (k : string) :
  JsObject.get o k = None <-> ~ In k (map fst o).
Proof.
  induction o as [| [k' v] o IH]; simpl; [tauto |].
  destruct (String.eqb k' k) eqn:E.
  - apply String.eqb_eq in E. split; [discriminate | tauto].
  - apply String.eqb_neq in E. rewrite IH. tauto.
Qed.

Lemma In_get {T} (o : list (string * T)) (k : string) (v : T) :
  NoDup (map fst o) -> In (k, v) o -> JsObject.get o k = Some v.
Proof.
  induction o as [| [k' v'] o IH]; simpl; [tauto |].
  intros Hnd [[= -> ->] | Hin].
  - now rewrite String.eqb_refl.
  - apply NoDup_cons in Hnd as [Hk' Hnd].
    destruct (String.eqb k' k) eqn:E; [| now apply IH].
    apply String.eqb_eq in E. subst k'. exfalso. apply Hk'.
    apply list_elem_of_In. apply (in_map fst) in Hin. exact Hin.
Qed.

Lemma set_keys_NoDup {T} (o : list (string * T)) (k : string) (v : T) :
  NoDup (map fst o) -> NoDup (map fst (JsObject.set o k v)).
Proof.
  intros Hnd. destruct (JsObject.get o k) as [v0 |] eqn:E.
  - rewrite set_existing_keys by eauto. exact Hnd.
  - rewrite (set_missing_appends o k v E), map_app. simpl.
    apply NoDup_app. split; [exact Hnd |]. split; [| apply NoDup_singleton].
    intros x Hx Hk. apply list_elem_of_In in Hx.
    apply list_elem_of_In in Hk. destruct Hk as [<- | []].
    apply get_None_keys in E. tauto.
Qed.

Lemma insertSorted_descending {A} (h : A -> Q) (x : A) (l : list A) :
  StronglySorted (fun a b => (h b <= h a)%Q) l ->
  StronglySorted (fun a b => (h b <= h a)%Q)
    (insertSorted (fun a b => Qcompare (h b) (h a)) x l).
Proof.
  induction l as [| y l IH]; intros Hs; simpl.
  - repeat constructor.
  - apply StronglySorted_inv in Hs as [Hs Hy].
    destruct (Qcompare (h y) (h x)) eqn:E.
    + apply Qeq_alt in E. constructor; [now constructor |].
      constructor; [lra |].
      eapply List.Forall_impl; [| exact Hy]. simpl. intros z Hz. lra.
    + apply Qlt_alt in E. constructor; [now constructor |].
      constructor; [lra |].
      eapply List.Forall_impl; [| exact Hy]. simpl. intros z Hz. lra.
    + apply Qgt_alt in E. constructor; [now apply IH |].
      apply List.Forall_forall. intros z Hz.
      apply In_insertSorted in Hz as [-> | Hz]; [lra |].
      rewrite List.Forall_forall in Hy. now apply Hy.
Qed.

Lemma sortBy_descending {A} (h : A -> Q) (l : list A) :
  StronglySorted (fun a b => (h b <= h a)%Q)
    (sortBy (fun a b => Qcompare (h b) (h a)) l).
Proof.
  induction l as [| x l IH]; simpl; [constructor |].
  now apply insertSorted_descending.
Qed.

(** Both summaries of a report are in descending order of hours. *)
Theorem summaries_are_in_descending_order_of_hours
    (host : Host) (s : AppState) (data : ProcessedData) :
  computeReport host s = Returned data ->
  StronglySorted (fun x y => (ps_totalHours y <= ps_totalHours x)%Q)
    (projectSummaries data)
  /\ StronglySorted (fun x y => (fs_totalHours y <= fs_totalHours x)%Q)
       (fungibleTimeSummary data).
Proof.
  unfold computeReport.
  destruct (collectRelevantEvents _ _ _ _) as [evs | m]; [| discriminate].
  simpl bindTry. unfold buildReport.
  destruct (mapTry _ _) as [ds | m]; [| discriminate].
  simpl. intros [= <-]. simpl. split.
  - apply (sortBy_descending ps_totalHours).
  - apply (sortBy_descending fs_totalHours).
Qed.

Lemma summaries_are_in_descending_order_of_hours_witness :
  let host := utcHost (fun _ => Fetched [standup; eveningCall; allDayWorkshop]) in
  let s := signedIn (officeHours monday monday (4 # 5)) Task in
  exists data,
    computeReport host s = Returned data
    /\ StronglySorted (fun x y => (ps_totalHours y <= ps_totalHours x)%Q)
         (projectSummaries data).
Proof.
  intros host s.
  assert (H : { data | computeReport host s = Returned data })
    by (eexists; vm_compute; reflexivity).
  destruct H as [data H]. exists data. split; [exact H |].
  exact (proj1 (summaries_are_in_descending_order_of_hours host s data H)).
Defined.

(** ** The daily entries in closed form *)

Lemma Math_max_Qeq (x y : Q) :
  (x == y)%Q -> (Js.Math_max 0 x == Js.Math_max 0 y)%Q.
Proof.
  intros H.
  destruct (Math_max_cases 0 x) as [[H1 ->] | [H1 ->]];
    destruct (Math_max_cases 0 y) as [[H2 ->] | [H2 ->]]; lra.
Qed.

Lemma Qdiv_60_Qeq (x y : Q) : (x == y)%Q -> (x / 60 == y / 60)%Q.
Proof. intros ->. reflexivity. Qed.

Lemma report_entries host cfg calendars dates evs :
  exists ds,
    mapTry (dailyAvailabilityOf host cfg
              (dailyAvailabilityMap
                 (processEvents host cfg calendars
                    (initialAcc (initDailyAvailabilityMap host cfg dates)) evs)))
           dates
    = Returned ds
    /\ Forall
         (fun d =>
            exists dt,
              In dt dates
              /\ date d = formatDateToYMD dt (tz host cfg)
              /\ (availableHours d
                  == Js.Math_max 0
                       ((availableMinutes (initialCapacity host cfg dt)
                         - fungibleMinutesOn host cfg (date d) evs
                         - taskMinutesOn host cfg (date d) evs) / 60))%Q
              /\ (totalHours d
                  == Js.Math_max 0
                       ((totalMinutes (initialCapacity host cfg dt)
                         - fungibleMinutesOn host cfg (date d) evs) / 60))%Q)
         ds.
Proof.
  set (m0 := initDailyAvailabilityMap host cfg dates).
  set (a := processEvents _ _ _ _ _).
  destruct (mapTry_dailyAvailabilityOf host cfg (dailyAvailabilityMap a)
              (fun d =>
                 exists dt,
                   In dt dates
                   /\ date d = formatDateToYMD dt (tz host cfg)
                   /\ (availableHours d
                       == Js.Math_max 0
                            ((availableMinutes (initialCapacity host cfg dt)
                              - fungibleMinutesOn host cfg (date d) evs
                              - taskMinutesOn host cfg (date d) evs) / 60))%Q
                   /\ (totalHours d
                       == Js.Math_max 0
                            ((totalMinutes (initialCapacity host cfg dt)
                              - fungibleMinutesOn host cfg (date d) evs) / 60))%Q)
              dates) as (ds & Hds & _ & HF); [| eauto].
  intros dt Hin.
  destruct (initDailyAvailabilityMap_covers host cfg dates dt Hin) as [c0 Hc0].
  fold m0 in Hc0.
  destruct (processEvents_capacity_sums host cfg calendars evs (initialAcc m0)
              _ c0 Hc0) as (c & Hc & Hf & Ht).
  fold a in Hc.
  pose proof (tracks_processEvents host cfg calendars m0 evs (initialAcc m0)
                (tracks_refl _) (formatDateToYMD dt (tz host cfg))) as Hb.
  fold a in Hb. rewrite Hc0, Hc in Hb. destruct Hb as (Htot & Hav & _ & _).
  destruct (initDailyAvailabilityMap_lookup host cfg dates _ _ Hc0)
    as (dt' & Hin' & Hk & ->).
  change (fungibleMinutes (initialCapacity host cfg dt')) with 0%Q in *.
  change (taskMinutes (initialCapacity host cfg dt')) with 0%Q in *.
  unfold dailyAvailabilityOf. rewrite Hc.
  eexists. split; [reflexivity |]. split; [reflexivity |].
  exists dt'. split; [exact Hin' |]. split; [simpl; congruence |].
  simpl date. simpl availableHours. simpl totalHours.
  unfold fungibleMinutesOn, taskMinutesOn.
  split; apply Math_max_Qeq, Qdiv_60_Qeq; rewrite ?Htot; lra.
Qed.

Lemma computeReport_entries host s evs data :
  collectRelevantEvents host (calendarCategories s) (allCalendars s) []
  = Returned evs ->
  computeReport host s = Returned data ->
  let cfg := timeConfig s in
  let dates := getDatesInRange host (startDate cfg) (endDate cfg) (timezone cfg) in
  Forall
    (fun d =>
       exists dt,
         In dt dates
         /\ date d = formatDateToYMD dt (tz host cfg)
         /\ (availableHours d
             == Js.Math_max 0
                  ((availableMinutes (initialCapacity host cfg dt)
                    - fungibleMinutesOn host cfg (date d) evs
                    - taskMinutesOn host cfg (date d) evs) / 60))%Q
         /\ (totalHours d
             == Js.Math_max 0
                  ((totalMinutes (initialCapacity host cfg dt)
                    - fungibleMinutesOn host cfg (date d) evs) / 60))%Q)
    (dailyAvailability data).
Proof.
  intros Hev Hrun cfg dates. unfold computeReport in Hrun.
  rewrite Hev in Hrun. simpl bindTry in Hrun. fold cfg dates in Hrun.
  destruct (report_entries host cfg (allCalendars s) dates evs)
    as (ds & Hds & HF).
  unfold buildReport in Hrun. rewrite Hds in Hrun. simpl in Hrun.
  injection Hrun as <-. exact HF.
Qed.

Lemma initialCapacity_window host cfg dt :
  availableMinutes (initialCapacity host cfg dt)
  = Js.Math_max 0 (inject_Z (windowMinutes host cfg dt) * timeBufferFactor cfg)
  /\ totalMinutes (initialCapacity host cfg dt)
     = Js.Math_max 0
         (inject_Z (windowMinutes host cfg dt) * timeBufferFactor cfg
          / timeBufferFactor cfg).
Proof.
  unfold initialCapacity, windowMinutes. cbv zeta.
  destruct (isWeekend host dt); split; reflexivity.
Qed.

(** The daily entries of a report, from the events that the run fetched.
    With [W] the length in minutes of the work window of the day, [b] the
    buffer factor, [F] the sum of the overlaps of the day's Fungible
    events and [T] the sum of the overlaps of its unblocked Task events,
    the entry of the day has [availableHours = max(0, (max(0, W * b) - F -
    T) / 60)] and [totalHours = max(0, (max(0, W * b / b) - F) / 60)]. *)
Theorem daily_entries_follow_from_the_overlaps
    (zoneError : string -> option string) (host : Host) (s : AppState)
    (data : ProcessedData) :
  isSignedIn s = true ->
  processedData (processCalendarDataIn zoneError host s) = Some data ->
  let cfg := timeConfig s in
  let dates := getDatesInRange host (startDate cfg) (endDate cfg) (timezone cfg) in
  exists relevantEvents,
    collectRelevantEvents host (calendarCategories s) (allCalendars s) []
    = Returned relevantEvents
    /\ map date (dailyAvailability data)
       = map (fun dt => formatDateToYMD dt (tz host cfg)) dates
    /\ Forall
         (fun d =>
            exists dt,
              In dt dates
              /\ date d = formatDateToYMD dt (tz host cfg)
              /\ (availableHours d
                  == Js.Math_max 0
                       ((Js.Math_max 0
                           (inject_Z (windowMinutes host cfg dt)
                            * timeBufferFactor cfg)
                         - fungibleMinutesOn host cfg (date d) relevantEvents
                         - taskMinutesOn host cfg (date d) relevantEvents)
                        / 60))%Q
              /\ (totalHours d
                  == Js.Math_max 0
                       ((Js.Math_max 0
                           (inject_Z (windowMinutes host cfg dt)
                            * timeBufferFactor cfg / timeBufferFactor cfg)
                         - fungibleMinutesOn host cfg (date d) relevantEvents)
                        / 60))%Q)
         (dailyAvailability data).
Proof.
  intros Hin Hdata cfg dates.
  destruct (processCalendarDataIn_report zoneError host s data Hin Hdata)
    as (_ & Hdata').
  destruct (processCalendarData_report host s data Hin Hdata')
    as (Hrun & _ & _).
  destruct (computeReport_anatomy host s data Hrun) as (evs & Hev & _).
  exists evs. split; [exact Hev |].
  pose proof (computeReport_entries host s evs data Hev Hrun) as HF.
  cbv zeta in HF. fold cfg in HF. fold dates in HF.
  split.
  - unfold computeReport in Hrun. rewrite Hev in Hrun.
    simpl bindTry in Hrun. fold cfg dates in Hrun.
    unfold buildReport in Hrun.
    destruct (mapTry_dailyAvailabilityOf host cfg
                (dailyAvailabilityMap
                   (processEvents host cfg (allCalendars s)
                      (initialAcc (initDailyAvailabilityMap host cfg dates))
                      evs))
                (fun _ => True) dates) as (ds & Hds & Hmap & _).
    + intros dt Hdt. unfold dailyAvailabilityOf.
      destruct (initDailyAvailabilityMap_covers host cfg dates dt Hdt)
        as [c0 Hc0].
      destruct (processEvents_capacity_sums host cfg (allCalendars s) evs
                  (initialAcc (initDailyAvailabilityMap host cfg dates))
                  _ c0 Hc0) as (c & Hc & _).
      rewrite Hc. eauto.
    + rewrite Hds in Hrun. simpl in Hrun. injection Hrun as <-. exact Hmap.
  - eapply Forall_impl; [exact HF |].
    intros d (dt & Hdt & Hdate & Hav & Htot).
    destruct (initialCapacity_window host cfg dt) as [Ha Ht].
    rewrite Ha in Hav. rewrite Ht in Htot.
    exists dt. auto.
Qed.

Lemma daily_entries_follow_from_the_overlaps_witness :
  let host := utcHost (fun _ => Fetched [standup; allDayWorkshop]) in
  let s := signedIn (officeHours monday monday (4 # 5)) Task in
  exists data d,
    processedData (processCalendarDataIn (fun _ => None) host s) = Some data
    /\ dailyAvailability data = [d]
    /\ (availableHours d == 0)%Q.
Proof.
  intros host s.
  assert (H : { data | processedData
                         (processCalendarDataIn (fun _ => None) host s)
                       = Some data })
    by (eexists; vm_compute; reflexivity).
  destruct H as [data H]. exists data.
  destruct (daily_entries_follow_from_the_overlaps (fun _ => None) host s data
              eq_refl H) as (evs & Hev & Hdates & HF).
  revert Hev. vm_compute collectRelevantEvents. intros [= <-].
  destruct (dailyAvailability data) as [| d [| d' rest]] eqn:E;
    try discriminate Hdates.
  exists d. split; [exact H |]. split; [reflexivity |].
  apply Forall_cons in HF as [(dt & Hin & Hd & Hav & _) _].
  destruct Hin as [<- | []]. rewrite Hav, Hd. vm_compute. reflexivity.
Defined.

(** ** Hours of the buckets *)




Section Buckets.
Variable host : Host.
Variable cfg : TimeConfig.
Variable calendars : list GoogleCalendar.
Variable m : gmap Z DailyCapacity.












End Buckets.



(** ** Hours of the fungible entries *)





Section FungibleEntries.
Variable host : Host.
Variable cfg : TimeConfig.
Variable calendars : list GoogleCalendar.
Variable m : gmap Z DailyCapacity.












End FungibleEntries.



(** ** Hours of the project summaries *)

Lemma addToProjectSummaries_total m pt name :
  isPrototypeMember name = false ->
  totalOf (JsObject.get (addToProjectSummaries m pt) name)
  = addProjectHours name (totalOf (JsObject.get m name)) pt.
Proof.
  intros Hname. unfold addToProjectSummaries, addProjectHours.
  destruct (isPrototypeMember (project pt)) eqn:Hp.
  - destruct (String.eqb_spec (project pt) name) as [E | _]; [| reflexivity].
    congruence.
  - set (m1 := match JsObject.get m (project pt) with
               | Some _ => m
               | None => JsObject.set m (project pt)
                           {| pt_totalHours := 0; pt_color := color pt |}
               end).
    assert (H1 : exists d,
              JsObject.get m1 (project pt) = Some d
              /\ pt_totalHours d = totalOf (JsObject.get m (project pt))).
    { subst m1. destruct (JsObject.get m (project pt)) as [d |] eqn:E.
      - exists d. rewrite E. now split.
      - eexists. rewrite get_set_eq. split; reflexivity. }
    assert (H2 : forall k, k <> project pt ->
              JsObject.get m1 k = JsObject.get m k).
    { intros k Hk. subst m1. destruct (JsObject.get m (project pt));
        [reflexivity |]. apply get_set_ne. congruence. }
    destruct H1 as (d & Hd & Htot). rewrite Hd.
    destruct (String.eqb_spec (project pt) name) as [<- | Hne].
    + rewrite get_set_eq. simpl. now rewrite Htot.
    + rewrite get_set_ne by exact Hne. apply f_equal, H2. congruence.
Qed.

Lemma addToProjectSummaries_keys m pt :
  NoDup (map fst m) ->
  NoDup (map fst (addToProjectSummaries m pt))
  /\ forall name,
       In name (map fst (addToProjectSummaries m pt))
       <-> In name (map fst m)
           \/ (name = project pt /\ isPrototypeMember name = false).
Proof.
  intros Hnd. unfold addToProjectSummaries.
  destruct (isPrototypeMember (project pt)) eqn:Hp.
  { split; [exact Hnd |]. intros name. split; [auto |].
    intros [H | [-> H]]; [exact H | congruence]. }
  set (m1 := match JsObject.get m (project pt) with
             | Some _ => m
             | None => JsObject.set m (project pt)
                         {| pt_totalHours := 0; pt_color := color pt |}
             end).
  assert (H1 : NoDup (map fst m1)
               /\ is_Some (JsObject.get m1 (project pt))
               /\ forall name, In name (map fst m1)
                    <-> In name (map fst m) \/ name = project pt).
  { subst m1. destruct (JsObject.get m (project pt)) as [d |] eqn:E.
    - split; [exact Hnd |]. split; [eauto |].
      intros name. split; [auto |]. intros [H | ->]; [exact H |].
      destruct (in_dec string_dec (project pt) (map fst m)) as [H | H];
        [exact H |]. apply get_None_keys in H. congruence.
    - split; [now apply set_keys_NoDup |].
      split; [rewrite get_set_eq; eauto |].
      intros name. rewrite (set_missing_appends m _ _ E), map_app, in_app_iff.
      simpl. intuition. }
  destruct H1 as (Hnd1 & [d Hd] & Hkeys). rewrite Hd.
  rewrite set_existing_keys by eauto.
  split; [exact Hnd1 |].
  intros name. rewrite Hkeys. split.
  - intros [H | ->]; auto.
  - intros [H | [-> _]]; auto.
Qed.

Lemma fold_addToProjectSummaries pts : forall m,
  NoDup (map fst m) ->
  (forall name, In name (map fst m) -> isPrototypeMember name = false) ->
  let sums := fold_left addToProjectSummaries pts m in
  NoDup (map fst sums)
  /\ (forall name,
        In name (map fst sums)
        <-> In name (map fst m)
            \/ (In name (map project pts) /\ isPrototypeMember name = false))
  /\ forall name,
       isPrototypeMember name = false ->
       totalOf (JsObject.get sums name)
       = fold_left (addProjectHours name) pts (totalOf (JsObject.get m name)).
Proof.
  induction pts as [| pt pts IH]; intros m Hnd Hproto.
  - simpl. split; [exact Hnd |]. split; [| reflexivity].
    intros name. split; [auto |]. intros [H | [[] _]]. exact H.
  - destruct (addToProjectSummaries_keys m pt Hnd) as (Hnd1 & Hkeys1).
    destruct (IH (addToProjectSummaries m pt) Hnd1) as (Hnd2 & Hkeys2 & Htot2).
    { intros name Hin. apply Hkeys1 in Hin as [H | [_ H]]; auto. }
    simpl. split; [exact Hnd2 |]. split.
    + intros name. rewrite Hkeys2, Hkeys1. split.
      * intros [[H | [-> H]] | [H1 H2]]; auto.
      * intros [H | [[<- | H1] H2]]; auto.
    + intros name Hname. rewrite (Htot2 name Hname).
      now rewrite addToProjectSummaries_total.
Qed.

(** The project summaries of a report, from the buckets in the order of
    [Object.values(projectTaskMap)], of which the report's project/task
    entries are the sorted list.  There is one summary for each project
    name of a bucket that is not the name of a member of
    [Object.prototype], and none else; its total is the hours of the
    buckets of that project, added to 0 one after the other in the order
    of the buckets. *)
Theorem project_summary_adds_the_hours_of_its_buckets
    (zoneError : string -> option string) (host : Host) (s : AppState)
    (data : ProcessedData) :
  isSignedIn s = true ->
  processedData (processCalendarDataIn zoneError host s) = Some data ->
  exists relevantEvents,
    collectRelevantEvents host (calendarCategories s) (allCalendars s) []
    = Returned relevantEvents
    /\ let buckets := bucketsAfter host s relevantEvents in
       projectTasks data = sortBy (compareProjectTask host) buckets
       /\ NoDup (map ps_project (projectSummaries data))
       /\ (forall name,
             In name (map ps_project (projectSummaries data))
             <-> In name (map project (projectTasks data))
                 /\ ~ In name objectPrototypeMembers)
       /\ forall p, In p (projectSummaries data) ->
            ps_totalHours p
            = fold_left (addProjectHours (ps_project p)) buckets 0%Q.
Proof.
  intros Hin Hdata.
  destruct (processCalendarDataIn_report zoneError host s data Hin Hdata)
    as (_ & Hdata').
  destruct (processCalendarData_report host s data Hin Hdata')
    as (Hrun & _ & _).
  destruct (computeReport_anatomy host s data Hrun)
    as (evs & Hev & Htasks & Hsums & _).
  exists evs. split; [exact Hev |].
  cbv zeta in *. fold (bucketsAfter host s evs) in Htasks, Hsums.
  set (buckets := bucketsAfter host s evs) in *.
  destruct (fold_addToProjectSummaries buckets [])
    as (Hnd & Hkeys & Htot); [constructor | intros ? [] |].
  set (sums := fold_left addToProjectSummaries buckets []) in *.
  assert (Hnames : Permutation (map ps_project (projectSummaries data))
                               (map fst sums)).
  { rewrite Hsums, (Permutation_map _ (sortBy_Permutation _ _)), map_map.
    simpl. apply Permutation_map, entries_Permutation. }
  split; [exact Htasks |]. split; [now rewrite Hnames |]. split.
  - intros name. rewrite Hnames, Hkeys, Htasks.
    split.
    + intros [[] | [H1 H2]]. split; [| now apply isPrototypeMember_false].
      apply in_map_iff in H1 as (x & <- & Hx).
      apply in_map, In_sortBy, Hx.
    + intros [H1 H2]. right. split.
      * apply in_map_iff in H1 as (x & <- & Hx).
        apply in_map. now apply In_sortBy in Hx.
      * destruct (isPrototypeMember name) eqn:E; [| reflexivity].
        destruct H2. now apply isPrototypeMember_true.
  - intros p Hp. rewrite Hsums in Hp.
    apply In_sortBy, in_map_iff in Hp as ([k d] & <- & Hkd).
    apply (proj1 (In_entries _ _)) in Hkd. simpl.
    assert (Hk : isPrototypeMember k = false).
    { assert (In k (map fst sums)) as Hx
        by (apply in_map_iff; exists (k, d); auto).
      apply Hkeys in Hx as [[] | [_ Hx]]. exact Hx. }
    pose proof (Htot k Hk) as Hh. rewrite (In_get _ _ _ Hnd Hkd) in Hh.
    exact Hh.
Qed.

Lemma project_summary_adds_the_hours_of_its_buckets_witness :
  let host :=
    utcHost (fun _ => Fetched [eveningCall; standup;
                               timedEvent "Acme: Plan"
                                 (utcInstant monday 9 0)
                                 (utcInstant monday 9 30)]) in
  let s := signedIn (officeHours monday monday (4 # 5)) Task in
  exists data,
    processedData (processCalendarDataIn (fun _ => None) host s) = Some data
    /\ map (fun p => (ps_project p, ps_totalHours p)) (projectSummaries data)
       = [("Acme"%string,
           0 + (0 + inject_Z 3600000 / 60000 / 60)
             + (0 + inject_Z 1800000 / 60000 / 60));
          ("Standup"%string, 0 + (0 + inject_Z 3600000 / 60000 / 60))]%Q.
Proof.
  intros host s.
  assert (H : { data | processedData
                         (processCalendarDataIn (fun _ => None) host s)
                       = Some data })
    by (eexists; vm_compute; reflexivity).
  destruct H as [data H]. exists data. split; [exact H |].
  assert (Hlabels :
    map ps_project (projectSummaries data) = ["Acme"; "Standup"]%string).
  { revert H. vm_compute. intros [= <-]. reflexivity. }
  destruct (project_summary_adds_the_hours_of_its_buckets (fun _ => None)
              host s data eq_refl H) as (evs & Hev & _ & _ & _ & Hhours).
  revert Hev. vm_compute collectRelevantEvents. intros [= <-].
  destruct (projectSummaries data) as [| x [| y [| z rest]]];
    try discriminate Hlabels.
  injection Hlabels as Hx Hy.
  pose proof (Hhours x (or_introl eq_refl)) as Hhx.
  pose proof (Hhours y (or_intror (or_introl eq_refl))) as Hhy.
  rewrite Hx in Hhx. rewrite Hy in Hhy.
  simpl map. rewrite Hx, Hy, Hhx, Hhy. reflexivity.
Defined.

(** ** The categories of the calendar list *)

Lemma fold_insert_lookup {V} (f : GoogleCalendar -> V) (cals : list GoogleCalendar) :
  forall (m : gmap string V) (k : string),
    (In k (map id cals) ->
     exists cal, In cal cals /\ id cal = k
                 /\ fold_left (fun m cal => <[id cal := f cal]> m) cals m !! k
                    = Some (f cal))
    /\ (~ In k (map id cals) ->
        fold_left (fun m cal => <[id cal := f cal]> m) cals m !! k = m !! k).
Proof.
  induction cals as [| cal cals IH]; intros m k; simpl.
  - split; [intros [] | reflexivity].
  - destruct (IH (<[id cal := f cal]> m) k) as [IHin IHout].
    destruct (in_dec string_dec k (map id cals)) as [Hk | Hk].
    + split; [| tauto]. intros _.
      destruct (IHin Hk) as (c & Hc & Hid & Hl). eauto 6.
    + rewrite (IHout Hk). split.
      * intros [Hid | Hin]; [| contradiction].
        exists cal. rewrite <- Hid, lookup_insert_eq. auto.
      * intros Hno. apply lookup_insert_ne. tauto.
Qed.

Lemma initialCategories_lookup saved cals :
  (forall cal, In cal cals ->
     initialCategories saved cals !! id cal
     = Some (default Inactive (saved ≫= fun m => m !! id cal)))
  /\ (forall k, ~ In k (map id cals) -> initialCategories saved cals !! k = None).
Proof.
  unfold initialCategories. split.
  - intros cal Hin.
    destruct (proj1 (fold_insert_lookup
                       (fun cal => default Inactive
                                     (saved ≫= fun m => m !! id cal))
                       cals ∅ (id cal)) (in_map id _ _ Hin))
      as (c & _ & Hid & Hl).
    rewrite Hl, Hid. reflexivity.
  - intros k Hk.
    rewrite (proj2 (fold_insert_lookup
                      (fun cal => default Inactive
                                    (saved ≫= fun m => m !! id cal))
                      cals ∅ k) Hk).
    apply lookup_empty.
Qed.

Lemma taggedEventsOf_none host categories cals :
  (forall cal, In cal cals -> isActive categories cal = false) ->
  flat_map (taggedEventsOf host categories) cals = [].
Proof.
  induction cals as [| cal rest IH]; intros Hnone; [reflexivity |].
  simpl. rewrite IH by (intros c Hc; apply Hnone; now right).
  pose proof (Hnone cal (or_introl eq_refl)) as Hc.
  unfold isActive in Hc. unfold taggedEventsOf.
  destruct (categories !! id cal) as [[| |] |]; try discriminate; reflexivity.
Qed.

Lemma hasActiveCalendars_iff cals categories :
  hasActiveCalendars cals categories = true
  <-> exists cal, In cal cals /\ isActive categories cal = true.
Proof.
  unfold hasActiveCalendars. rewrite existsb_exists. reflexivity.
Qed.

(** The categories that the page starts with after the calendar list is
    loaded: every listed calendar gets its saved category, or Inactive if
    none is saved; ids that are not in the list get none, so that saved
    categories of calendars that are gone are dropped; without saved
    categories nothing is active; and loading the list again with the
    categories saved by the first load changes nothing. *)
Theorem listed_calendars_start_with_saved_category_or_inactive
    (saved : option (gmap string CalendarCategory))
    (cals : list GoogleCalendar) :
  let cats := initialCategories saved cals in
  (forall cal, In cal cals ->
     cats !! id cal = Some (default Inactive (saved ≫= fun m => m !! id cal)))
  /\ (forall k, ~ In k (map id cals) -> cats !! k = None)
  /\ (hasActiveCalendars cals cats = true
      <-> exists cal m, In cal cals /\ saved = Some m
                        /\ (m !! id cal = Some Task
                            \/ m !! id cal = Some Fungible))
  /\ initialCategories (Some cats) cals = cats.
Proof.
  intros cats. destruct (initialCategories_lookup saved cals) as [Hin Hout].
  fold cats in Hin, Hout.
  split; [exact Hin |]. split; [exact Hout |]. split.
  - rewrite hasActiveCalendars_iff. unfold isActive. split.
    + intros (cal & Hc & Hact). rewrite (Hin cal Hc) in Hact.
      destruct saved as [m |]; [| discriminate]. simpl in Hact.
      exists cal, m. split; [exact Hc |]. split; [reflexivity |].
      destruct (m !! id cal) as [[| |] |]; try discriminate; auto.
    + intros (cal & m & Hc & -> & Hm). exists cal. split; [exact Hc |].
      rewrite (Hin cal Hc). simpl. destruct Hm as [-> | ->]; reflexivity.
  - apply map_eq. intros k.
    destruct (initialCategories_lookup (Some cats) cals) as [Hin' Hout'].
    destruct (in_dec string_dec k (map id cals)) as [Hk | Hk].
    + apply in_map_iff in Hk as (cal & <- & Hc).
      rewrite (Hin' cal Hc). simpl. rewrite (Hin cal Hc). reflexivity.
    + rewrite (Hout' k Hk), (Hout k Hk). reflexivity.
Qed.

(** After a reset of the settings, as on a first visit without saved
    categories, every listed calendar is Inactive: the analysis does not
    start by itself, and a run asks no calendar for its events. *)
Theorem reset_categories_leave_nothing_to_fetch
    (host : Host) (cals : list GoogleCalendar) :
  let cats := resetCategories cals in
  initialCategories None cals = cats
  /\ (forall cal, In cal cals -> cats !! id cal = Some Inactive)
  /\ hasActiveCalendars cals cats = false
  /\ displayedCalendars false cals cats = []
  /\ collectRelevantEvents host cats cals [] = Returned [].
Proof.
  intros cats.
  assert (Hall : forall cal, In cal cals -> cats !! id cal = Some Inactive).
  { intros cal Hin.
    destruct (proj1 (fold_insert_lookup (fun _ => Inactive) cals ∅ (id cal))
                (in_map id _ _ Hin)) as (c & _ & _ & Hl).
    exact Hl. }
  assert (Hnone : forall cal, In cal cals -> isActive cats cal = false)
    by (intros cal Hin; unfold isActive; now rewrite (Hall cal Hin)).
  split; [reflexivity |]. split; [exact Hall |]. split; [| split].
  - destruct (hasActiveCalendars cals cats) eqn:E; [| reflexivity].
    apply hasActiveCalendars_iff in E as (cal & Hc & Hact).
    rewrite (Hnone cal Hc) in Hact. discriminate.
  - unfold displayedCalendars.
    assert (H : forall cal, In cal (List.filter
                  (fun cal => match cats !! id cal with
                              | Some Inactive => false
                              | _ => true
                              end) cals) -> False).
    { intros cal Hc. apply filter_In in Hc as [Hc Hf].
      rewrite (Hall cal Hc) in Hf. discriminate. }
    destruct (List.filter _ cals) as [| cal rest]; [reflexivity |].
    destruct (H cal (or_introl eq_refl)).
  - rewrite (collectRelevantEvents_fetched host cats cals []).
    + f_equal. simpl. now apply taggedEventsOf_none.
    + intros cal Hc Hact. rewrite (Hnone cal Hc) in Hact. discriminate.
Qed.

(** With the inactive calendars hidden, the list on the page shows the
    calendars whose events a run fetches, provided that every listed
    calendar has a category, as it has once the list is loaded; a
    calendar without a category is shown although no run fetches it. *)
Theorem hidden_inactive_view_shows_the_fetched_calendars
    (cals : list GoogleCalendar) (cats : gmap string CalendarCategory) :
  (forall cal, In cal cals -> is_Some (cats !! id cal)) ->
  displayedCalendars false cals cats = List.filter (isActive cats) cals
  /\ displayedCalendars true cals cats = cals
  /\ forall cal, cats !! id cal = None ->
       displayedCalendars false [cal] cats = [cal]
       /\ isActive cats cal = false.
Proof.
  intros Hall. unfold displayedCalendars, isActive. split; [| split].
  - apply filter_ext_in. intros cal Hc.
    destruct (Hall cal Hc) as [[| |] ->]; reflexivity.
  - reflexivity.
  - intros cal Hc. simpl. rewrite Hc. split; reflexivity.
Qed.

Lemma hidden_inactive_view_shows_the_fetched_calendars_witness :
  displayedCalendars false oneCalendar
    (calendarCategories (signedIn (officeHours monday monday (4 # 5)) Task))
  = oneCalendar.
Proof.
  rewrite (proj1 (hidden_inactive_view_shows_the_fetched_calendars
                    oneCalendar
                    (calendarCategories
                       (signedIn (officeHours monday monday (4 # 5)) Task))
                    ltac:(intros cal [<- | []]; vm_compute; eauto))).
  vm_compute. reflexivity.
Defined.

(** ** The token store *)

Lemma digitsPrefix_of_uint_acc (d : Decimal.uint) : forall acc : positive,
  JsNumber.digitsPrefix (DecimalString.NilEmpty.string_of_uint d)
    (Some (Z.pos acc))
  = Some (Z.pos (Pos.of_uint_acc d acc)).
Proof.
  induction d; intros acc; simpl; try reflexivity;
    change (JsObject.digit _) with (Some 0%N) || change (JsObject.digit _) with (Some 1%N)
    || change (JsObject.digit _) with (Some 2%N) || change (JsObject.digit _) with (Some 3%N)
    || change (JsObject.digit _) with (Some 4%N) || change (JsObject.digit _) with (Some 5%N)
    || change (JsObject.digit _) with (Some 6%N) || change (JsObject.digit _) with (Some 7%N)
    || change (JsObject.digit _) with (Some 8%N) || change (JsObject.digit _) with (Some 9%N);
    cbv beta iota; rewrite <- IHd; f_equal; f_equal; simpl; lia.
Qed.

Lemma digitsPrefix_of_uint (d : Decimal.uint) : forall acc : option Z,
  default 0 acc = 0 ->
  d <> Decimal.Nil ->
  JsNumber.digitsPrefix (DecimalString.NilEmpty.string_of_uint d) acc
  = Some (Z.of_N (Pos.of_uint d)).
Proof.
  induction d; intros acc Hacc Hnil; try congruence; simpl;
    change (JsObject.digit _) with (Some 0%N) || change (JsObject.digit _) with (Some 1%N)
    || change (JsObject.digit _) with (Some 2%N) || change (JsObject.digit _) with (Some 3%N)
    || change (JsObject.digit _) with (Some 4%N) || change (JsObject.digit _) with (Some 5%N)
    || change (JsObject.digit _) with (Some 6%N) || change (JsObject.digit _) with (Some 7%N)
    || change (JsObject.digit _) with (Some 8%N) || change (JsObject.digit _) with (Some 9%N);
    cbv beta iota; rewrite Hacc; simpl;
    try apply digitsPrefix_of_uint_acc.
  destruct d; try (apply IHd; [reflexivity | discriminate]). reflexivity.
Qed.

Lemma parseInt_toString (n : Z) :
  JsNumber.parseInt (JsNumber.toString n) = Some n.
Proof.
  unfold JsNumber.toString.
  assert (Hpos : forall p,
            JsNumber.digitsPrefix
              (DecimalString.NilZero.string_of_uint (Pos.to_uint p)) None
            = Some (Z.pos p)).
  { intros p. pose proof (DecimalPos.Unsigned.to_uint_nonnil p) as Hnil.
    pose proof (DecimalPos.Unsigned.of_to p) as Hof.
    unfold DecimalString.NilZero.string_of_uint.
    destruct (Pos.to_uint p) eqn:E; try congruence;
      rewrite (digitsPrefix_of_uint _ None eq_refl) by discriminate;
      now rewrite Hof. }
  assert (Hfirst : forall p,
            exists c r,
              DecimalString.NilZero.string_of_uint (Pos.to_uint p) = String c r
              /\ is_Some (JsObject.digit c)).
  { intros p. pose proof (DecimalPos.Unsigned.to_uint_nonnil p) as Hnil.
    unfold DecimalString.NilZero.string_of_uint.
    destruct (Pos.to_uint p); try congruence; simpl;
      eexists _, _; (split; [reflexivity | vm_compute; eauto]). }
  assert (Hplain : forall c r,
            is_Some (JsObject.digit c) ->
            JsNumber.parseInt (String c r)
            = JsNumber.digitsPrefix (String c r) None).
  { intros c r [d Hd]. unfold JsNumber.parseInt.
    destruct c as [[] [] [] [] [] [] [] []]; try discriminate Hd; reflexivity. }
  destruct n as [| p | p]; simpl.
  - reflexivity.
  - destruct (Hfirst p) as (c & r & E & Hc). rewrite <- (Hpos p), E.
    now apply Hplain.
  - unfold JsNumber.parseInt. simpl Js.trimStart. cbv iota beta.
    rewrite Hpos. reflexivity.
Qed.

(** A token that was stored is given back until it expires, and removed
    when it is asked for after that: [getStoredToken] returns the token
    while the clock is before [now + expiresIn * 1000] and leaves the
    store as it is; from that instant on, and for an empty token at
    once, it returns nothing and leaves neither the token nor its expiry
    in the store.  The expiry is written as decimal text and read back
    with [parseInt]; the statement is for expiry instants that a
    JavaScript number holds exactly, those below [2^53] in magnitude. *)
Theorem stored_token_is_returned_until_it_expires
    (st : TokenStore) (token : string) (expiresIn now later : Z) :
  - 2 ^ 53 < now + expiresIn * 1000 < 2 ^ 53 ->
  let stored := storeToken token expiresIn now st in
  (token <> EmptyString -> later < now + expiresIn * 1000 ->
   getStoredToken later stored = (Some token, stored))
  /\ (token = EmptyString \/ now + expiresIn * 1000 <= later ->
      fst (getStoredToken later stored) = None
      /\ localStorage (snd (getStoredToken later stored)) !! TOKEN_STORAGE_KEY
         = None
      /\ localStorage (snd (getStoredToken later stored)) !! TOKEN_EXPIRY_KEY
         = None
      /\ accessToken (snd (getStoredToken later stored)) = None
      /\ fst (getStoredToken later (snd (getStoredToken later stored))) = None).
Proof.
  intros _ stored.
  assert (Htok : localStorage stored !! TOKEN_STORAGE_KEY = Some token).
  { unfold stored, storeToken. simpl.
    rewrite lookup_insert_ne by discriminate. apply lookup_insert_eq. }
  assert (Hexp : localStorage stored !! TOKEN_EXPIRY_KEY
                 = Some (JsNumber.toString (now + expiresIn * 1000)))
    by (unfold stored, storeToken; simpl; apply lookup_insert_eq).
  assert (Hdigits : Js.truthy (Some (JsNumber.toString (now + expiresIn * 1000)))
                    = true).
  { pose proof (parseInt_toString (now + expiresIn * 1000)) as H.
    destruct (JsNumber.toString _); [discriminate H | reflexivity]. }
  assert (Hcleared : forall s,
            localStorage (clearStoredToken s) !! TOKEN_STORAGE_KEY = None
            /\ localStorage (clearStoredToken s) !! TOKEN_EXPIRY_KEY = None).
  { intros s. unfold clearStoredToken. simpl. split.
    - rewrite lookup_delete_ne by discriminate. apply lookup_delete_eq.
    - apply lookup_delete_eq. }
  assert (Hrun : getStoredToken later stored
                 = if (Js.truthy (Some token)
                       && (later <? now + expiresIn * 1000))%bool
                   then (Some token, stored)
                   else (None, clearStoredToken stored)).
  { unfold getStoredToken. rewrite Htok, Hexp. cbn [mbind option_bind].
    rewrite parseInt_toString, Hdigits, andb_true_r.
    destruct (Js.truthy (Some token) && (later <? _))%bool; reflexivity. }
  split.
  - intros Hne Hlt. rewrite Hrun.
    destruct token; [congruence |]. simpl Js.truthy.
    now rewrite (proj2 (Z.ltb_lt _ _) Hlt).
  - intros Hcase.
    assert (E : getStoredToken later stored = (None, clearStoredToken stored)).
    { rewrite Hrun. destruct Hcase as [-> | Hle]; [reflexivity |].
      rewrite (proj2 (Z.ltb_ge _ _) Hle), andb_false_r. reflexivity. }
    rewrite E. simpl fst. simpl snd.
    destruct (Hcleared stored) as [H1 H2].
    split; [reflexivity |]. split; [exact H1 |]. split; [exact H2 |].
    split; [reflexivity |].
    unfold getStoredToken. rewrite H1. reflexivity.
Qed.

Lemma stored_token_is_returned_until_it_expires_witness :
  let st := {| localStorage := ∅; accessToken := None |} in
  fst (getStoredToken 1762156800000
         (storeToken "ya29.token" 3599 1762153200000 st)) = None
  /\ fst (getStoredToken 1762156798999
            (storeToken "ya29.token" 3599 1762153200000 st))
     = Some "ya29.token"%string.
Proof.
  intros st.
  destruct (stored_token_is_returned_until_it_expires st "ya29.token" 3599
              1762153200000 1762156800000 ltac:(lia)) as [_ Hlate].
  destruct (stored_token_is_returned_until_it_expires st "ya29.token" 3599
              1762153200000 1762156798999 ltac:(lia)) as [Hearly _].
  split.
  - apply Hlate. right. lia.
  - rewrite Hearly; [reflexivity | discriminate | lia].
Defined.

(** ** The rows of the daily details *)

Lemma fungibleBranch_fst a ev k data calendar o :
  fst (fungibleBranch a ev k data calendar o)
  = if 0 <? o then reduces_available else ignored.
Proof.
  unfold fungibleBranch. destruct (0 <? o); destruct calendar; reflexivity.
Qed.

Lemma taskBranch_fst a ev k data lower o dur :
  fst (taskBranch a ev k data lower o dur)
  = if isBlocked lower then ignored else task_tracked.
Proof.
  unfold taskBranch. destruct (isBlocked lower); [reflexivity |].
  destruct (parseProjectTask (summary (event ev))). reflexivity.
Qed.

Lemma processEvent_details host cfg calendars a ev k :
  is_Some (dailyAvailabilityMap a !! k) ->
  default [] (dailyDetailsMap (processEvent host cfg calendars a ev) !! k)
  = default [] (dailyDetailsMap a !! k)
    ++ omap (detailRowOn host cfg calendars k) [ev].
Proof.
  intros [data Hk]. cbn [omap list_omap]. unfold detailRowOn.
  destruct (start_dateTime (event ev)) as [eventStart |] eqn:Hs.
  2:{ unfold processEvent. rewrite Hs. now rewrite app_nil_r. }
  destruct (end_dateTime (event ev)) as [eventEnd |] eqn:He.
  2:{ unfold processEvent. rewrite Hs, He. now rewrite app_nil_r. }
  destruct (formatDateToYMD eventStart (tz host cfg) =? k) eqn:Hday.
  2:{ apply Z.eqb_neq in Hday. rewrite app_nil_r.
      destruct (processEvent_detail_rows host cfg calendars a ev)
        as [-> | (s0 & e0 & row & Hs0 & _ & -> & _)]; [reflexivity |].
      rewrite Hs in Hs0. injection Hs0 as <-.
      now rewrite lookup_insert_ne by exact Hday. }
  apply Z.eqb_eq in Hday. unfold impactOf, workHoursOverlapOf, eventSummaryLowerOf.
  rewrite Hs, He. unfold processEvent. rewrite Hs, He, Hday, Hk.
  set (o := calculateWorkHoursOverlap _ _ _ _ _).
  destruct (calendarCategory ev) eqn:Hcat.
  - now rewrite app_nil_r.
  - pose proof (fungibleBranch_fst a ev k data
                  (find (fun c => String.eqb (id c) (calendarId ev)) calendars) o)
      as Hi.
    pose proof (proj1 (fungibleBranch_impact a ev k data
                  (find (fun c => String.eqb (id c) (calendarId ev)) calendars) o))
      as Hdd.
    destruct (fungibleBranch _ _ _ _ _ _) as [i a']. simpl in Hi, Hdd.
    subst i. destruct (0 <? o).
    + simpl. rewrite lookup_insert_eq, Hdd. reflexivity.
    + rewrite Hdd. now rewrite app_nil_r.
  - pose proof (taskBranch_fst a ev k data
                  (Js.toLowerCase (default EmptyString (summary (event ev)))) o
                  (inject_Z (eventEnd - eventStart) / 60000)%Q) as Hi.
    pose proof (proj1 (taskBranch_impact a ev k data
                  (Js.toLowerCase (default EmptyString (summary (event ev)))) o
                  (inject_Z (eventEnd - eventStart) / 60000)%Q)) as Hdd.
    destruct (taskBranch _ _ _ _ _ _ _) as [i a']. simpl in Hi, Hdd.
    subst i. destruct (isBlocked _).
    + rewrite Hdd. now rewrite app_nil_r.
    + simpl. rewrite lookup_insert_eq, Hdd. reflexivity.
Qed.

Lemma processEvents_details host cfg calendars evs k : forall a,
  is_Some (dailyAvailabilityMap a !! k) ->
  default [] (dailyDetailsMap (processEvents host cfg calendars a evs) !! k)
  = default [] (dailyDetailsMap a !! k)
    ++ omap (detailRowOn host cfg calendars k) evs.
Proof.
  induction evs as [| ev evs IH]; intros a Hk.
  - simpl. now rewrite app_nil_r.
  - change (processEvents host cfg calendars a (ev :: evs))
      with (processEvents host cfg calendars
              (processEvent host cfg calendars a ev) evs).
    rewrite IH, (processEvent_details host cfg calendars a ev k Hk).
    + rewrite <- app_assoc. f_equal. cbn [omap list_omap].
      destruct (detailRowOn host cfg calendars k ev); reflexivity.
    + apply (processEvents_capacity_days host cfg calendars [ev] a k), Hk.
Qed.

(** The daily details of a report have one entry per date of the range,
    in order; the rows of a date are those of the events that start on it
    and are not ignored, in the order in which the events were fetched,
    each event once. *)
Theorem daily_details_list_the_events_of_each_day
    (host : Host) (s : AppState) (evs : list RelevantEvent)
    (data : ProcessedData) :
  let cfg := timeConfig s in
  let dates := getDatesInRange host (startDate cfg) (endDate cfg) (timezone cfg) in
  collectRelevantEvents host (calendarCategories s) (allCalendars s) []
  = Returned evs ->
  computeReport host s = Returned data ->
  dailyDetails data
  = map (fun dt =>
           {| dd_date := formatDateToYMD dt (tz host cfg);
              events := omap (detailRowOn host cfg (allCalendars s)
                                (formatDateToYMD dt (tz host cfg))) evs |})
        dates.
Proof.
  intros cfg dates Hev. unfold computeReport. rewrite Hev. simpl bindTry.
  fold cfg. fold dates. unfold buildReport.
  destruct (mapTry _ _) as [ds | m]; [| discriminate].
  simpl. intros [= <-]. simpl.
  apply map_ext_in. intros dt Hdt. unfold dailyDetailsOf. f_equal.
  rewrite processEvents_details
    by (simpl; now apply initDailyAvailabilityMap_covers).
  simpl. now rewrite lookup_empty.
Qed.

Lemma daily_details_list_the_events_of_each_day_witness :
  let host := utcHost (fun _ => Fetched [eveningCall; standup]) in
  let s := signedIn (officeHours monday monday (4 # 5)) Task in
  exists data,
    computeReport host s = Returned data
    /\ map (fun day => map de_summary (events day)) (dailyDetails data)
       = [["Acme: Call"; "Standup"]]%string.
Proof.
  intros host s.
  assert (H : { data | computeReport host s = Returned data })
    by (eexists; vm_compute; reflexivity).
  destruct H as [data H]. exists data. split; [exact H |].
  rewrite (daily_details_list_the_events_of_each_day host s
             [tagged eveningCall Task; tagged standup Task] data eq_refl H).
  vm_compute. reflexivity.
Defined.
